(** * DroNET entities and QTAR routing: a shallow embedding

    The development follows [src/entities/uav_entities.py] and
    [src/routing_algorithms/qtar_routing.py].

    - Python [int] is [Z]; Python and numpy [float] is the binary64 type
      [float] of the kernel, with its IEEE operations.
    - Objects that are shared and mutated (packets) live in a store keyed by
      their identity [id(self)]; the drones of [simulator.drones] are
      addressed by their position in that list.
    - A Python exception is the result [None]. *)

From Stdlib Require Import ZArith Bool PrimFloat FloatOps SpecFloat.
From Stdlib Require FloatAxioms Sorted.
From stdpp Require Import base option list gmap strings.

Local Open Scope Z_scope.

(** A decimal literal denotes the nearest binary64 value, as in Python. *)
#[local] Set Warnings "-inexact-float".

(** ** Numbers *)

Module PyFloat.

(** [float(n)] for a Python [int]: the nearest binary64, ties to even. *)
Definition of_int (n : Z) : float :=
  SF2Prim (binary_normalize prec emax n 0 false).

(** [np.ceil]: the least integral value not below [x]; infinities, NaN and
    zeros are returned as they are, and a negative [x] above [-1] gives
    [-0.0]. *)
Definition ceil (x : float) : float :=
  match Prim2SF x with
  | S754_finite s m e =>
      if 0 <=? e then x
      else
        let d := 2 ^ (- e) in
        let q := Z.pos m / d in
        let r := Z.pos m mod d in
        if s then (if q =? 0 then neg_zero else of_int (- q))
        else of_int (if r =? 0 then q else q + 1)
  | _ => x
  end.

(** [a > b] on floats: false as soon as one side is NaN. *)
Definition gt (a b : float) : bool := PrimFloat.ltb b a.

(** [np.fmax]: the larger operand, a NaN operand being ignored. *)
Definition fmax (a b : float) : float :=
  if is_nan a then b
  else if is_nan b then a
  else if PrimFloat.ltb a b then b else a.

(** [np.nanmax] of a non-empty array ([None] on an empty one, where numpy
    raises [ValueError]). *)
Definition nanmax (l : list float) : option float :=
  match l with
  | [] => None
  | x :: l' => Some (foldl fmax x l')
  end.

End PyFloat.

(** ** Indexing a Python sequence or a numpy array

    An index [i] with [-len <= i < len] is valid, a negative one counting
    from the end; any other index raises [IndexError]. *)

Definition py_index (len : nat) (i : Z) : option nat :=
  if (0 <=? i) && (i <? Z.of_nat len) then Some (Z.to_nat i)
  else if (- Z.of_nat len <=? i) && (i <? 0) then Some (Z.to_nat (Z.of_nat len + i))
  else None.

Definition py_getitem {A} (l : list A) (i : Z) : option A :=
  k ← py_index (length l) i; l !! k.

Definition py_setitem {A} (l : list A) (i : Z) (v : A) : option (list A) :=
  k ← py_index (length l) i; Some (<[k := v]> l).

(** ** The built-in [hash] of CPython (64-bit build, version 3.8 and later)
       on the values [Entity.__hash__] feeds it *)

Module PyHash.

Definition modulus : Z := 2 ^ 61 - 1.

(** The result [-1] is reserved: it is replaced by [-2]. *)
Definition fix_minus_one (h : Z) : Z := if h =? -1 then -2 else h.

(** [hash(n)] for an [int]: the sign of [n] times [|n|] modulo [2^61 - 1]. *)
Definition hash_int (n : Z) : Z :=
  fix_minus_one (Z.sgn n * (Z.abs n mod modulus)).

(** [2^e] modulo [2^61 - 1], for any integer [e] (there [2^61 = 1]). *)
Definition pow2_mod (e : Z) : Z := 2 ^ (e mod 61).

(** [hash(x)] for a [float]: a finite [x = m * 2^e] hashes like the
    rational number it is, so an integral float hashes like the [int].
    The hash of a NaN depends on the object in recent versions and is
    left at [0] here. *)
Definition hash_float (x : float) : Z :=
  match Prim2SF x with
  | S754_zero _ => 0
  | S754_infinity s => if s then -314159 else 314159
  | S754_nan => 0
  | S754_finite s m e =>
      let h := (Z.pos m mod modulus * pow2_mod e) mod modulus in
      fix_minus_one (if s then - h else h)
  end.

Definition XXPRIME_1 : Z := 11400714785074694791.
Definition XXPRIME_2 : Z := 14029467366897019727.
Definition XXPRIME_5 : Z := 2870177450012600261.

Definition u64 (x : Z) : Z := x mod 2 ^ 64.

Definition XXROTATE (x : Z) : Z :=
  u64 (Z.lor (Z.shiftl x 31) (Z.shiftr x 33)).

(** The signed reading of a 64-bit word. *)
Definition to_signed (x : Z) : Z := if x <? 2 ^ 63 then x else x - 2 ^ 64.

(** [hash(t)] for a tuple, from the hashes of its items. *)
Definition hash_tuple (lanes : list Z) : Z :=
  let acc :=
    foldl (fun acc lane => u64 (XXROTATE (u64 (acc + u64 lane * XXPRIME_2)) * XXPRIME_1))
          XXPRIME_5 lanes in
  let acc := u64 (acc + Z.lxor (Z.of_nat (length lanes)) (Z.lxor XXPRIME_5 3527539)) in
  if acc =? 2 ^ 64 - 1 then 1546275796 else to_signed acc.

End PyHash.

(** ** Entities *)

(** A drone is referred to by its position in [simulator.drones]. *)
Abbreviation DroneRef := nat.

Record Entity := {
  identifier : Z;                 (* the id of the entity *)
  coords : float * float;         (* the coordinates of the entity on the map *)
}.

Module Entity.

(** Entity objects are identified by their id. *)
Definition __eq__ (self other : Entity) : bool :=
  identifier other =? identifier self.

(** [hash((self.identifier, self.coords))] *)
Definition __hash__ (self : Entity) : Z :=
  PyHash.hash_tuple
    [PyHash.hash_int (identifier self);
     PyHash.hash_tuple [PyHash.hash_float (fst (coords self));
                        PyHash.hash_float (snd (coords self))]].

(** Moving an entity: an assignment to [coords]. *)
Definition set_coords (self : Entity) (c : float * float) : Entity :=
  {| identifier := identifier self; coords := c |}.

End Entity.

(** ** The simulator

    The class [Simulator] is not part of the sources at hand; the record
    lists its attributes that the entities read. *)

Record Simulator := {
  cur_step : Z;
  event_duration : Z;
  packets_max_ttl : Z;
  n_drones : nat;
  drone_max_energy : float;
  drone_sen_range : float;
  drone_com_range : float;
  drone_max_buffer_size : Z;
  time_step_duration : float;
  routing_algorithm_name : string;       (* simulator.routing_algorithm.name *)
}.

(** The sets and lists of [simulator.metrics] that the entities fill.  An
    entity is kept in a set under its id (entities are equal when their ids
    are); a pair [(pck, step)] under the pair of the packet id and the step. *)
Record Metrics := {
  events : gset Z;
  drones_packets : gset Z;
  drones_packets_to_depot : gset (Z * Z);
  drones_packets_to_depot_list : list (Z * Z);
}.

(** ** Events *)

Record Event := {
  event_entity :> Entity;
  current_time : Z;
  deadline : Z;
}.

Module Event.

(** [Event(coords, current_time, simulator, deadline)]; [self_id] is
    [id(self)], the identity of the object under construction. *)
Definition __init__ (self_id : Z) (coords : float * float) (current_time : Z)
    (simulator : Simulator) (metrics : Metrics) (deadline : Z) : Event * Metrics :=
  let self :=
    {| event_entity := {| identifier := self_id; coords := coords |};
       current_time := current_time;
       deadline := if deadline =? -1 then current_time + event_duration simulator
                   else deadline |} in
  let is_placeholder_coords :=
    PrimFloat.eqb (fst coords) (-1)%float && PrimFloat.eqb (snd coords) (-1)%float in
  if negb is_placeholder_coords && negb (current_time =? -1)
  then (self, {| events := {[ self_id ]} ∪ events metrics;
                 drones_packets := drones_packets metrics;
                 drones_packets_to_depot := drones_packets_to_depot metrics;
                 drones_packets_to_depot_list := drones_packets_to_depot_list metrics |})
  else (self, metrics).

(** return true if the deadline expired *)
Definition is_expired (self : Event) (cur_step : Z) : bool :=
  deadline self <? cur_step.

End Event.

(** ** Packets *)

(** The event of a packet is never modified after its creation: the packet
    record carries it by value.  [TTL] and [max_TTL] are the private
    attributes [__TTL] and [__max_TTL]. *)
Record Packet := {
  packet_entity :> Entity;
  time_step_creation : Z;
  event_ref : Event;
  TTL : Z;                               (* the number of hops that the packet crossed *)
  max_TTL : Z;
  number_retransmission_attempt : Z;
  last_2_hops : list DroneRef;
  optional_data : list Z;
  time_delivery : Z;
  is_move_packet : bool;
}.

Module Packet.

(** [Packet(time_step_creation, simulator, event_ref)].  Without an event
    the packet gets a placeholder event, of identity [default_event_id]. *)
Definition __init__ (self_id default_event_id : Z) (time_step_creation : Z)
    (simulator : Simulator) (metrics : Metrics) (event_ref : option Event)
    : Packet * Metrics :=
  let '(event_ref_crafted, metrics) :=
    match event_ref with
    | Some ev => (ev, metrics)
    | None => Event.__init__ default_event_id ((-1)%float, (-1)%float) (-1)
                             simulator metrics (-1)
    end in
  let self :=
    {| packet_entity := {| identifier := self_id;
                           coords := coords event_ref_crafted |};
       time_step_creation := time_step_creation;
       event_ref := event_ref_crafted;
       TTL := -1;
       max_TTL := packets_max_ttl simulator;
       number_retransmission_attempt := 0;
       last_2_hops := [];
       optional_data := [];
       time_delivery := -1;
       is_move_packet := false |} in
  match event_ref with
  | Some _ =>
      (self, {| events := events metrics;
                drones_packets := {[ self_id ]} ∪ drones_packets metrics;
                drones_packets_to_depot := drones_packets_to_depot metrics;
                drones_packets_to_depot_list := drones_packets_to_depot_list metrics |})
  | None => (self, metrics)
  end.

Definition increase_TTL_hops (self : Packet) : Packet :=
  {| packet_entity := packet_entity self;
     time_step_creation := time_step_creation self;
     event_ref := event_ref self;
     TTL := TTL self + 1;
     max_TTL := max_TTL self;
     number_retransmission_attempt := number_retransmission_attempt self;
     last_2_hops := last_2_hops self;
     optional_data := optional_data self;
     time_delivery := time_delivery self;
     is_move_packet := is_move_packet self |}.

Definition set_last_2_hops (self : Packet) (hops : list DroneRef) : Packet :=
  {| packet_entity := packet_entity self;
     time_step_creation := time_step_creation self;
     event_ref := event_ref self;
     TTL := TTL self;
     max_TTL := max_TTL self;
     number_retransmission_attempt := number_retransmission_attempt self;
     last_2_hops := hops;
     optional_data := optional_data self;
     time_delivery := time_delivery self;
     is_move_packet := is_move_packet self |}.

Definition set_time_delivery (self : Packet) (step : Z) : Packet :=
  {| packet_entity := packet_entity self;
     time_step_creation := time_step_creation self;
     event_ref := event_ref self;
     TTL := TTL self;
     max_TTL := max_TTL self;
     number_retransmission_attempt := number_retransmission_attempt self;
     last_2_hops := last_2_hops self;
     optional_data := optional_data self;
     time_delivery := step;
     is_move_packet := is_move_packet self |}.

(** add a new hop in the packet *)
Definition add_hop (self : Packet) (drone : DroneRef) : Packet :=
  let self :=
    if (length (last_2_hops self) =? 2)%nat
    then set_last_2_hops self (drop 1 (last_2_hops self))   (* keep just the last two HOPS *)
    else self in
  let self := set_last_2_hops self (last_2_hops self ++ [drone]) in
  increase_TTL_hops self.

(** a packet expires if the deadline of the event expires *)
Definition is_expired (self : Packet) (cur_step : Z) : bool :=
  deadline (event_ref self) <? cur_step.

Definition age_of_packet (self : Packet) (cur_step : Z) : Z :=
  cur_step - time_step_creation self.

End Packet.

(** [DataPacket] adds nothing to [Packet]. *)
Definition DataPacket := Packet.

Module EventAsPacket.

(** [Event.as_packet]: build a packet out of the event, then add the input
    drone as first hop. *)
Definition as_packet (self : Event) (pck_id : Z) (time_step_creation : Z)
    (drone : DroneRef) (simulator : Simulator) (metrics : Metrics)
    : DataPacket * Metrics :=
  let '(pck, metrics) :=
    Packet.__init__ pck_id 0 time_step_creation simulator metrics (Some self) in
  (Packet.add_hop pck drone, metrics).

End EventAsPacket.

(** ** Drones *)

(** [R] is the type of the routing-algorithm instance a drone owns.  The
    buffer [__buffer] holds packets by reference, that is by their ids.
    [tightest_event_deadline] is a float that is either [np.nan] ([None])
    or the copy of an integer deadline.  The attribute [depot] refers to the
    one depot of the simulation and is not repeated in each drone. *)
Record Drone (R : Type) := {
  drone_entity :> Entity;
  path : list (float * float);
  speed : float;
  sensing_range : float;
  communication_range : float;
  buffer_max_size : Z;
  residual_energy : float;
  come_back_to_mission : bool;
  last_move_routing : bool;
  tightest_event_deadline : option Z;
  current_waypoint : Z;
  buffer : list Z;
  distance_from_depot : float;
  move_routing : bool;
  power : Z;
  link_holding_timer : float;
  tau : float;
  hello_interval : float;
  dist_t1 : list float;
  t1 : list float;
  dist_t2 : list float;
  t2 : list float;
  sequence_number : Z;
  one_hop_neighbors : list DroneRef;
  prev_one_hop_neighbors : list DroneRef;
  two_hop_neighbors : list (Z * list DroneRef);   (* a dict, in insertion order *)
  routing_algorithm : R;
  last_mission_coords : option (float * float);
}.

Arguments drone_entity {R} _.
Arguments path {R} _.
Arguments speed {R} _.
Arguments sensing_range {R} _.
Arguments communication_range {R} _.
Arguments buffer_max_size {R} _.
Arguments residual_energy {R} _.
Arguments come_back_to_mission {R} _.
Arguments last_move_routing {R} _.
Arguments tightest_event_deadline {R} _.
Arguments current_waypoint {R} _.
Arguments buffer {R} _.
Arguments distance_from_depot {R} _.
Arguments move_routing {R} _.
Arguments power {R} _.
Arguments link_holding_timer {R} _.
Arguments tau {R} _.
Arguments hello_interval {R} _.
Arguments dist_t1 {R} _.
Arguments t1 {R} _.
Arguments dist_t2 {R} _.
Arguments t2 {R} _.
Arguments sequence_number {R} _.
Arguments one_hop_neighbors {R} _.
Arguments prev_one_hop_neighbors {R} _.
Arguments two_hop_neighbors {R} _.
Arguments routing_algorithm {R} _.
Arguments last_mission_coords {R} _.

(** ** Hello packets *)

Record HelloPacket := {
  hello_packet :> Packet;
  cur_pos : float * float;
  hello_speed : float;
  hello_next_target : float * float;
  src_drone : DroneRef;
  hello_link_holding_timer : float;
  hello_sequence_number : Z;
  hello_one_hop_neighbors : list DroneRef;       (* one hop neighbors N1 *)
  hello_two_hop_neighbors : list (Z * list DroneRef);   (* two hop neighbors N2 *)
}.

Module HelloPacket.

Section Init.
Context {R : Type}.

(** [src] is the object [src_drone] as the constructor finds it and
    [src_ref] the reference to it; the result holds the new packet, the
    object [src_drone] as the constructor leaves it, and the metrics. *)
Definition __init__ (self_id default_event_id : Z)
    (src_ref : DroneRef) (src : Drone R) (time_step_creation : Z)
    (simulator : Simulator) (metrics : Metrics)
    (cur_pos' : float * float) (speed' : float) (next_target : float * float)
    (link_holding_timer' : float)
    (one_hop_neighbors' : list DroneRef)
    (two_hop_neighbors' : list (Z * list DroneRef))
    : HelloPacket * Drone R * Metrics :=
  let '(base, metrics) :=
    Packet.__init__ self_id default_event_id time_step_creation simulator metrics None in
  let self :=
    {| hello_packet := base;
       cur_pos := cur_pos';
       hello_speed := speed';
       hello_next_target := next_target;
       src_drone := src_ref;
       hello_link_holding_timer := link_holding_timer';
       hello_sequence_number := sequence_number src;
       hello_one_hop_neighbors := one_hop_neighbors';
       hello_two_hop_neighbors := two_hop_neighbors' |} in
  (* increment the sequence number of the drone *)
  let src :=
    {| drone_entity := drone_entity src;
       path := path src;
       speed := speed src;
       sensing_range := sensing_range src;
       communication_range := communication_range src;
       buffer_max_size := buffer_max_size src;
       residual_energy := residual_energy src;
       come_back_to_mission := come_back_to_mission src;
       last_move_routing := last_move_routing src;
       tightest_event_deadline := tightest_event_deadline src;
       current_waypoint := current_waypoint src;
       buffer := buffer src;
       distance_from_depot := distance_from_depot src;
       move_routing := move_routing src;
       power := power src;
       link_holding_timer := link_holding_timer src;
       tau := tau src;
       hello_interval := hello_interval src;
       dist_t1 := dist_t1 src;
       t1 := t1 src;
       dist_t2 := dist_t2 src;
       t2 := t2 src;
       sequence_number := sequence_number src + 1;
       one_hop_neighbors := one_hop_neighbors src;
       prev_one_hop_neighbors := prev_one_hop_neighbors src;
       two_hop_neighbors := two_hop_neighbors src;
       routing_algorithm := routing_algorithm src;
       last_mission_coords := last_mission_coords src |} in
  (self, src, metrics).
End Init.

End HelloPacket.

(** ** The routing-algorithm contract

    Every drone owns an instance of the routing algorithm the simulation is
    configured with.  [create] is the constructor, called with the drone and
    the simulator; [feedback] is the method the entities call when a packet
    expires or reaches the depot: it receives the drone that held the
    packet, the event id, the delay and the outcome, and works on the state
    of the instance. *)
Class RoutingAlgorithm (R : Type) := {
  create : DroneRef -> Simulator -> R;
  feedback : Simulator -> R -> Drone R -> Z -> Z -> Z -> option R;
}.

(** One call [drone.routing_algorithm.feedback(current_drone, id_event, delay,
    outcome)], as seen from outside: the drone whose instance is called and
    the four arguments. *)
Record FeedbackCall := {
  fb_target : DroneRef;
  fb_current_drone : DroneRef;
  fb_id_event : Z;
  fb_delay : Z;
  fb_outcome : Z;
}.

(** The depot: a drone with a buffer [__buffer] of its own, which may hold
    duplicated packets. *)
Record Depot (R : Type) := {
  depot_drone :> Drone R;
  depot_buffer : list Z;
}.

Arguments depot_drone {R} _.
Arguments depot_buffer {R} _.

(** The state of a simulation: the simulator with its metrics, the drones of
    [simulator.drones], the depot, and the packets by identity. *)
Record World (R : Type) := {
  simulator : Simulator;
  metrics : Metrics;
  drones : list (Drone R);
  depot : Depot R;
  packets : gmap Z Packet;
}.

Arguments simulator {R} _.
Arguments metrics {R} _.
Arguments drones {R} _.
Arguments depot {R} _.
Arguments packets {R} _.

(** [sub in s] for two Python strings: [sub] occurs in [s]. *)
Fixpoint str_in (sub s : string) : bool :=
  String.prefix sub s ||
  match s with
  | EmptyString => false
  | String _ s' => str_in sub s'
  end.

Global Arguments str_in : simpl never.

(** ["GEO" "RND" "GEOS"]: adjacent string literals are one string. *)
Definition GEO_RND_GEOS : string := "GEORNDGEOS".

(** [np.nanmin([tightest, deadline])], the first a float that is NaN or the
    copy of an integer, the second an integer. *)
Definition nanmin_deadline (tightest : option Z) (deadline : Z) : option Z :=
  match tightest with
  | None => Some deadline
  | Some t => Some (Z.min t deadline)
  end.

(** ** Mission metrics and geometry

    The counters and the set of [simulator.metrics] that the sensing and the
    moves of a drone fill; events are kept under their ids. *)
Record MissionMetrics := {
  all_data_packets_in_simulation : Z;
  events_not_listened : gset Z;
  time_on_active_routing : Z;
  time_on_mission : Z;
}.

(** [utilities.euclidean_distance] is not part of the sources at hand; it is
    a parameter. *)
Class Geometry := {
  euclidean_distance : float * float -> float * float -> float;
}.

Module Drone.

Section Hello.
Context {R : Type}.

(** The assignments of [calc_distances] to the samples at time t2. *)
Definition set_samples_t2 (self : Drone R) (dist_t2' t2' : list float) : Drone R :=
  {| drone_entity := drone_entity self;
     path := path self;
     speed := speed self;
     sensing_range := sensing_range self;
     communication_range := communication_range self;
     buffer_max_size := buffer_max_size self;
     residual_energy := residual_energy self;
     come_back_to_mission := come_back_to_mission self;
     last_move_routing := last_move_routing self;
     tightest_event_deadline := tightest_event_deadline self;
     current_waypoint := current_waypoint self;
     buffer := buffer self;
     distance_from_depot := distance_from_depot self;
     move_routing := move_routing self;
     power := power self;
     link_holding_timer := link_holding_timer self;
     tau := tau self;
     hello_interval := hello_interval self;
     dist_t1 := dist_t1 self;
     t1 := t1 self;
     dist_t2 := dist_t2';
     t2 := t2';
     sequence_number := sequence_number self;
     one_hop_neighbors := one_hop_neighbors self;
     prev_one_hop_neighbors := prev_one_hop_neighbors self;
     two_hop_neighbors := two_hop_neighbors self;
     routing_algorithm := routing_algorithm self;
     last_mission_coords := last_mission_coords self |}.

(** The assignments that end [update_hello_interval]. *)
Definition set_hello (self : Drone R) (link_holding_timer' hello_interval' : float)
    : Drone R :=
  {| drone_entity := drone_entity self;
     path := path self;
     speed := speed self;
     sensing_range := sensing_range self;
     communication_range := communication_range self;
     buffer_max_size := buffer_max_size self;
     residual_energy := residual_energy self;
     come_back_to_mission := come_back_to_mission self;
     last_move_routing := last_move_routing self;
     tightest_event_deadline := tightest_event_deadline self;
     current_waypoint := current_waypoint self;
     buffer := buffer self;
     distance_from_depot := distance_from_depot self;
     move_routing := move_routing self;
     power := power self;
     link_holding_timer := link_holding_timer';
     tau := tau self;
     hello_interval := hello_interval';
     dist_t1 := dist_t2 self;               (* self.dist_t1 = self.dist_t2.copy() *)
     t1 := t2 self;                         (* self.t1 = self.t2.copy() *)
     dist_t2 := dist_t2 self;
     t2 := t2 self;
     sequence_number := sequence_number self;
     one_hop_neighbors := one_hop_neighbors self;
     prev_one_hop_neighbors := prev_one_hop_neighbors self;
     two_hop_neighbors := two_hop_neighbors self;
     routing_algorithm := routing_algorithm self;
     last_mission_coords := last_mission_coords self |}.

(** The distance between the current drone and a neighbor; [x ** 2] is
    taken as [x * x]. *)
Definition distance_to (self neighbor : Drone R) : float :=
  let dx := (fst (coords self) - fst (coords neighbor))%float in
  let dy := (snd (coords self) - snd (coords neighbor))%float in
  PrimFloat.sqrt (dx * dx + dy * dy)%float.

(** Calculate the distances between the current drone and the neighbors:
    each is stored, with the current step, in the slot of the neighbor's
    identifier. *)
Fixpoint calc_distances (simulator : Simulator) (self : Drone R)
    (neighbor_drones : list (Drone R)) : option (Drone R) :=
  match neighbor_drones with
  | [] => Some self
  | neighbor :: rest =>
      dist_t2' ← py_setitem (dist_t2 self) (identifier neighbor)
                            (distance_to self neighbor);
      t2' ← py_setitem (t2 self) (identifier neighbor)
                       (PyFloat.of_int (cur_step simulator));
      calc_distances simulator (set_samples_t2 self dist_t2' t2') rest
  end.

(** The two branches of the link-duration estimate. *)
Definition closing_speed_estimate (self : Drone R) (d1 d2 ta tb : float) : float :=
  (PrimFloat.abs (communication_range self - d2) / ((d2 - d1) / (tb - ta)))%float.

Definition distance_over_speed_estimate (self : Drone R) (d2 : float) : float :=
  (d2 / speed self)%float.

(** One round of the loop over [range(len(neighbors))]: the samples are
    read in slot [i]. *)
Definition link_duration_at (self : Drone R) (i : nat) : option float :=
  d2 ← dist_t2 self !! i;
  d1 ← dist_t1 self !! i;
  let delta := (d2 - d1)%float in
  if PyFloat.gt delta 0%float then
    tb ← t2 self !! i;
    ta ← t1 self !! i;
    Some (closing_speed_estimate self d1 d2 ta tb)
  else
    Some (distance_over_speed_estimate self d2).

Definition link_durations (self : Drone R) (n : nat) : option (list float) :=
  mapM (link_duration_at self) (seq 0 n).

(** Update the hello interval of the current drone. *)
Definition update_hello_interval (simulator : Simulator) (self : Drone R)
    (neighbors : list (Drone R)) : option (Drone R) :=
  if (length neighbors =? 0)%nat then Some self
  else
    self ← calc_distances simulator self neighbors;
    link_duration ← link_durations self (length neighbors);
    link_holding_timer' ← PyFloat.nanmax link_duration;
    let hello_interval' :=
      PyFloat.ceil (tau self * link_holding_timer')%float in   (* ceil to avoid 0 *)
    Some (set_hello self link_holding_timer' hello_interval').

End Hello.

Section Buffer.
Context {R : Type} `{RoutingAlgorithm R}.

(** [self.tightest_event_deadline = v] *)
Definition set_tightest_event_deadline (self : Drone R) (v : option Z) : Drone R :=
  {| drone_entity := drone_entity self;
     path := path self;
     speed := speed self;
     sensing_range := sensing_range self;
     communication_range := communication_range self;
     buffer_max_size := buffer_max_size self;
     residual_energy := residual_energy self;
     come_back_to_mission := come_back_to_mission self;
     last_move_routing := last_move_routing self;
     tightest_event_deadline := v;
     current_waypoint := current_waypoint self;
     buffer := buffer self;
     distance_from_depot := distance_from_depot self;
     move_routing := move_routing self;
     power := power self;
     link_holding_timer := link_holding_timer self;
     tau := tau self;
     hello_interval := hello_interval self;
     dist_t1 := dist_t1 self;
     t1 := t1 self;
     dist_t2 := dist_t2 self;
     t2 := t2 self;
     sequence_number := sequence_number self;
     one_hop_neighbors := one_hop_neighbors self;
     prev_one_hop_neighbors := prev_one_hop_neighbors self;
     two_hop_neighbors := two_hop_neighbors self;
     routing_algorithm := routing_algorithm self;
     last_mission_coords := last_mission_coords self |}.

(** [self.__buffer = v] *)
Definition set_buffer (self : Drone R) (v : list Z) : Drone R :=
  {| drone_entity := drone_entity self;
     path := path self;
     speed := speed self;
     sensing_range := sensing_range self;
     communication_range := communication_range self;
     buffer_max_size := buffer_max_size self;
     residual_energy := residual_energy self;
     come_back_to_mission := come_back_to_mission self;
     last_move_routing := last_move_routing self;
     tightest_event_deadline := tightest_event_deadline self;
     current_waypoint := current_waypoint self;
     buffer := v;
     distance_from_depot := distance_from_depot self;
     move_routing := move_routing self;
     power := power self;
     link_holding_timer := link_holding_timer self;
     tau := tau self;
     hello_interval := hello_interval self;
     dist_t1 := dist_t1 self;
     t1 := t1 self;
     dist_t2 := dist_t2 self;
     t2 := t2 self;
     sequence_number := sequence_number self;
     one_hop_neighbors := one_hop_neighbors self;
     prev_one_hop_neighbors := prev_one_hop_neighbors self;
     two_hop_neighbors := two_hop_neighbors self;
     routing_algorithm := routing_algorithm self;
     last_mission_coords := last_mission_coords self |}.

(** [self.move_routing = v] *)
Definition set_move_routing (self : Drone R) (v : bool) : Drone R :=
  {| drone_entity := drone_entity self;
     path := path self;
     speed := speed self;
     sensing_range := sensing_range self;
     communication_range := communication_range self;
     buffer_max_size := buffer_max_size self;
     residual_energy := residual_energy self;
     come_back_to_mission := come_back_to_mission self;
     last_move_routing := last_move_routing self;
     tightest_event_deadline := tightest_event_deadline self;
     current_waypoint := current_waypoint self;
     buffer := buffer self;
     distance_from_depot := distance_from_depot self;
     move_routing := v;
     power := power self;
     link_holding_timer := link_holding_timer self;
     tau := tau self;
     hello_interval := hello_interval self;
     dist_t1 := dist_t1 self;
     t1 := t1 self;
     dist_t2 := dist_t2 self;
     t2 := t2 self;
     sequence_number := sequence_number self;
     one_hop_neighbors := one_hop_neighbors self;
     prev_one_hop_neighbors := prev_one_hop_neighbors self;
     two_hop_neighbors := two_hop_neighbors self;
     routing_algorithm := routing_algorithm self;
     last_mission_coords := last_mission_coords self |}.

(** The routing-algorithm instance of the drone after one of its methods ran. *)
Definition set_routing_algorithm (self : Drone R) (v : R) : Drone R :=
  {| drone_entity := drone_entity self;
     path := path self;
     speed := speed self;
     sensing_range := sensing_range self;
     communication_range := communication_range self;
     buffer_max_size := buffer_max_size self;
     residual_energy := residual_energy self;
     come_back_to_mission := come_back_to_mission self;
     last_move_routing := last_move_routing self;
     tightest_event_deadline := tightest_event_deadline self;
     current_waypoint := current_waypoint self;
     buffer := buffer self;
     distance_from_depot := distance_from_depot self;
     move_routing := move_routing self;
     power := power self;
     link_holding_timer := link_holding_timer self;
     tau := tau self;
     hello_interval := hello_interval self;
     dist_t1 := dist_t1 self;
     t1 := t1 self;
     dist_t2 := dist_t2 self;
     t2 := t2 self;
     sequence_number := sequence_number self;
     one_hop_neighbors := one_hop_neighbors self;
     prev_one_hop_neighbors := prev_one_hop_neighbors self;
     two_hop_neighbors := two_hop_neighbors self;
     routing_algorithm := v;
     last_mission_coords := last_mission_coords self |}.

(** [Drone(identifier, path, depot, simulator, speed)]; [ref] is the
    position the new drone takes in [simulator.drones], by which its
    routing-algorithm instance refers to it. *)
Definition __init__ (ref : DroneRef) (identifier' : Z)
    (path' : list (float * float)) (simulator : Simulator) (speed' : float)
    : option (Drone R) :=
  start ← path' !! 0%nat;
  Some {| drone_entity := {| identifier := identifier'; coords := start |};
          path := path';
          speed := speed';
          sensing_range := drone_sen_range simulator;
          communication_range := drone_com_range simulator;
          buffer_max_size := drone_max_buffer_size simulator;
          residual_energy := drone_max_energy simulator;
          come_back_to_mission := false;
          last_move_routing := false;
          tightest_event_deadline := None;
          current_waypoint := 0;
          buffer := [];
          distance_from_depot := 0%float;
          move_routing := false;
          power := 1;
          link_holding_timer := 0%float;
          tau := 0.5%float;
          hello_interval := 1%float;
          dist_t1 := replicate (n_drones simulator) 2030%float;
          t1 := replicate (n_drones simulator) 0%float;
          dist_t2 := replicate (n_drones simulator) 2030%float;
          t2 := replicate (n_drones simulator) 0%float;
          sequence_number := 0;
          one_hop_neighbors := [];
          prev_one_hop_neighbors := [];
          two_hop_neighbors := [];
          routing_algorithm := create ref simulator;
          last_mission_coords := None |}.

(** [for drone in self.simulator.drones:
       drone.routing_algorithm.feedback(current_drone, id_event, delay, outcome)]
    over the positions [targets] of the list still to visit.  The calls
    made are appended to [calls]. *)
Fixpoint feedback_loop (simulator : Simulator) (current_drone : DroneRef)
    (id_event delay outcome : Z) (targets : list DroneRef)
    (ds : list (Drone R)) (calls : list FeedbackCall)
    : option (list (Drone R) * list FeedbackCall) :=
  match targets with
  | [] => Some (ds, calls)
  | j :: rest =>
      drone ← ds !! j;
      cur ← ds !! current_drone;
      r ← feedback simulator (routing_algorithm drone) cur id_event delay outcome;
      feedback_loop simulator current_drone id_event delay outcome rest
        (<[j := set_routing_algorithm drone r]> ds)
        (calls ++ [{| fb_target := j; fb_current_drone := current_drone;
                      fb_id_event := id_event; fb_delay := delay;
                      fb_outcome := outcome |}])
  end.

Definition broadcast_feedback (simulator : Simulator) (current_drone : DroneRef)
    (id_event delay outcome : Z) (ds : list (Drone R)) (calls : list FeedbackCall)
    : option (list (Drone R) * list FeedbackCall) :=
  feedback_loop simulator current_drone id_event delay outcome
                (seq 0 (length ds)) ds calls.

(** The loop of [update_packets] over the buffer.  [tmp_buffer] is the
    list of the packets kept so far; the local counter
    [to_remove_packets] is never read and is left out. *)
Fixpoint update_packets_loop (simulator : Simulator) (pcks : gmap Z Packet)
    (self : DroneRef) (cur_step : Z) (buf : list Z)
    (ds : list (Drone R)) (tmp_buffer : list Z) (calls : list FeedbackCall)
    : option (list (Drone R) * list Z * list FeedbackCall) :=
  match buf with
  | [] => Some (ds, tmp_buffer, calls)
  | pck_id :: rest =>
      pck ← pcks !! pck_id;
      if negb (Packet.is_expired pck cur_step) then
        (* append again only if it is not expired *)
        me ← ds !! self;
        let me := set_tightest_event_deadline me
                    (nanmin_deadline (tightest_event_deadline me)
                                     (deadline (event_ref pck))) in
        update_packets_loop simulator pcks self cur_step rest
          (<[self := me]> ds) (tmp_buffer ++ [pck_id]) calls
      else if negb (str_in (routing_algorithm_name simulator) GEO_RND_GEOS) then
        '(ds, calls) ← broadcast_feedback simulator self
                         (identifier (event_ref pck)) (event_duration simulator) (-1)
                         ds calls;
        update_packets_loop simulator pcks self cur_step rest ds tmp_buffer calls
      else
        update_packets_loop simulator pcks self cur_step rest ds tmp_buffer calls
  end.

(** Removes the expired packets from the buffer of the drone [self].
    The result is the new state with the feedback calls made, in order. *)
Definition update_packets (w : World R) (self : DroneRef) (cur_step : Z)
    : option (World R * list FeedbackCall) :=
  me ← drones w !! self;
  let ds := <[self := set_tightest_event_deadline me None]> (drones w) in
  '(ds, tmp_buffer, calls) ←
    update_packets_loop (simulator w) (packets w) self cur_step (buffer me) ds [] [];
  me ← ds !! self;
  let me := set_buffer me tmp_buffer in
  let me := if (length (buffer me) =? 0)%nat then set_move_routing me false else me in
  Some ({| simulator := simulator w;
           metrics := metrics w;
           drones := <[self := me]> ds;
           depot := depot w;
           packets := packets w |}, calls).

(** *** The buffer *)

(** Returns all the packets in the buffer. *)
Definition all_packets (self : Drone R) : list Z := buffer self.

(** Returns the length of the buffer. *)
Definition buffer_length (self : Drone R) : Z := Z.of_nat (length (buffer self)).

(** Returns True if the drone buffer is full. *)
Definition is_full (self : Drone R) : bool :=
  buffer_length self =? buffer_max_size self.

(** Empties the buffer. *)
Definition empty_buffer (self : Drone R) : Drone R := set_buffer self [].

(** [hash(self.identifier)] *)
Definition __hash__ (self : Drone R) : Z := PyHash.hash_int (identifier self).

(** Returns True if drone has already a similar packet (i.e., referred to
    the same event).  The loop returns at the first such packet. *)
Fixpoint is_known_in (pcks : gmap Z Packet) (buf : list Z) (packet : Packet)
    : option bool :=
  match buf with
  | [] => Some false
  | pk_id :: rest =>
      pk ← pcks !! pk_id;
      if Entity.__eq__ (event_ref pk) (event_ref packet) then Some true
      else is_known_in pcks rest packet
  end.

Definition is_known_packet (pcks : gmap Z Packet) (self : Drone R) (packet : Packet)
    : option bool :=
  is_known_in pcks (buffer self) packet.

(** Self drone adds packets of another drone, when it feels it passing by:
    each packet is added if no packet of the buffer refers to its event. *)
Fixpoint accept_packets (pcks : gmap Z Packet) (self : Drone R) (packets : list Z)
    : option (Drone R) :=
  match packets with
  | [] => Some self
  | packet_id :: rest =>
      packet ← pcks !! packet_id;
      known ← is_known_packet pcks self packet;
      if negb known
      then accept_packets pcks (set_buffer self (buffer self ++ [packet_id])) rest
      else accept_packets pcks self rest
  end.



(** feel a new event, and adds the packet relative to it, in its buffer; if
    the drone is doing movement the packet is not added in the buffer.
    [ev_id] and [pck_id] are the identities of the two objects created. *)
Definition feel_event (w : World R) (mm : MissionMetrics) (self : DroneRef)
    (ev_id pck_id : Z) (cur_step : Z) : option (World R * MissionMetrics) :=
  me ← drones w !! self;
  let '(ev, m) :=
    Event.__init__ ev_id (coords (drone_entity me)) cur_step (simulator w) (metrics w) (-1) in
  let '(pk, m) := EventAsPacket.as_packet ev pck_id cur_step self (simulator w) m in
  let pcks := <[pck_id := pk]> (packets w) in
  if negb (move_routing me) && negb (come_back_to_mission me) then
    Some ({| simulator := simulator w;
             metrics := m;
             drones := <[self := set_buffer me (buffer me ++ [pck_id])]> (drones w);
             depot := depot w;
             packets := pcks |},
          {| all_data_packets_in_simulation := all_data_packets_in_simulation mm + 1;
             events_not_listened := events_not_listened mm;
             time_on_active_routing := time_on_active_routing mm;
             time_on_mission := time_on_mission mm |})
  else
    (* store the events that are missing due to movement routing *)
    Some ({| simulator := simulator w;
             metrics := m;
             drones := drones w;
             depot := depot w;
             packets := pcks |},
          {| all_data_packets_in_simulation := all_data_packets_in_simulation mm;
             events_not_listened := {[ ev_id ]} ∪ events_not_listened mm;
             time_on_active_routing := time_on_active_routing mm;
             time_on_mission := time_on_mission mm |}).

End Buffer.

Section Mobility.
Context {R : Type} `{Geometry}.

(** [self.coords = v] *)
Definition set_coords (self : Drone R) (v : float * float) : Drone R :=
  {| drone_entity := Entity.set_coords (drone_entity self) v;
     path := path self;
     speed := speed self;
     sensing_range := sensing_range self;
     communication_range := communication_range self;
     buffer_max_size := buffer_max_size self;
     residual_energy := residual_energy self;
     come_back_to_mission := come_back_to_mission self;
     last_move_routing := last_move_routing self;
     tightest_event_deadline := tightest_event_deadline self;
     current_waypoint := current_waypoint self;
     buffer := buffer self;
     distance_from_depot := distance_from_depot self;
     move_routing := move_routing self;
     power := power self;
     link_holding_timer := link_holding_timer self;
     tau := tau self;
     hello_interval := hello_interval self;
     dist_t1 := dist_t1 self;
     t1 := t1 self;
     dist_t2 := dist_t2 self;
     t2 := t2 self;
     sequence_number := sequence_number self;
     one_hop_neighbors := one_hop_neighbors self;
     prev_one_hop_neighbors := prev_one_hop_neighbors self;
     two_hop_neighbors := two_hop_neighbors self;
     routing_algorithm := routing_algorithm self;
     last_mission_coords := last_mission_coords self |}.

(** [self.current_waypoint = v] *)
Definition set_current_waypoint (self : Drone R) (v : Z) : Drone R :=
  {| drone_entity := drone_entity self;
     path := path self;
     speed := speed self;
     sensing_range := sensing_range self;
     communication_range := communication_range self;
     buffer_max_size := buffer_max_size self;
     residual_energy := residual_energy self;
     come_back_to_mission := come_back_to_mission self;
     last_move_routing := last_move_routing self;
     tightest_event_deadline := tightest_event_deadline self;
     current_waypoint := v;
     buffer := buffer self;
     distance_from_depot := distance_from_depot self;
     move_routing := move_routing self;
     power := power self;
     link_holding_timer := link_holding_timer self;
     tau := tau self;
     hello_interval := hello_interval self;
     dist_t1 := dist_t1 self;
     t1 := t1 self;
     dist_t2 := dist_t2 self;
     t2 := t2 self;
     sequence_number := sequence_number self;
     one_hop_neighbors := one_hop_neighbors self;
     prev_one_hop_neighbors := prev_one_hop_neighbors self;
     two_hop_neighbors := two_hop_neighbors self;
     routing_algorithm := routing_algorithm self;
     last_mission_coords := last_mission_coords self |}.

(** [self.come_back_to_mission = v] *)
Definition set_come_back_to_mission (self : Drone R) (v : bool) : Drone R :=
  {| drone_entity := drone_entity self;
     path := path self;
     speed := speed self;
     sensing_range := sensing_range self;
     communication_range := communication_range self;
     buffer_max_size := buffer_max_size self;
     residual_energy := residual_energy self;
     come_back_to_mission := v;
     last_move_routing := last_move_routing self;
     tightest_event_deadline := tightest_event_deadline self;
     current_waypoint := current_waypoint self;
     buffer := buffer self;
     distance_from_depot := distance_from_depot self;
     move_routing := move_routing self;
     power := power self;
     link_holding_timer := link_holding_timer self;
     tau := tau self;
     hello_interval := hello_interval self;
     dist_t1 := dist_t1 self;
     t1 := t1 self;
     dist_t2 := dist_t2 self;
     t2 := t2 self;
     sequence_number := sequence_number self;
     one_hop_neighbors := one_hop_neighbors self;
     prev_one_hop_neighbors := prev_one_hop_neighbors self;
     two_hop_neighbors := two_hop_neighbors self;
     routing_algorithm := routing_algorithm self;
     last_mission_coords := last_mission_coords self |}.

(** [self.last_move_routing = v] *)
Definition set_last_move_routing (self : Drone R) (v : bool) : Drone R :=
  {| drone_entity := drone_entity self;
     path := path self;
     speed := speed self;
     sensing_range := sensing_range self;
     communication_range := communication_range self;
     buffer_max_size := buffer_max_size self;
     residual_energy := residual_energy self;
     come_back_to_mission := come_back_to_mission self;
     last_move_routing := v;
     tightest_event_deadline := tightest_event_deadline self;
     current_waypoint := current_waypoint self;
     buffer := buffer self;
     distance_from_depot := distance_from_depot self;
     move_routing := move_routing self;
     power := power self;
     link_holding_timer := link_holding_timer self;
     tau := tau self;
     hello_interval := hello_interval self;
     dist_t1 := dist_t1 self;
     t1 := t1 self;
     dist_t2 := dist_t2 self;
     t2 := t2 self;
     sequence_number := sequence_number self;
     one_hop_neighbors := one_hop_neighbors self;
     prev_one_hop_neighbors := prev_one_hop_neighbors self;
     two_hop_neighbors := two_hop_neighbors self;
     routing_algorithm := routing_algorithm self;
     last_mission_coords := last_mission_coords self |}.

(** [self.last_mission_coords = v] *)
Definition set_last_mission_coords (self : Drone R) (v : option (float * float)) : Drone R :=
  {| drone_entity := drone_entity self;
     path := path self;
     speed := speed self;
     sensing_range := sensing_range self;
     communication_range := communication_range self;
     buffer_max_size := buffer_max_size self;
     residual_energy := residual_energy self;
     come_back_to_mission := come_back_to_mission self;
     last_move_routing := last_move_routing self;
     tightest_event_deadline := tightest_event_deadline self;
     current_waypoint := current_waypoint self;
     buffer := buffer self;
     distance_from_depot := distance_from_depot self;
     move_routing := move_routing self;
     power := power self;
     link_holding_timer := link_holding_timer self;
     tau := tau self;
     hello_interval := hello_interval self;
     dist_t1 := dist_t1 self;
     t1 := t1 self;
     dist_t2 := dist_t2 self;
     t2 := t2 self;
     sequence_number := sequence_number self;
     one_hop_neighbors := one_hop_neighbors self;
     prev_one_hop_neighbors := prev_one_hop_neighbors self;
     two_hop_neighbors := two_hop_neighbors self;
     routing_algorithm := routing_algorithm self;
     last_mission_coords := v |}.

(** The point between [p0] and [p1] at the fraction [t] of the way. *)
Definition interpolate (t : float) (p0 p1 : float * float) : float * float :=
  (((1 - t) * p0.1 + t * p1.1)%float, ((1 - t) * p0.2 + t * p1.2)%float).

(** Updates the position of the drone. *)
Definition update_position (self : Drone R) (p1 : float * float) : option (Drone R) :=
  if come_back_to_mission self then
    Some (set_coords (set_come_back_to_mission self false) p1)
  else
    let self := set_current_waypoint self (current_waypoint self + 1) in
    p ← py_getitem (path self) (current_waypoint self);
    Some (set_coords self p).

(** When invoked the drone moves on the map.  A ratio that is not positive
    ends the program ([exit(1)]): the result is [None], as for an
    exception; so it is when [last_mission_coords] is [None] on the way
    back. *)
Definition move_to_mission (self : Drone R) (time : float) : option (Drone R) :=
  let self :=
    if Z.of_nat (length (path self)) - 1 <=? current_waypoint self
    then set_current_waypoint self (-1) else self in
  let p0 := coords self in
  p1 ← (if come_back_to_mission self then last_mission_coords self
        else py_getitem (path self) (current_waypoint self + 1));
  let all_distance := euclidean_distance p0 p1 in
  let distance := (time * speed self)%float in
  if PrimFloat.eqb all_distance 0%float || PrimFloat.eqb distance 0%float then
    update_position self p1
  else
    let t := (distance / all_distance)%float in
    if PrimFloat.leb 1%float t then update_position self p1
    else if PrimFloat.leb t 0%float then None
    else Some (set_coords self (interpolate t p0 p1)).

(** When invoked the drone moves to the depot, whose coordinates are
    [depot_coords]. *)
Definition move_to_depot (depot_coords : float * float) (self : Drone R) (time : float)
    : option (Drone R) :=
  let p0 := coords self in
  let p1 := depot_coords in
  let all_distance := euclidean_distance p0 p1 in
  let distance := (time * speed self)%float in
  if PrimFloat.eqb all_distance 0%float then Some (set_move_routing self false)
  else
    let t := (distance / all_distance)%float in
    if PrimFloat.leb 1%float t then Some (set_coords self p1)
    else if PrimFloat.leb t 0%float then None
    else Some (set_coords self (interpolate t p0 p1)).

(** Move the drone to the next point if [self.move_routing] is false, else
    it moves towards the depot. *)
Definition move (depot_coords : float * float) (mm : MissionMetrics) (self : Drone R)
    (time : float) : option (Drone R * MissionMetrics) :=
  let mm :=
    if move_routing self || come_back_to_mission self then
      {| all_data_packets_in_simulation := all_data_packets_in_simulation mm;
         events_not_listened := events_not_listened mm;
         time_on_active_routing := time_on_active_routing mm + 1;
         time_on_mission := time_on_mission mm |}
    else mm in
  '(self, mm) ←
    (if move_routing self then
       let self :=
         if negb (last_move_routing self)  (* the first time that we are doing move-routing *)
         then set_last_mission_coords self (Some (coords self)) else self in
       self ← move_to_depot depot_coords self time;
       Some (self, mm)
     else
       let self :=
         if last_move_routing self         (* I'm coming back to the mission *)
         then set_come_back_to_mission self true else self in
       self ← move_to_mission self time;
       Some (self,
             {| all_data_packets_in_simulation := all_data_packets_in_simulation mm;
                events_not_listened := events_not_listened mm;
                time_on_active_routing := time_on_active_routing mm;
                time_on_mission := time_on_mission mm + 1 |}));
  (* set the last move routing *)
  Some (set_last_move_routing self (move_routing self), mm).

(** Returns the next target of the drone; the inner [None] is the value
    [None] of [last_mission_coords], the outer one an [IndexError]. *)
Definition next_target (depot_coords : float * float) (self : Drone R)
    : option (option (float * float)) :=
  if move_routing self then Some (Some depot_coords)
  else if come_back_to_mission self then Some (last_mission_coords self)
  else if Z.of_nat (length (path self)) - 1 <=? current_waypoint self
  then Some <$> py_getitem (path self) 0
  else Some <$> py_getitem (path self) (current_waypoint self + 1).

(** get the next future position of the drones, according the mission *)
Definition next_move_to_mission_point (simulator : Simulator) (self : Drone R)
    : option (float * float) :=
  let current_waypoint' :=
    if Z.of_nat (length (path self)) - 1 <=? current_waypoint self
    then -1 else current_waypoint self in
  let p0 := coords self in
  p1 ← py_getitem (path self) (current_waypoint' + 1);
  let all_distance := euclidean_distance p0 p1 in
  let distance := (time_step_duration simulator * speed self)%float in
  if PrimFloat.eqb all_distance 0%float || PrimFloat.eqb distance 0%float then
    py_getitem (path self) current_waypoint'
  else
    let t := (distance / all_distance)%float in
    if PrimFloat.leb 1%float t then py_getitem (path self) current_waypoint'
    else if PrimFloat.leb t 0%float then None
    else Some (interpolate t p0 p1).

End Mobility.

End Drone.

(** ** The depot *)

Module Depot.

Section Transfer.
Context {R : Type} `{RoutingAlgorithm R}.

(** [self.__buffer += packets] *)
Definition extend_buffer (self : Depot R) (pcks : list Z) : Depot R :=
  {| depot_drone := depot_drone self;
     depot_buffer := depot_buffer self ++ pcks |}.

(** [Depot.all_packets]: the buffer of the depot itself, not the one it
    inherits from [Drone]. *)
Definition all_packets (self : Depot R) : list Z := depot_buffer self.

(** The two metrics on the packets notified to the depot. *)
Definition add_packet_to_depot (m : Metrics) (pck_id cur_step : Z) : Metrics :=
  {| events := events m;
     drones_packets := drones_packets m;
     drones_packets_to_depot := {[ (pck_id, cur_step) ]} ∪ drones_packets_to_depot m;
     drones_packets_to_depot_list :=
       drones_packets_to_depot_list m ++ [(pck_id, cur_step)] |}.

(** The loop of [transfer_notified_packets] over the packets to offload. *)
Fixpoint transfer_loop (simulator : Simulator) (current_drone : DroneRef)
    (cur_step : Z) (packets_to_offload : list Z)
    (ds : list (Drone R)) (pcks : gmap Z Packet) (m : Metrics)
    (calls : list FeedbackCall)
    : option (list (Drone R) * gmap Z Packet * Metrics * list FeedbackCall) :=
  match packets_to_offload with
  | [] => Some (ds, pcks, m, calls)
  | pck_id :: rest =>
      pck ← pcks !! pck_id;
      '(ds, calls) ←
        (if negb (str_in (routing_algorithm_name simulator) GEO_RND_GEOS) then
           let delivery_delay := cur_step - current_time (event_ref pck) in
           Drone.broadcast_feedback simulator current_drone
             (identifier (event_ref pck)) delivery_delay 1 ds calls
         else Some (ds, calls));
      (* add metrics: all the packets notified to the depot *)
      let m := add_packet_to_depot m pck_id cur_step in
      let pcks := <[pck_id := Packet.set_time_delivery pck cur_step]> pcks in
      transfer_loop simulator current_drone cur_step rest ds pcks m calls
  end.

(** function called when a drone wants to offload packets to the depot.
    [current_drone] is one of the drones of [simulator.drones]; the depot
    is an object apart from them. *)
Definition transfer_notified_packets (w : World R) (current_drone : DroneRef)
    (cur_step : Z) : option (World R * list FeedbackCall) :=
  src ← drones w !! current_drone;
  let packets_to_offload := buffer src in         (* current_drone.all_packets() *)
  let self := extend_buffer (depot w) packets_to_offload in
  '(ds, pcks, m, calls) ←
    transfer_loop (simulator w) current_drone cur_step packets_to_offload
                  (drones w) (packets w) (metrics w) [];
  Some ({| simulator := simulator w;
           metrics := m;
           drones := ds;
           depot := self;
           packets := pcks |}, calls).

End Transfer.

End Depot.

(** ** QTAR routing *)

(** [np.argsort]: the positions of an array in ascending order of the values,
    a NaN after every number.  Equal values are kept in the order of their
    positions, as numpy does on short arrays (its default sort promises no
    order among equal values). *)
Module NumpySort.

Definition lt (a b : float) : bool :=
  PrimFloat.ltb a b || (negb (is_nan a) && is_nan b).

Fixpoint insert (x : float * Z) (l : list (float * Z)) : list (float * Z) :=
  match l with
  | [] => [x]
  | y :: l' => if lt (fst y) (fst x) then y :: insert x l' else x :: l
  end.

Definition argsort (a : list float) : list Z :=
  (foldr insert [] (zip a (Z.of_nat <$> seq 0 (length a)))).*2.

End NumpySort.

(** The two functions of [src.utilities.utilities] that [relay_selection]
    calls are not part of the sources at hand; they are parameters. *)
Class Utilities (R : Type) := {
  two_hop_speed : Drone R -> Drone R -> Drone R -> Simulator -> float;
  compute_required_speed : Drone R -> Z -> Simulator -> float;
}.

Module QTARRouting.

(** An instance of the class: [drone] is the drone that owns it,
    [taken_actions] maps an event id to [(old_state, old_action)]. *)
Record instance := {
  drone : DroneRef;
  taken_actions : gmap Z (Z * Z);
  q_table : list float;
  A : float;                            (* weight of the reward on the delay *)
  B : float;                            (* weight of the reward on the speed *)
  C : float;                            (* weight of the battery *)
}.

Definition __init__ (drone : DroneRef) (simulator : Simulator) : instance :=
  {| drone := drone;
     taken_actions := ∅;
     q_table := replicate (n_drones simulator) 0%float;
     A := 0.7%float;
     B := 0.2%float;
     C := 0.1%float |}.

(** The value the feedback stores for the chosen action. *)
Definition reward (self : instance) (simulator : Simulator)
    (current_drone : Drone instance) (delay : Z) : float :=
  let delay := (PyFloat.of_int delay / PyFloat.of_int (packets_max_ttl simulator))%float in
  let speed := PyFloat.of_int 1 in
  let energy := (residual_energy current_drone / drone_max_energy simulator)%float in
  (A self * delay + B self * speed + C self * energy)%float.

(** Feedback returned when the packet arrives at the depot or expires.
    Both divisions are divisions of Python numbers, which raise
    [ZeroDivisionError] on a zero divisor. *)
Definition feedback (simulator : Simulator) (self : instance)
    (current_drone : Drone instance) (id_event delay outcome : Z) : option instance :=
  match taken_actions self !! id_event with
  | Some (state, action) =>
      (* remove the entry, the action has received the feedback *)
      let taken_actions' := delete id_event (taken_actions self) in
      if packets_max_ttl simulator =? 0 then None
      else if PrimFloat.eqb (drone_max_energy simulator) 0%float then None
      else
        q_table' ← py_setitem (q_table self) action
                              (reward self simulator current_drone delay);
        Some {| drone := drone self;
                taken_actions := taken_actions';
                q_table := q_table';
                A := A self; B := B self; C := C self |}
  | None => Some self
  end.

(** The instances on which [feedback] raises nothing, in a simulation whose
    maximal TTL and maximal energy are not zero: every pending action is a
    valid index of the table of values. *)
Definition well_formed (simulator : Simulator) (self : instance) : Prop :=
  packets_max_ttl simulator ≠ 0
  ∧ PrimFloat.eqb (drone_max_energy simulator) 0%float = false
  ∧ map_Forall (fun _ (sa : Z * Z) => is_Some (py_index (length (q_table self)) sa.2))
               (taken_actions self).

Section RelaySelection.
Context `{Utilities instance}.

(** The inner loop over the two-hop neighbors listed under one one-hop
    neighbor: those faster than the required speed are appended to
    [selected_drones]. *)
Fixpoint select_two_hop (simulator : Simulator) (ds : list (Drone instance))
    (packet : DataPacket) (me one_hop_neighbor : Drone instance)
    (two_hop : list DroneRef) (selected_drones : list (Drone instance))
    : option (list (Drone instance)) :=
  match two_hop with
  | [] => Some selected_drones
  | ref :: rest =>
      neighbor ← ds !! ref;
      let speed := two_hop_speed me one_hop_neighbor neighbor simulator in
      let remaining_ttl :=
        packets_max_ttl simulator - (cur_step simulator - time_step_creation packet) in
      let required_speed := compute_required_speed neighbor remaining_ttl simulator in
      select_two_hop simulator ds packet me one_hop_neighbor rest
        (if PyFloat.gt speed required_speed then selected_drones ++ [neighbor]
         else selected_drones)
  end.

(** The loop over [self.drone.two_hop_neighbors.items()]. *)
Fixpoint select_neighbors (simulator : Simulator) (ds : list (Drone instance))
    (packet : DataPacket) (me : Drone instance)
    (items : list (Z * list DroneRef)) (selected_drones : list (Drone instance))
    : option (list (Drone instance)) :=
  match items with
  | [] => Some selected_drones
  | (one_hop_id, two_hop) :: rest =>
      one_hop_neighbor ← py_getitem ds one_hop_id;
      selected_drones ←
        select_two_hop simulator ds packet me one_hop_neighbor two_hop selected_drones;
      select_neighbors simulator ds packet me rest selected_drones
  end.

(** The potential good neighbors. *)
Definition selected_drones (simulator : Simulator) (ds : list (Drone instance))
    (packet : DataPacket) (me : Drone instance) (drone_near_depot_id : Z)
    : option (list (Drone instance)) :=
  if negb (drone_near_depot_id =? -1) then
    (* if there is a drone near the depot, select it *)
    d ← py_getitem ds drone_near_depot_id; Some [d]
  else
    (* otherwise select the neighbors that are faster than the required speed *)
    select_neighbors simulator ds packet me (two_hop_neighbors me) [].

(** The scan of the sorted positions: the first that is the identifier
    of a selected drone, and [-1] when there is none. *)
Fixpoint first_selected (sorted_q_table : list Z) (neighborsId : list Z) : Z :=
  match sorted_q_table with
  | [] => -1
  | droneId :: rest =>
      if bool_decide (droneId ∈ neighborsId) then droneId
      else first_selected rest neighborsId
  end.

(** This function returns the best relay to send packets: the reference
    to the drone [self.simulator.drones[action]], with the instance after
    the action was stored. *)
Definition relay_selection (self : instance) (simulator : Simulator)
    (ds : list (Drone instance)) (packet : DataPacket) (drone_near_depot_id : Z)
    : option (DroneRef * instance) :=
  me ← ds !! drone self;
  let state := identifier (drone_entity me) in   (* state is the drone id *)
  selected ← selected_drones simulator ds packet me drone_near_depot_id;
  let sorted_q_table := NumpySort.argsort (q_table self) in
  let neighborsId := (fun d : Drone instance => identifier d) <$> selected in
  let action := first_selected sorted_q_table neighborsId in
  let self :=
    {| drone := drone self;
       taken_actions := <[identifier (event_ref packet) := (state, action)]>
                          (taken_actions self);
       q_table := q_table self;
       A := A self; B := B self; C := C self |} in
  relay ← py_index (length ds) action;
  Some (relay, self).

End RelaySelection.

#[global] Instance routing_algorithm_instance : RoutingAlgorithm instance :=
  Build_RoutingAlgorithm instance __init__ feedback.

End QTARRouting.

(** ** What the specification expects of the two broadcasts

    The lists below are written after the words of the specification, to be
    compared with what [update_packets] and [transfer_notified_packets] do. *)

Module Expected.

(** The packets of a buffer that are not expired at a step, in their order,
    and those that are. *)
Definition non_expired (pcks : gmap Z Packet) (step : Z) (buf : list Z) : list Z :=
  List.filter (fun pck_id => match pcks !! pck_id with
                             | Some pck => negb (Packet.is_expired pck step)
                             | None => false
                             end) buf.

Definition expired (pcks : gmap Z Packet) (step : Z) (buf : list Z) : list Z :=
  List.filter (fun pck_id => match pcks !! pck_id with
                             | Some pck => Packet.is_expired pck step
                             | None => false
                             end) buf.

(** One feedback to the routing-algorithm instance of each of the [n] drones
    of the simulation, in the order of [simulator.drones]. *)
Definition to_every_drone (n : nat) (current_drone : DroneRef)
    (id_event delay outcome : Z) : list FeedbackCall :=
  (fun j => {| fb_target := j; fb_current_drone := current_drone;
               fb_id_event := id_event; fb_delay := delay;
               fb_outcome := outcome |}) <$> seq 0 n.

(** For each expired packet of a buffer, a feedback of outcome [-1] and of
    delay the configured event duration, to every drone. *)
Definition negative_feedback (simulator : Simulator) (pcks : gmap Z Packet)
    (n : nat) (current_drone : DroneRef) (step : Z) (buf : list Z) : list FeedbackCall :=
  flat_map (fun pck_id =>
              match pcks !! pck_id with
              | Some pck => to_every_drone n current_drone (identifier (event_ref pck))
                                           (event_duration simulator) (-1)
              | None => []
              end) (expired pcks step buf).

(** For each packet of a buffer, a feedback of outcome [1] and of delay the
    step minus the generation time of the event, to every drone. *)
Definition positive_feedback (pcks : gmap Z Packet)
    (n : nat) (current_drone : DroneRef) (step : Z) (buf : list Z) : list FeedbackCall :=
  flat_map (fun pck_id =>
              match pcks !! pck_id with
              | Some pck => to_every_drone n current_drone (identifier (event_ref pck))
                                           (step - current_time (event_ref pck)) 1
              | None => []
              end) buf.

(** The deadlines of the packets of a buffer that are not expired. *)
Definition non_expired_deadlines (pcks : gmap Z Packet) (step : Z) (buf : list Z)
    : list Z :=
  omap (fun pck_id => (fun pck => deadline (event_ref pck)) <$> pcks !! pck_id)
       (non_expired pcks step buf).

(** What one broadcast of a feedback makes of the routing-algorithm
    instances of the drones, listed in the order of [simulator.drones]: one
    after the other, each is replaced by what its [feedback] returns.
    [holder r] is the drone given to [feedback], the one that holds the
    packet, as it is when its own instance is [r]. *)
Definition instances_after_feedback {R : Type} `{RoutingAlgorithm R}
    (simulator : Simulator) (current_drone : DroneRef) (holder : R -> Drone R)
    (id_event delay outcome : Z) (instances : list R) : option (list R) :=
  foldl (fun acc j =>
           rs ← acc;
           r ← rs !! j;
           own ← rs !! current_drone;
           r' ← feedback simulator r (holder own) id_event delay outcome;
           Some (<[j := r']> rs))
        (Some instances) (seq 0 (length instances)).

(** The instances after the pruning of the buffer [buf] of the drone [me]:
    unless the name of the algorithm occurs in ["GEORNDGEOS"], one broadcast
    of a negative feedback for each expired packet, in the order of the
    buffer.  The drone given to [feedback] is [me], with the least deadline
    of the packets kept so far as its tightest deadline. *)
Definition instances_after_pruning {R : Type} `{RoutingAlgorithm R}
    (simulator : Simulator) (pcks : gmap Z Packet) (self : DroneRef) (step : Z)
    (me : Drone R) (buf : list Z) (instances : list R) : option (list R) :=
  snd <$>
    foldl (fun acc pck_id =>
             '(tightest, rs) ← acc;
             pck ← pcks !! pck_id;
             if Packet.is_expired pck step then
               if str_in (routing_algorithm_name simulator) GEO_RND_GEOS
               then Some (tightest, rs)
               else
                 rs' ← instances_after_feedback simulator self
                         (fun r => Drone.set_routing_algorithm
                                     (Drone.set_tightest_event_deadline me tightest) r)
                         (identifier (event_ref pck)) (event_duration simulator) (-1) rs;
                 Some (tightest, rs')
             else Some (nanmin_deadline tightest (deadline (event_ref pck)), rs))
          (Some (None, instances)) buf.

(** The instances after the hand-off of the buffer [buf] of the drone [src]
    to the depot: unless the name of the algorithm occurs in ["GEORNDGEOS"],
    one broadcast of a positive feedback for each packet, in the order of
    the buffer. *)
Definition instances_after_delivery {R : Type} `{RoutingAlgorithm R}
    (simulator : Simulator) (pcks : gmap Z Packet) (current_drone : DroneRef)
    (step : Z) (src : Drone R) (buf : list Z) (instances : list R)
    : option (list R) :=
  foldl (fun acc pck_id =>
           rs ← acc;
           pck ← pcks !! pck_id;
           if str_in (routing_algorithm_name simulator) GEO_RND_GEOS then Some rs
           else instances_after_feedback simulator current_drone
                  (fun r => Drone.set_routing_algorithm src r)
                  (identifier (event_ref pck))
                  (step - current_time (event_ref pck)) 1 rs)
        (Some instances) buf.

End Expected.

(** ** Views of a buffer *)

Module BufferView.

(** The ids of the events the packets of a buffer refer to, in order. *)
Definition event_ids (pcks : gmap Z Packet) (buf : list Z) : list Z :=
  omap (fun pck_id => (fun pck => identifier (event_ref pck)) <$> pcks !! pck_id) buf.

End BufferView.

(** ** Views of a path *)

Module PathView.

(** The waypoint index [__move_to_mission] starts from: at the end of the
    path it wraps around to [-1]. *)
Definition wrapped_waypoint {R : Type} (self : Drone R) : Z :=
  if Z.of_nat (length (path self)) - 1 <=? current_waypoint self
  then -1 else current_waypoint self.

End PathView.

(** ** Successive moves *)

Module Flight.

Section Moves.
Context {R : Type} `{Geometry}.

(** The calls of [move] the simulator makes for a drone, one per time
    step, when nothing else touches the drone in between. *)
Fixpoint moves (depot_coords : float * float) (mm : MissionMetrics) (self : Drone R)
    (times : list float) : option (Drone R * MissionMetrics) :=
  match times with
  | [] => Some (self, mm)
  | time :: rest =>
      '(self, mm) ← Drone.move depot_coords mm self time;
      moves depot_coords mm self rest
  end.

End Moves.

End Flight.

(** ** Scenarios

    Concrete simulations on which the properties below are evaluated. *)

Module Scenario.

Import QTARRouting.

(** A simulation of two drones with the QTAR algorithm. *)
Definition sim (step : Z) : Simulator :=
  {| cur_step := step;
     event_duration := 2000;
     packets_max_ttl := 200;
     n_drones := 2;
     drone_max_energy := 100%float;
     drone_sen_range := 50%float;
     drone_com_range := 200%float;
     drone_max_buffer_size := 2;
     time_step_duration := 1%float;
     routing_algorithm_name := "QTAR" |}.

(** The drone of identifier [i] at the point [(x, y)], of speed 10. *)
Definition drone_at (i : nat) (x y : float) : option (Drone instance) :=
  Drone.__init__ i (Z.of_nat i) [(x, y)] (sim 0) 10%float.

(** The drone 1 stays at the origin and hears the drone 0 at the steps 1
    and 2; [after_step_1 p] is the drone 1 once it has updated its hello
    interval at step 1 with the drone 0 at the point [p]. *)
Definition after_step_1 (p : float * float) : option (Drone instance) :=
  me ← drone_at 1 0%float 0%float;
  neighbor ← drone_at 0 p.1 p.2;
  Drone.update_hello_interval (sim 1) me [neighbor].



Definition near : float * float := (30%float, 40%float).

(** A simulation of three drones, all at the origin, none of which has
    heard of a two-hop neighbor. *)
Definition sim3 (step : Z) : Simulator :=
  {| cur_step := step;
     event_duration := 2000;
     packets_max_ttl := 200;
     n_drones := 3;
     drone_max_energy := 100%float;
     drone_sen_range := 50%float;
     drone_com_range := 200%float;
     drone_max_buffer_size := 2;
     time_step_duration := 1%float;
     routing_algorithm_name := "QTAR" |}.

Definition roster3 : option (list (Drone instance)) :=
  mapM (fun i : nat => Drone.__init__ i (Z.of_nat i) [(0%float, 0%float)] (sim3 0) 10%float)
       [0%nat; 1%nat; 2%nat].

Definition no_metrics : Metrics :=
  {| events := ∅; drones_packets := ∅;
     drones_packets_to_depot := ∅; drones_packets_to_depot_list := [] |}.

(** The event of id [ev_id] felt at the step [step], and the packet of id
    [pck_id] that the drone 0 builds out of it. *)
Definition event_at (ev_id step : Z) : Event :=
  (Event.__init__ ev_id (5%float, 5%float) step (sim3 step) no_metrics (-1)).1.

Definition packet_of (pck_id ev_id step : Z) : DataPacket :=
  (EventAsPacket.as_packet (event_at ev_id step) pck_id step 0%nat
                           (sim3 step) no_metrics).1.

(** An instance of QTAR with three values and one action pending for the
    event 77: the drone 1 was chosen in the state 0. *)
Definition pending : instance :=
  {| drone := 0%nat;
     taken_actions := {[ 77 := (0, 1) ]};
     q_table := [0%float; 0%float; 0%float];
     A := 0.7%float; B := 0.2%float; C := 0.1%float |}.

(** A simulation of three drones where an event lasts 5 steps.  The drone 1
    holds two packets: the packet 201 of the event 101, felt at step 0, of
    deadline 5, and the packet 202 of the event 102, felt at step 3, of
    deadline 8.  The instance of the drone 0 has the action 1 pending for
    the event 101. *)
Definition sim5 (step : Z) : Simulator :=
  {| cur_step := step;
     event_duration := 5;
     packets_max_ttl := 200;
     n_drones := 3;
     drone_max_energy := 100%float;
     drone_sen_range := 50%float;
     drone_com_range := 200%float;
     drone_max_buffer_size := 2;
     time_step_duration := 1%float;
     routing_algorithm_name := "QTAR" |}.

Definition packet5 (pck_id ev_id step : Z) : DataPacket :=
  let ev := (Event.__init__ ev_id (5%float, 5%float) step (sim5 step) no_metrics (-1)).1 in
  (EventAsPacket.as_packet ev pck_id step 1%nat (sim5 step) no_metrics).1.

Definition depot5 : option (Depot instance) :=
  d ← Drone.__init__ 0%nat 999 [(0%float, 0%float)] (sim5 0) 0%float;
  Some {| depot_drone := d; depot_buffer := [] |}.

Definition world5 (step : Z) : option (World instance) :=
  d0 ← Drone.__init__ 0%nat 0 [(0%float, 0%float)] (sim5 0) 10%float;
  d1 ← Drone.__init__ 1%nat 1 [(3%float, 4%float)] (sim5 0) 10%float;
  d2 ← Drone.__init__ 2%nat 2 [(6%float, 8%float)] (sim5 0) 10%float;
  depot ← depot5;
  let r0 := {| drone := 0%nat;
               taken_actions := {[ 101 := (0, 1) ]};
               q_table := [0%float; 0%float; 0%float];
               A := 0.7%float; B := 0.2%float; C := 0.1%float |} in
  Some {| simulator := sim5 step;
          metrics := no_metrics;
          drones := [Drone.set_routing_algorithm d0 r0;
                     Drone.set_move_routing (Drone.set_buffer d1 [201; 202]) true;
                     d2];
          depot := depot;
          packets := {[ 201 := packet5 201 101 0; 202 := packet5 202 102 3 ]} |}.

(** The packets 201 to 204, of the events 101, 102, 101 and 103, and the
    drone 1 carrying some of them. *)
Definition heap5 : gmap Z Packet :=
  {[ 201 := packet5 201 101 0; 202 := packet5 202 102 3;
     203 := packet5 203 101 0; 204 := packet5 204 103 4 ]}.

Definition carrier (buf : list Z) : option (Drone instance) :=
  d ← Drone.__init__ 1%nat 1 [(3%float, 4%float)] (sim5 0) 10%float;
  Some (Drone.set_buffer d buf).

Definition no_mission_metrics : MissionMetrics :=
  {| all_data_packets_in_simulation := 0;
     events_not_listened := ∅;
     time_on_active_routing := 0;
     time_on_mission := 0 |}.

(** The three drones of [roster3], the drone 0 having heard of the drone 2
    behind the drone 1; and utilities for which every speed is zero. *)
Definition roster_two_hop : option (list (Drone instance)) :=
  ds ← roster3;
  d0 ← ds !! 0%nat;
  Some (<[0%nat := {| drone_entity := drone_entity d0;
                     path := path d0;
                     speed := speed d0;
                     sensing_range := sensing_range d0;
                     communication_range := communication_range d0;
                     buffer_max_size := buffer_max_size d0;
                     residual_energy := residual_energy d0;
                     come_back_to_mission := come_back_to_mission d0;
                     last_move_routing := last_move_routing d0;
                     tightest_event_deadline := tightest_event_deadline d0;
                     current_waypoint := current_waypoint d0;
                     buffer := buffer d0;
                     distance_from_depot := distance_from_depot d0;
                     move_routing := move_routing d0;
                     power := power d0;
                     link_holding_timer := link_holding_timer d0;
                     tau := tau d0;
                     hello_interval := hello_interval d0;
                     dist_t1 := dist_t1 d0;
                     t1 := t1 d0;
                     dist_t2 := dist_t2 d0;
                     t2 := t2 d0;
                     sequence_number := sequence_number d0;
                     one_hop_neighbors := [1%nat];
                     prev_one_hop_neighbors := prev_one_hop_neighbors d0;
                     two_hop_neighbors := [(1, [2%nat])];
                     routing_algorithm := routing_algorithm d0;
                     last_mission_coords := last_mission_coords d0 |}]> ds).

Definition no_speed : Utilities instance :=
  {| two_hop_speed := fun _ _ _ _ => 0%float;
     compute_required_speed := fun _ _ _ => 0%float |}.

(** The distance of the plane, for [utilities.euclidean_distance]. *)
Definition plane : Geometry :=
  {| euclidean_distance := fun p q =>
       PrimFloat.sqrt ((p.1 - q.1) * (p.1 - q.1) + (p.2 - q.2) * (p.2 - q.2))%float |}.

(** A drone of speed 10 at the first of the three waypoints of its path;
    the depot is at the same point. *)
Definition patrol : option (Drone instance) :=
  Drone.__init__ 0%nat 0
    [(0%float, 0%float); (30%float, 40%float); (30%float, 0%float)] (sim 0) 10%float.

(** The drones of [roster3], the drone 0 holding the values 0, 0.9 and 0.3
    in its table and having heard of the drone 2 behind the drone 1 and of
    the drone 1 behind the drone 2; and utilities for which every neighbor
    is faster than required. *)
Definition roster_two_candidates : option (list (Drone instance)) :=
  ds ← roster3;
  d0 ← ds !! 0%nat;
  Some (<[0%nat := {| drone_entity := drone_entity d0;
                     path := path d0;
                     speed := speed d0;
                     sensing_range := sensing_range d0;
                     communication_range := communication_range d0;
                     buffer_max_size := buffer_max_size d0;
                     residual_energy := residual_energy d0;
                     come_back_to_mission := come_back_to_mission d0;
                     last_move_routing := last_move_routing d0;
                     tightest_event_deadline := tightest_event_deadline d0;
                     current_waypoint := current_waypoint d0;
                     buffer := buffer d0;
                     distance_from_depot := distance_from_depot d0;
                     move_routing := move_routing d0;
                     power := power d0;
                     link_holding_timer := link_holding_timer d0;
                     tau := tau d0;
                     hello_interval := hello_interval d0;
                     dist_t1 := dist_t1 d0;
                     t1 := t1 d0;
                     dist_t2 := dist_t2 d0;
                     t2 := t2 d0;
                     sequence_number := sequence_number d0;
                     one_hop_neighbors := [1%nat; 2%nat];
                     prev_one_hop_neighbors := prev_one_hop_neighbors d0;
                     two_hop_neighbors := [(1, [2%nat]); (2, [1%nat])];
                     routing_algorithm :=
                       {| drone := 0%nat;
                          taken_actions := ∅;
                          q_table := [0%float; 0.9%float; 0.3%float];
                          A := 0.7%float; B := 0.2%float; C := 0.1%float |};
                     last_mission_coords := last_mission_coords d0 |}]> ds).

Definition full_speed : Utilities instance :=
  {| two_hop_speed := fun _ _ _ _ => 1%float;
     compute_required_speed := fun _ _ _ => 0%float |}.

(** The same drone on a path whose second waypoint is one step away. *)
Definition patrol_short : option (Drone instance) :=
  Drone.__init__ 0%nat 0
    [(0%float, 0%float); (6%float, 8%float); (6%float, 0%float)] (sim 0) 10%float.

End Scenario.

(** * Properties *)

(** ** Packets: hops and expiry *)

Lemma add_hop_TTL (p : Packet) (d : DroneRef) :
  TTL (Packet.add_hop p d) = TTL p + 1.
Proof. unfold Packet.add_hop. by destruct (length (last_2_hops p) =? 2)%nat. Qed.

Lemma add_hop_last_2_hops (p : Packet) (d : DroneRef) :
  last_2_hops (Packet.add_hop p d) =
    (if (length (last_2_hops p) =? 2)%nat then drop 1 (last_2_hops p)
     else last_2_hops p) ++ [d].
Proof. unfold Packet.add_hop. by destruct (length (last_2_hops p) =? 2)%nat. Qed.

(** The window after one more hop, when it held the last two of [ds]. *)
Lemma window_step (ds : list DroneRef) (d : DroneRef) :
  (if (length (drop (length ds - 2) ds) =? 2)%nat
   then drop 1 (drop (length ds - 2) ds) else drop (length ds - 2) ds) ++ [d]
  = drop (length (ds ++ [d]) - 2) (ds ++ [d]).
Proof.
  rewrite length_app, length_drop. simpl length.
  destruct (decide (2 ≤ length ds)%nat) as [Hge | Hlt].
  - replace (length ds - (length ds - 2))%nat with 2%nat by lia.
    rewrite Nat.eqb_refl, drop_drop.
    replace (length ds + 1 - 2)%nat with (length ds - 2 + 1)%nat by lia.
    rewrite drop_app_le by lia. done.
  - replace (length ds - 2)%nat with 0%nat by lia.
    replace (length ds + 1 - 2)%nat with 0%nat by lia.
    rewrite Nat.sub_0_r, !drop_0.
    destruct (Nat.eqb_spec (length ds) 2); [lia | done].
Qed.

(** C7. A packet starts with [TTL = -1] and no hop.  After [add_hop] was
    called for the drones [hops], one after the other, the hop count [TTL]
    is their number minus one, and [last_2_hops] holds the last two of them
    in order (all of them when there are fewer): it never holds more than
    two, and the oldest of three is the one dropped. *)
Theorem add_hop_count_and_window
    (self_id default_event_id time_step_creation : Z) (simulator : Simulator)
    (metrics : Metrics) (event_ref : option Event) (hops : list DroneRef) :
  let fresh := (Packet.__init__ self_id default_event_id time_step_creation
                                simulator metrics event_ref).1 in
  let pck := foldl Packet.add_hop fresh hops in
  TTL pck = Z.of_nat (length hops) - 1
  ∧ last_2_hops pck = drop (length hops - 2) hops
  ∧ (length (last_2_hops pck) ≤ 2)%nat.
Proof.
  intros fresh pck.
  assert (Hfresh : TTL fresh = -1 ∧ last_2_hops fresh = []).
  { unfold fresh, Packet.__init__, Event.__init__.
    destruct event_ref as [ev|]; simpl; done. }
  destruct Hfresh as [Httl0 Hhops0].
  assert (Hinv : TTL pck = Z.of_nat (length hops) - 1
                 ∧ last_2_hops pck = drop (length hops - 2) hops).
  { unfold pck. clear pck. induction hops as [| d ds IH] using rev_ind.
    - simpl. by rewrite Httl0, Hhops0.
    - rewrite foldl_app. simpl foldl. destruct IH as [IHt IHh]. split.
      + rewrite add_hop_TTL, IHt, length_app. simpl. lia.
      + rewrite add_hop_last_2_hops, IHh. apply window_step. }
  destruct Hinv as [Ht Hh]. split_and!; [done | done |].
  rewrite Hh, length_drop. lia.
Qed.

(** An example of the window: the first of three hops is dropped. *)
Example add_hop_three_hops (p : Packet) :
  last_2_hops p = [] →
  last_2_hops (Packet.add_hop (Packet.add_hop (Packet.add_hop p 4%nat) 5%nat) 6%nat)
  = [5%nat; 6%nat].
Proof.
  intros Hp. rewrite !add_hop_last_2_hops, Hp. reflexivity.
Qed.

Lemma increase_TTL_hops_iter_event (n : nat) (p : Packet) :
  event_ref (Nat.iter n Packet.increase_TTL_hops p) = event_ref p.
Proof. induction n as [| n IH]; [done | simpl; exact IH]. Qed.

(** C9. An event is expired at a step exactly when the step is after its
    deadline: not at the deadline itself, and at the step that follows it.
    A packet is expired exactly when the step is after the deadline of its
    event, whatever its hop count [TTL]. *)
Theorem is_expired_iff_after_deadline (ev : Event) (pck : Packet) (step : Z) (n : nat) :
  (Event.is_expired ev step = true ↔ step > deadline ev)
  ∧ Event.is_expired ev (deadline ev) = false
  ∧ Event.is_expired ev (deadline ev + 1) = true
  ∧ (Packet.is_expired pck step = true ↔ step > deadline (event_ref pck))
  ∧ Packet.is_expired (Nat.iter n Packet.increase_TTL_hops pck) step
    = Packet.is_expired pck step.
Proof.
  unfold Event.is_expired, Packet.is_expired. split_and!.
  - rewrite Z.ltb_lt. lia.
  - apply Z.ltb_irrefl.
  - apply Z.ltb_lt. lia.
  - rewrite Z.ltb_lt. lia.
  - by rewrite increase_TTL_hops_iter_event.
Qed.

(** ** Entities: equality and hash *)

Lemma Entity_eq_iff (a b : Entity) :
  Entity.__eq__ a b = true ↔ identifier a = identifier b.
Proof. unfold Entity.__eq__. rewrite Z.eqb_eq. split; congruence. Qed.

Lemma Entity_eq_set_coords (a : Entity) (c : float * float) :
  Entity.__eq__ a (Entity.set_coords a c) = true.
Proof. apply Entity_eq_iff. reflexivity. Qed.

(** C8. The entity of id 7 at (0, 0) and the same entity moved to (1, 0)
    are equal, and yet their hashes differ: the hash is computed from the
    id and the coordinates. *)
Theorem Entity_hash_changes_with_coords :
  let e := {| identifier := 7; coords := (0%float, 0%float) |} in
  let e' := Entity.set_coords e (1%float, 0%float) in
  Entity.__eq__ e e' = true
  ∧ Entity.__hash__ e = 2046688326396745767
  ∧ Entity.__hash__ e' = 8292992689147569551
  ∧ Entity.__hash__ e ≠ Entity.__hash__ e'.
Proof.
  intros e e'.
  assert (H1 : Entity.__hash__ e = 2046688326396745767) by (vm_compute; reflexivity).
  assert (H2 : Entity.__hash__ e' = 8292992689147569551) by (vm_compute; reflexivity).
  split_and!; [apply Entity_eq_set_coords | exact H1 | exact H2 |].
  rewrite H1, H2. discriminate.
Qed.

(** ** Hello packets *)

(** C10. Building a hello packet adds one to the sequence number of the
    sending drone, the packet records the number as it was before, and the
    drone is otherwise left as it was: every other attribute keeps its
    value, and so do the metrics. *)
Theorem HelloPacket_init_sequence_number {R : Type}
    (self_id default_event_id : Z) (src_ref : DroneRef) (src : Drone R)
    (time_step_creation : Z) (simulator : Simulator) (metrics : Metrics)
    (cur_pos : float * float) (speed' : float) (next_target : float * float)
    (link_holding_timer' : float) (one_hop : list DroneRef)
    (two_hop : list (Z * list DroneRef)) :
  let '(pck, src', metrics') :=
    HelloPacket.__init__ self_id default_event_id src_ref src time_step_creation
      simulator metrics cur_pos speed' next_target link_holding_timer' one_hop two_hop in
  sequence_number src' = sequence_number src + 1
  ∧ hello_sequence_number pck = sequence_number src
  ∧ src' =
      {| drone_entity := drone_entity src;
         path := path src;
         speed := speed src;
         sensing_range := sensing_range src;
         communication_range := communication_range src;
         buffer_max_size := buffer_max_size src;
         residual_energy := residual_energy src;
         come_back_to_mission := come_back_to_mission src;
         last_move_routing := last_move_routing src;
         tightest_event_deadline := tightest_event_deadline src;
         current_waypoint := current_waypoint src;
         buffer := buffer src;
         distance_from_depot := distance_from_depot src;
         move_routing := move_routing src;
         power := power src;
         link_holding_timer := link_holding_timer src;
         tau := tau src;
         hello_interval := hello_interval src;
         dist_t1 := dist_t1 src;
         t1 := t1 src;
         dist_t2 := dist_t2 src;
         t2 := t2 src;
         sequence_number := sequence_number src + 1;
         one_hop_neighbors := one_hop_neighbors src;
         prev_one_hop_neighbors := prev_one_hop_neighbors src;
         two_hop_neighbors := two_hop_neighbors src;
         routing_algorithm := routing_algorithm src;
         last_mission_coords := last_mission_coords src |}
  ∧ metrics' = metrics.
Proof.
  unfold HelloPacket.__init__, Packet.__init__, Event.__init__.
  simpl. done.
Qed.

(** ** The hello interval *)

Section HelloInterval.
Context {R : Type}.
Implicit Types self : Drone R.

(** The estimate of one round, from the samples of its slot. *)
Lemma link_duration_at_samples self (i : nat) (d1 d2 ta tb : float) :
  dist_t1 self !! i = Some d1 → dist_t2 self !! i = Some d2 →
  t1 self !! i = Some ta → t2 self !! i = Some tb →
  Drone.link_duration_at self i =
    Some (if PyFloat.gt (d2 - d1)%float 0%float
          then Drone.closing_speed_estimate self d1 d2 ta tb
          else Drone.distance_over_speed_estimate self d2).
Proof.
  intros Hd1 Hd2 Hta Htb. unfold Drone.link_duration_at.
  rewrite Hd2, Hd1. simpl.
  destruct (PyFloat.gt (d2 - d1)%float 0%float); [| done].
  rewrite Htb, Hta. done.
Qed.

Lemma link_duration_at_is_Some self (i : nat) :
  (i < length (dist_t1 self))%nat → (i < length (dist_t2 self))%nat →
  (i < length (t1 self))%nat → (i < length (t2 self))%nat →
  is_Some (Drone.link_duration_at self i).
Proof.
  intros H1 H2 H3 H4.
  apply lookup_lt_is_Some_2 in H1 as [d1 Hd1].
  apply lookup_lt_is_Some_2 in H2 as [d2 Hd2].
  apply lookup_lt_is_Some_2 in H3 as [ta Hta].
  apply lookup_lt_is_Some_2 in H4 as [tb Htb].
  rewrite (link_duration_at_samples self i d1 d2 ta tb) by done. eauto.
Qed.


Lemma link_durations_length self (n : nat) (ld : list float) :
  Drone.link_durations self n = Some ld → length ld = n.
Proof.
  unfold Drone.link_durations. intros Hm.
  apply mapM_Some in Hm. apply Forall2_length in Hm.
  rewrite length_seq in Hm. done.
Qed.

Lemma link_durations_is_Some self (n : nat) :
  (n ≤ length (dist_t1 self))%nat → (n ≤ length (dist_t2 self))%nat →
  (n ≤ length (t1 self))%nat → (n ≤ length (t2 self))%nat →
  is_Some (Drone.link_durations self n).
Proof.
  intros H1 H2 H3 H4. unfold Drone.link_durations.
  apply mapM_is_Some. apply Forall_forall. intros i Hi.
  apply elem_of_seq in Hi.
  apply link_duration_at_is_Some; lia.
Qed.


End HelloInterval.



(** C3.  The drone 1 hears the drone 0 at its own position: the distance is
    zero, the link holding timer is zero, and the hello interval, the
    ceiling of [0.5 * 0], is zero and not at least one. *)
Theorem hello_interval_zero_at_zero_link_holding_timer :
  ∃ self' : Drone QTARRouting.instance,
    Scenario.after_step_1 (0%float, 0%float) = Some self'
    ∧ link_holding_timer self' = 0%float
    ∧ PrimFloat.leb 0%float (link_holding_timer self') = true
    ∧ hello_interval self' = PyFloat.ceil (tau self' * link_holding_timer self')%float
    ∧ hello_interval self' = 0%float
    ∧ PrimFloat.leb 1%float (hello_interval self') = false.
Proof.
  eexists. split; [vm_compute; reflexivity |].
  split_and!; vm_compute; reflexivity.
Qed.

(** ** QTAR: feedback *)

Section QTARFeedback.
Import QTARRouting.

(** Feedback for an event without a pending action changes nothing. *)
Lemma feedback_not_pending (simulator : Simulator) (self : instance)
    (current_drone : Drone instance) (id_event delay outcome : Z) :
  taken_actions self !! id_event = None →
  feedback simulator self current_drone id_event delay outcome = Some self.
Proof. intros Hnone. unfold feedback. by rewrite Hnone. Qed.

(** The weights are those the constructor sets, and nothing changes them. *)
Lemma init_weights (d : DroneRef) (simulator : Simulator) :
  A (__init__ d simulator) = 0.7%float
  ∧ B (__init__ d simulator) = 0.2%float
  ∧ C (__init__ d simulator) = 0.1%float.
Proof. done. Qed.

Lemma feedback_weights (simulator : Simulator) (self self' : instance)
    (current_drone : Drone instance) (id_event delay outcome : Z) :
  feedback simulator self current_drone id_event delay outcome = Some self' →
  A self' = A self ∧ B self' = B self ∧ C self' = C self.
Proof.
  unfold feedback. intros Hf.
  repeat case_match; simplify_option_eq; done.
Qed.

(** C5.  For an instance with the weights 0.7, 0.2 and 0.1, in a
    simulation whose maximal TTL and maximal energy are not zero: feedback
    for an event with a pending action removes the entry and sets the
    value of the recorded action to
    [0.7 * (delay / max_TTL) + 0.2 * 1 + 0.1 * (residual_energy / max_energy)],
    the energy being that of the drone given with the feedback, and any
    further feedback for that event changes nothing; feedback for an
    event without a pending action changes nothing, neither the pending
    actions nor the values. *)
Theorem feedback_consumes_pending_action_once
    (simulator : Simulator) (self : instance) (current_drone : Drone instance)
    (id_event delay outcome : Z) :
  A self = 0.7%float → B self = 0.2%float → C self = 0.1%float →
  packets_max_ttl simulator ≠ 0 →
  PrimFloat.eqb (drone_max_energy simulator) 0%float = false →
  (∀ (state action : Z) (k : nat),
      taken_actions self !! id_event = Some (state, action) →
      py_index (length (q_table self)) action = Some k →
      ∃ self' : instance,
        feedback simulator self current_drone id_event delay outcome = Some self'
        ∧ taken_actions self' = delete id_event (taken_actions self)
        ∧ taken_actions self' !! id_event = None
        ∧ q_table self' =
            <[k := (0.7 * (PyFloat.of_int delay
                           / PyFloat.of_int (packets_max_ttl simulator))
                    + 0.2 * 1
                    + 0.1 * (residual_energy current_drone
                             / drone_max_energy simulator))%float]> (q_table self)
        ∧ ∀ (drone2 : Drone instance) (delay2 outcome2 : Z),
            feedback simulator self' drone2 id_event delay2 outcome2 = Some self')
  ∧ (taken_actions self !! id_event = None →
     feedback simulator self current_drone id_event delay outcome = Some self).
Proof.
  intros HA HB HC Httl Hen. split.
  - intros state action k Hpending Hk.
    eexists. split_and!.
    + unfold feedback, py_setitem. rewrite Hpending.
      destruct (Z.eqb_spec (packets_max_ttl simulator) 0); [done |].
      rewrite Hen, Hk. simpl. reflexivity.
    + reflexivity.
    + simpl. apply lookup_delete_eq.
    + simpl. unfold reward. rewrite HA, HB, HC. reflexivity.
    + intros drone2 delay2 outcome2. apply feedback_not_pending.
      simpl. apply lookup_delete_eq.
  - apply feedback_not_pending.
Qed.

(** The theorem on the instance of the scenario, where the action 1 is
    pending for the event 77: the feedback of a delivery after 100 steps,
    from a drone with all its energy, sets the value of the drone 1 to
    [0.7 * (100 / 200) + 0.2 * 1 + 0.1 * (100 / 100)]. *)
Lemma feedback_consumes_pending_action_once_scenario :
  ∃ (ds : list (Drone instance)) (me : Drone instance),
    Scenario.roster3 = Some ds ∧ ds !! 0%nat = Some me
    ∧ ∃ self' : instance,
        feedback (Scenario.sim3 1) Scenario.pending me 77 100 1 = Some self'
        ∧ taken_actions self' !! 77 = None
        ∧ q_table self' = [0%float; 0.65%float; 0%float]
        ∧ feedback (Scenario.sim3 2) self' me 77 100 1 = Some self'.
Proof.
  do 2 eexists.
  split; [vm_compute; reflexivity |].
  split; [vm_compute; reflexivity |].
  match goal with
  | |- ∃ self', feedback _ _ ?me _ _ _ = _ ∧ _ =>
      destruct (feedback_consumes_pending_action_once (Scenario.sim3 1)
                  Scenario.pending me 77 100 1) as [Hpending _];
        [reflexivity | reflexivity | reflexivity | simpl; lia
        | vm_compute; reflexivity |]
  end.
  destruct (Hpending 0 1 1%nat) as (self' & Hf & _ & Hnone & Hq & Hdup);
    [vm_compute; reflexivity | vm_compute; reflexivity |].
  exists self'. split_and!; [exact Hf | exact Hnone | |].
  - rewrite Hq. vm_compute. reflexivity.
  - apply feedback_not_pending. exact Hnone.
Defined.

(** On a well-formed instance [feedback] raises nothing, and the instance
    it leaves is well formed. *)
Lemma QTAR_feedback_well_formed (simulator : Simulator) (self : instance)
    (current_drone : Drone instance) (id_event delay outcome : Z) :
  well_formed simulator self →
  ∃ self' : instance,
    feedback simulator self current_drone id_event delay outcome = Some self'
    ∧ well_formed simulator self'.
Proof.
  intros (Httl & Hen & Hpending). unfold feedback.
  destruct (taken_actions self !! id_event) as [[state action] |] eqn:Hlook.
  - destruct (Hpending id_event (state, action) Hlook) as [k Hk]. simpl in Hk.
    destruct (Z.eqb_spec (packets_max_ttl simulator) 0); [done |].
    rewrite Hen. unfold py_setitem. rewrite Hk. simpl.
    eexists. split; [reflexivity |].
    split_and!; [done | done |]. simpl.
    rewrite length_insert. by apply map_Forall_delete.
  - exists self. by split.
Qed.

End QTARFeedback.

(** ** QTAR: relay selection *)

Section QTARRelaySelection.
Import QTARRouting.
Context `{Utilities instance}.

(** Without a selected drone, the scan of the sorted positions ends on the
    initial value of [action]. *)
Lemma first_selected_nil (sorted_q_table : list Z) :
  first_selected sorted_q_table [] = -1.
Proof.
  induction sorted_q_table as [| droneId rest IH]; [done |].
  cbn [first_selected].
  rewrite bool_decide_eq_false_2; [exact IH | apply not_elem_of_nil].
Qed.

(** Whenever no drone is selected, be it that the drone knows no two-hop
    neighbor or that none is fast enough, [relay_selection] stores the
    action [-1] and returns the last drone of [simulator.drones]. *)
Lemma relay_selection_nothing_selected (self : instance) (simulator : Simulator)
    (ds : list (Drone instance)) (me : Drone instance) (packet : DataPacket)
    (drone_near_depot_id : Z) :
  ds !! drone self = Some me →
  selected_drones simulator ds packet me drone_near_depot_id = Some [] →
  relay_selection self simulator ds packet drone_near_depot_id =
    Some ((length ds - 1)%nat,
          {| drone := drone self;
             taken_actions :=
               <[identifier (event_ref packet) := (identifier me, -1)]>
                 (taken_actions self);
             q_table := q_table self;
             A := A self; B := B self; C := C self |}).
Proof.
  intros Hme Hsel. unfold relay_selection.
  rewrite Hme. simpl. rewrite Hsel. simpl.
  rewrite first_selected_nil.
  assert (Hlen : (0 < length ds)%nat) by (apply lookup_lt_Some in Hme; lia).
  unfold py_index.
  destruct (Z.ltb_spec (-1) (Z.of_nat (length ds))); [| lia].
  replace (0 <=? -1) with false by reflexivity. simpl.
  destruct (Z.leb_spec (- Z.of_nat (length ds)) (-1)); [| lia].
  simpl. do 3 f_equal. lia.
Qed.

(** C2.  The drone 0 of a simulation of three drones knows no two-hop
    neighbor and is given no drone near the depot: no drone is selected,
    and [relay_selection] neither raises nor reports it; it returns the
    drone 2, the last of the list, and stores [-1] as the action taken
    for the event of the packet. *)
Theorem relay_selection_without_candidate_returns_last_drone :
  ∃ (ds : list (Drone instance)) (me : Drone instance) (self' : instance),
    Scenario.roster3 = Some ds ∧ ds !! 0%nat = Some me
    ∧ two_hop_neighbors me = []
    ∧ selected_drones (Scenario.sim3 1) ds (Scenario.packet_of 2001 1001 0) me (-1)
      = Some []
    ∧ relay_selection (routing_algorithm me) (Scenario.sim3 1) ds
                      (Scenario.packet_of 2001 1001 0) (-1)
      = Some (2%nat, self')
    ∧ taken_actions self' !! 1001 = Some (0, -1).
Proof.
  do 3 eexists.
  split; [vm_compute; reflexivity |].
  split; [vm_compute; reflexivity |].
  split; [vm_compute; reflexivity |].
  split; [vm_compute; reflexivity |].
  split; [vm_compute; reflexivity |].
  vm_compute. reflexivity.
Qed.

End QTARRelaySelection.

(** ** The feedback broadcast *)

Section Broadcast.
Context {R : Type} `{RoutingAlgorithm R}.
Implicit Types (ds : list (Drone R)).

(** [ok] is a property of the routing-algorithm instances under which
    [feedback] returns, and which it keeps. *)
Variable ok : R → Prop.
Variable sim : Simulator.
Hypothesis feedback_ok :
  ∀ (r : R) (d : Drone R) (id_event delay outcome : Z),
    ok r → ∃ r', feedback sim r d id_event delay outcome = Some r' ∧ ok r'.

Lemma set_routing_algorithm_twice (d : Drone R) (r r' : R) :
  Drone.set_routing_algorithm (Drone.set_routing_algorithm d r) r'
  = Drone.set_routing_algorithm d r'.
Proof. reflexivity. Qed.

Lemma set_routing_algorithm_same (d : Drone R) :
  d = Drone.set_routing_algorithm d (routing_algorithm d).
Proof. by destruct d. Qed.

(** The loop of the broadcast returns; it calls each target once, in order,
    and changes nothing in a drone but its routing-algorithm instance. *)
Lemma feedback_loop_spec (current_drone : DroneRef) (id_event delay outcome : Z)
    (targets : list DroneRef) :
  ∀ ds (calls : list FeedbackCall),
    (current_drone < length ds)%nat →
    Forall (fun j => (j < length ds)%nat) targets →
    Forall (fun d => ok (routing_algorithm d)) ds →
    ∃ ds',
      Drone.feedback_loop sim current_drone id_event delay outcome targets ds calls
      = Some (ds', calls ++ ((fun j => {| fb_target := j; fb_current_drone := current_drone;
                                          fb_id_event := id_event; fb_delay := delay;
                                          fb_outcome := outcome |}) <$> targets))
      ∧ length ds' = length ds
      ∧ Forall (fun d => ok (routing_algorithm d)) ds'
      ∧ ∀ (j : nat) (d : Drone R), ds !! j = Some d →
          ∃ d', ds' !! j = Some d'
                ∧ d' = Drone.set_routing_algorithm d (routing_algorithm d').
Proof.
  induction targets as [| j rest IH]; intros ds calls Hcur Htargets Hok.
  - exists ds. simpl. rewrite app_nil_r. split_and!; [done | done | done |].
    intros j d Hd. exists d. split; [done | apply set_routing_algorithm_same].
  - apply Forall_cons in Htargets as [Hj Hrest].
    destruct (lookup_lt_is_Some_2 ds j Hj) as [drone Hdrone].
    destruct (lookup_lt_is_Some_2 ds current_drone Hcur) as [cur Hcurd].
    assert (Hokd : ok (routing_algorithm drone)).
    { by apply (proj1 (Forall_lookup _ ds) Hok j). }
    destruct (feedback_ok (routing_algorithm drone) cur id_event delay outcome Hokd)
      as (r & Hr & Hokr).
    set (ds1 := <[j := Drone.set_routing_algorithm drone r]> ds).
    destruct (IH ds1 (calls ++ [{| fb_target := j; fb_current_drone := current_drone;
                                   fb_id_event := id_event; fb_delay := delay;
                                   fb_outcome := outcome |}]))
      as (ds' & Hloop & Hlen & Hok' & Hframe).
    + unfold ds1. by rewrite length_insert.
    + unfold ds1. by rewrite length_insert.
    + unfold ds1. by apply Forall_insert.
    + exists ds'. split_and!.
      * cbn [Drone.feedback_loop]. rewrite Hdrone, Hcurd. simpl. rewrite Hr. simpl.
        fold ds1. rewrite Hloop. by rewrite <- app_assoc.
      * rewrite Hlen. unfold ds1. apply length_insert.
      * exact Hok'.
      * intros i d Hd. destruct (decide (i = j)) as [-> | Hne].
        -- assert (d = drone) as -> by congruence.
           destruct (Hframe j (Drone.set_routing_algorithm drone r)) as (d' & Hd' & Heq).
           { unfold ds1. by apply list_lookup_insert_eq. }
           exists d'. split; [done |]. by rewrite Heq at 1.
        -- apply Hframe. unfold ds1. by rewrite list_lookup_insert_ne.
Qed.

Lemma broadcast_feedback_spec (current_drone : DroneRef) (id_event delay outcome : Z)
    ds (calls : list FeedbackCall) :
  (current_drone < length ds)%nat →
  Forall (fun d => ok (routing_algorithm d)) ds →
  ∃ ds',
    Drone.broadcast_feedback sim current_drone id_event delay outcome ds calls
    = Some (ds', calls ++ Expected.to_every_drone (length ds) current_drone
                                                  id_event delay outcome)
    ∧ length ds' = length ds
    ∧ Forall (fun d => ok (routing_algorithm d)) ds'
    ∧ ∀ (j : nat) (d : Drone R), ds !! j = Some d →
        ∃ d', ds' !! j = Some d'
              ∧ d' = Drone.set_routing_algorithm d (routing_algorithm d').
Proof.
  intros Hcur Hok. unfold Drone.broadcast_feedback, Expected.to_every_drone.
  apply feedback_loop_spec; [done | | done].
  apply Forall_seq. intros j Hj. lia.
Qed.

(** ** Pruning the buffer *)

(** The running minimum over a list of deadlines: nothing when the list is
    empty and there was nothing before, else the least of what there was
    before and the deadlines of the list. *)
Lemma nanmin_deadline_fold (l : list Z) :
  ∀ t : option Z,
    match foldl nanmin_deadline t l with
    | None => t = None ∧ l = []
    | Some m => (m ∈ l ∨ t = Some m)
                ∧ (∀ d, d ∈ l → m ≤ d)
                ∧ (∀ x, t = Some x → m ≤ x)
    end.
Proof.
  induction l as [| a l IH]; intros t.
  - simpl. destruct t as [m |]; [| done].
    split_and!; [by right | intros d Hd; by apply elem_of_nil in Hd |].
    intros x [= ->]. lia.
  - simpl. specialize (IH (nanmin_deadline t a)).
    destruct (foldl nanmin_deadline (nanmin_deadline t a) l) as [m |].
    + destruct IH as (Hin & Hle & Hprev). split_and!.
      * destruct Hin as [Hin | Hin]; [left; by apply elem_of_cons; right |].
        destruct t as [x |]; simpl in Hin; injection Hin as <-.
        -- destruct (Z.min_spec x a) as [[_ ->] | [_ ->]];
             [by right | left; apply elem_of_cons; by left].
        -- left. apply elem_of_cons. by left.
      * intros d Hd. apply elem_of_cons in Hd as [-> | Hd]; [| by apply Hle].
        destruct t as [x |]; simpl in Hprev.
        -- specialize (Hprev _ eq_refl). lia.
        -- specialize (Hprev _ eq_refl). lia.
      * intros x ->. simpl in Hprev. specialize (Hprev _ eq_refl). lia.
    + destruct IH as [Hnone _]. by destruct t.
Qed.

Lemma non_expired_cons_kept (pcks : gmap Z Packet) (step pck_id : Z) (pck : Packet)
    (buf : list Z) :
  pcks !! pck_id = Some pck → Packet.is_expired pck step = false →
  Expected.non_expired pcks step (pck_id :: buf)
    = pck_id :: Expected.non_expired pcks step buf
  ∧ Expected.expired pcks step (pck_id :: buf) = Expected.expired pcks step buf
  ∧ Expected.non_expired_deadlines pcks step (pck_id :: buf)
    = deadline (event_ref pck) :: Expected.non_expired_deadlines pcks step buf.
Proof.
  intros Hp He.
  unfold Expected.non_expired_deadlines, Expected.non_expired, Expected.expired.
  simpl. rewrite Hp, He. simpl. by rewrite Hp.
Qed.

Lemma non_expired_cons_expired (pcks : gmap Z Packet) (step pck_id : Z) (pck : Packet)
    (buf : list Z) :
  pcks !! pck_id = Some pck → Packet.is_expired pck step = true →
  Expected.non_expired pcks step (pck_id :: buf) = Expected.non_expired pcks step buf
  ∧ Expected.expired pcks step (pck_id :: buf)
    = pck_id :: Expected.expired pcks step buf
  ∧ Expected.non_expired_deadlines pcks step (pck_id :: buf)
    = Expected.non_expired_deadlines pcks step buf.
Proof.
  intros Hp He.
  unfold Expected.non_expired_deadlines, Expected.non_expired, Expected.expired.
  simpl. by rewrite Hp, He.
Qed.

Local Arguments Expected.non_expired : simpl never.
Local Arguments Expected.expired : simpl never.
Local Arguments Expected.non_expired_deadlines : simpl never.
Local Arguments Expected.negative_feedback : simpl never.
Local Arguments Expected.to_every_drone : simpl never.

(** The loop of [update_packets] returns.  It keeps the packets that are not
    expired, calls the feedback for those that are, and touches nothing of
    the drone [self] but its tightest deadline and its routing-algorithm
    instance. *)
Lemma update_packets_loop_spec (pcks : gmap Z Packet) (self : DroneRef) (step : Z)
    (buf : list Z) :
  ∀ ds (tmp_buffer : list Z) (calls : list FeedbackCall) (me : Drone R),
    ds !! self = Some me →
    Forall (fun d => ok (routing_algorithm d)) ds →
    (∀ pck_id, pck_id ∈ buf → is_Some (pcks !! pck_id)) →
    ∃ ds' (me' : Drone R),
      Drone.update_packets_loop sim pcks self step buf ds tmp_buffer calls
      = Some (ds', tmp_buffer ++ Expected.non_expired pcks step buf,
              calls ++ (if str_in (routing_algorithm_name sim) GEO_RND_GEOS
                        then []
                        else Expected.negative_feedback sim pcks (length ds)
                                                        self step buf))
      ∧ length ds' = length ds
      ∧ ds' !! self = Some me'
      ∧ buffer me' = buffer me
      ∧ move_routing me' = move_routing me
      ∧ tightest_event_deadline me'
        = foldl nanmin_deadline (tightest_event_deadline me)
                (Expected.non_expired_deadlines pcks step buf).
Proof.
  induction buf as [| pck_id rest IH]; intros ds tmp_buffer calls me Hme Hok Hbuf.
  - exists ds, me. cbn [Drone.update_packets_loop].
    unfold Expected.negative_feedback, Expected.non_expired_deadlines. simpl.
    destruct (str_in (routing_algorithm_name sim) GEO_RND_GEOS);
      rewrite !app_nil_r; split_and!; done.
  - destruct (Hbuf pck_id) as [pck Hpck]; [apply elem_of_cons; by left |].
    assert (Hrest : ∀ i, i ∈ rest → is_Some (pcks !! i)).
    { intros i Hi. apply Hbuf. apply elem_of_cons. by right. }
    assert (Hself : (self < length ds)%nat) by (by apply lookup_lt_Some in Hme).
    cbn [Drone.update_packets_loop]. rewrite Hpck. simpl.
    destruct (Packet.is_expired pck step) eqn:Hexp; simpl.
    + (* the packet is expired *)
      destruct (non_expired_cons_expired pcks step pck_id pck rest Hpck Hexp)
        as (Hne & He & Hdl).
      rewrite Hne, Hdl.
      destruct (str_in (routing_algorithm_name sim) GEO_RND_GEOS) eqn:Hbase; simpl.
      * destruct (IH ds tmp_buffer calls me Hme Hok Hrest)
          as (ds' & me' & Hloop & Hrest').
        exists ds', me'. rewrite Hloop. done.
      * destruct (broadcast_feedback_spec self (identifier (event_ref pck))
                    (event_duration sim) (-1) ds calls Hself Hok)
          as (ds1 & Hb & Hlen1 & Hok1 & Hframe1).
        rewrite Hb. simpl.
        destruct (Hframe1 self me Hme) as (me1 & Hme1 & Heq1).
        destruct (IH ds1 tmp_buffer
                     (calls ++ Expected.to_every_drone (length ds) self
                                 (identifier (event_ref pck))
                                 (event_duration sim) (-1))
                     me1 Hme1 Hok1 Hrest)
          as (ds' & me' & Hloop & Hlen & Hme' & Hbuf' & Hmove' & Htight').
        exists ds', me'. rewrite Hloop, Hlen1.
        split_and!.
        -- do 2 f_equal. rewrite <- app_assoc. f_equal.
           unfold Expected.negative_feedback. rewrite He. simpl. by rewrite Hpck.
        -- congruence.
        -- done.
        -- rewrite Hbuf', Heq1. done.
        -- rewrite Hmove', Heq1. done.
        -- rewrite Htight', Heq1. done.
    + (* the packet is kept *)
      destruct (non_expired_cons_kept pcks step pck_id pck rest Hpck Hexp)
        as (Hne & He & Hdl).
      rewrite Hne, Hdl. rewrite Hme. simpl.
      set (me1 := Drone.set_tightest_event_deadline me
                    (nanmin_deadline (tightest_event_deadline me)
                                     (deadline (event_ref pck)))).
      destruct (IH (<[self := me1]> ds) (tmp_buffer ++ [pck_id]) calls me1)
        as (ds' & me' & Hloop & Hlen & Hme' & Hbuf' & Hmove' & Htight').
      * by apply list_lookup_insert_eq.
      * apply Forall_insert; [done |].
        change (ok (routing_algorithm me)).
        by apply (proj1 (Forall_lookup _ ds) Hok self).
      * done.
      * exists ds', me'. rewrite Hloop, length_insert.
        split_and!; [| by rewrite Hlen, length_insert | done | done | done | done].
        do 2 f_equal; [by rewrite <- app_assoc |].
        unfold Expected.negative_feedback. by rewrite He.
Qed.

End Broadcast.

(** ** The feedback reaches the instances *)

Section Delivery.
Context {R : Type} `{RoutingAlgorithm R}.
Implicit Types (ds : list (Drone R)).
Variable sim : Simulator.

Local Arguments Expected.instances_after_feedback : simpl never.

(** The loop of the broadcast replaces the instance of each target by what
    [feedback] returns on it, the drone that holds the packet being given as
    it is at that time. *)
Lemma feedback_loop_instances (current_drone : DroneRef) (base : Drone R)
    (id_event delay outcome : Z) (targets : list DroneRef) :
  ∀ ds ds' (calls calls' : list FeedbackCall),
    (∀ d, ds !! current_drone = Some d →
          d = Drone.set_routing_algorithm base (routing_algorithm d)) →
    Drone.feedback_loop sim current_drone id_event delay outcome targets ds calls
    = Some (ds', calls') →
    foldl (fun acc j =>
             rs ← acc;
             r ← rs !! j;
             own ← rs !! current_drone;
             r' ← feedback sim r (Drone.set_routing_algorithm base own)
                    id_event delay outcome;
             Some (<[j := r']> rs))
          (Some (routing_algorithm <$> ds)) targets
    = Some (routing_algorithm <$> ds')
    ∧ length ds' = length ds
    ∧ (∀ d, ds' !! current_drone = Some d →
            d = Drone.set_routing_algorithm base (routing_algorithm d)).
Proof.
  induction targets as [| j rest IH]; intros ds ds' calls calls' Hcur Hloop.
  - cbn [Drone.feedback_loop] in Hloop. injection Hloop as <- _. done.
  - cbn [Drone.feedback_loop] in Hloop.
    destruct (ds !! j) as [drone |] eqn:Hdrone; [| done]. simpl in Hloop.
    destruct (ds !! current_drone) as [cur |] eqn:Hcurd; [| done]. simpl in Hloop.
    destruct (feedback sim (routing_algorithm drone) cur id_event delay outcome)
      as [r |] eqn:Hr; [| done].
    simpl in Hloop.
    assert (Hcur1 : ∀ d, <[j := Drone.set_routing_algorithm drone r]> ds
                           !! current_drone = Some d →
                         d = Drone.set_routing_algorithm base (routing_algorithm d)).
    { intros d Hd. destruct (decide (j = current_drone)) as [-> | Hne].
      - rewrite list_lookup_insert_eq in Hd by (by apply lookup_lt_Some in Hdrone).
        assert (drone = cur) as -> by congruence.
        assert (d = Drone.set_routing_algorithm cur r) as -> by congruence.
        simpl. rewrite (Hcur cur eq_refl). reflexivity.
      - rewrite list_lookup_insert_ne in Hd by done.
        apply Hcur. congruence. }
    destruct (IH _ _ _ _ Hcur1 Hloop) as (Hfold & Hlen & Hcur').
    split_and!; [| by rewrite Hlen, length_insert | done].
    rewrite <- Hfold. cbn [foldl]. f_equal. simpl.
    rewrite !list_lookup_fmap, Hdrone, Hcurd. simpl.
    rewrite <- (Hcur cur eq_refl), Hr. simpl.
    by rewrite list_fmap_insert.
Qed.

Lemma broadcast_feedback_instances (current_drone : DroneRef) (base : Drone R)
    (id_event delay outcome : Z) ds ds' (calls calls' : list FeedbackCall) :
  (∀ d, ds !! current_drone = Some d →
        d = Drone.set_routing_algorithm base (routing_algorithm d)) →
  Drone.broadcast_feedback sim current_drone id_event delay outcome ds calls
  = Some (ds', calls') →
  Expected.instances_after_feedback sim current_drone
    (fun r => Drone.set_routing_algorithm base r) id_event delay outcome
    (routing_algorithm <$> ds)
  = Some (routing_algorithm <$> ds')
  ∧ length ds' = length ds
  ∧ (∀ d, ds' !! current_drone = Some d →
          d = Drone.set_routing_algorithm base (routing_algorithm d)).
Proof.
  intros Hcur Hloop. unfold Expected.instances_after_feedback.
  rewrite length_fmap. by apply (feedback_loop_instances _ _ _ _ _ _ _ _ calls calls').
Qed.

(** The loop of [update_packets]: the instances it leaves are those of
    [Expected.instances_after_pruning]. *)
Lemma update_packets_loop_instances (pcks : gmap Z Packet) (self : DroneRef) (step : Z)
    (me : Drone R) (buf : list Z) :
  ∀ ds ds' (tmp_buffer tmp_buffer' : list Z) (calls calls' : list FeedbackCall)
    (d : Drone R),
    ds !! self = Some d →
    d = Drone.set_routing_algorithm
          (Drone.set_tightest_event_deadline me (tightest_event_deadline d))
          (routing_algorithm d) →
    Drone.update_packets_loop sim pcks self step buf ds tmp_buffer calls
    = Some (ds', tmp_buffer', calls') →
    ∃ d' : Drone R,
      ds' !! self = Some d'
      ∧ foldl (fun acc pck_id =>
                 '(tightest, rs) ← acc;
                 pck ← pcks !! pck_id;
                 if Packet.is_expired pck step then
                   if str_in (routing_algorithm_name sim) GEO_RND_GEOS
                   then Some (tightest, rs)
                   else
                     rs' ← Expected.instances_after_feedback sim self
                             (fun r => Drone.set_routing_algorithm
                                         (Drone.set_tightest_event_deadline me tightest) r)
                             (identifier (event_ref pck)) (event_duration sim) (-1) rs;
                     Some (tightest, rs')
                 else Some (nanmin_deadline tightest (deadline (event_ref pck)), rs))
              (Some (tightest_event_deadline d, routing_algorithm <$> ds)) buf
        = Some (tightest_event_deadline d', routing_algorithm <$> ds').
Proof.
  induction buf as [| pck_id rest IH];
    intros ds ds' tmp_buffer tmp_buffer' calls calls' d Hd Hinv Hloop.
  - cbn [Drone.update_packets_loop] in Hloop. injection Hloop as <- _ _.
    by exists d.
  - cbn [Drone.update_packets_loop] in Hloop.
    destruct (pcks !! pck_id) as [pck |] eqn:Hpck; [| done]. simpl in Hloop.
    cbn [foldl]. simpl. rewrite Hpck. simpl.
    destruct (Packet.is_expired pck step) eqn:Hexp; simpl in Hloop |- *.
    + destruct (str_in (routing_algorithm_name sim) GEO_RND_GEOS) eqn:Hbase;
        simpl in Hloop |- *.
      * by apply (IH _ _ _ _ _ _ d Hd Hinv Hloop).
      * destruct (Drone.broadcast_feedback sim self (identifier (event_ref pck))
                    (event_duration sim) (-1) ds calls)
          as [[ds1 calls1] |] eqn:Hb; [| done].
        simpl in Hloop.
        assert (Hcur0 : ∀ d0, ds !! self = Some d0 →
                   d0 = Drone.set_routing_algorithm
                          (Drone.set_tightest_event_deadline me
                             (tightest_event_deadline d))
                          (routing_algorithm d0)).
        { intros d0 Hd0. assert (d0 = d) as -> by congruence. exact Hinv. }
        destruct (broadcast_feedback_instances self
                    (Drone.set_tightest_event_deadline me (tightest_event_deadline d))
                    _ _ _ _ _ _ _ Hcur0 Hb)
          as (Hinst & Hlen1 & Hcur1).
        destruct (lookup_lt_is_Some_2 ds1 self) as [d1 Hd1].
        { rewrite Hlen1. by apply lookup_lt_Some in Hd. }
        pose proof (Hcur1 d1 Hd1) as Hinv1.
        assert (Ht1 : tightest_event_deadline d1 = tightest_event_deadline d)
          by (by rewrite Hinv1).
        rewrite Hinst. simpl. rewrite <- Ht1.
        rewrite <- Ht1 in Hinv1.
        exact (IH _ _ _ _ _ _ d1 Hd1 Hinv1 Hloop).
    + rewrite Hd in Hloop. simpl in Hloop.
      set (d1 := Drone.set_tightest_event_deadline d
                   (nanmin_deadline (tightest_event_deadline d)
                                    (deadline (event_ref pck)))) in *.
      assert (Hsame : routing_algorithm <$> <[self := d1]> ds = routing_algorithm <$> ds).
      { rewrite list_fmap_insert. apply list_insert_id.
        by rewrite list_lookup_fmap, Hd. }
      rewrite <- Hsame.
      assert (Hd1 : <[self := d1]> ds !! self = Some d1).
      { apply list_lookup_insert_eq. by apply lookup_lt_Some in Hd. }
      assert (Hinv1 : d1 = Drone.set_routing_algorithm
                             (Drone.set_tightest_event_deadline me
                                (tightest_event_deadline d1))
                             (routing_algorithm d1)).
      { unfold d1. rewrite Hinv at 1. reflexivity. }
      exact (IH _ _ _ _ _ _ d1 Hd1 Hinv1 Hloop).
Qed.

(** The loop of [transfer_notified_packets]: the instances it leaves are
    those of [Expected.instances_after_delivery]. *)
Lemma transfer_loop_instances (current_drone : DroneRef) (step : Z) (src : Drone R)
    (pcks0 : gmap Z Packet) (buf : list Z) :
  ∀ ds ds' (pcks pcks' : gmap Z Packet) (m m' : Metrics)
    (calls calls' : list FeedbackCall),
    (current_drone < length ds)%nat →
    (∀ d, ds !! current_drone = Some d →
          d = Drone.set_routing_algorithm src (routing_algorithm d)) →
    (∀ pck_id, event_ref <$> pcks !! pck_id = event_ref <$> pcks0 !! pck_id) →
    Depot.transfer_loop sim current_drone step buf ds pcks m calls
    = Some (ds', pcks', m', calls') →
    foldl (fun acc pck_id =>
             rs ← acc;
             pck ← pcks0 !! pck_id;
             if str_in (routing_algorithm_name sim) GEO_RND_GEOS then Some rs
             else Expected.instances_after_feedback sim current_drone
                    (fun r => Drone.set_routing_algorithm src r)
                    (identifier (event_ref pck))
                    (step - current_time (event_ref pck)) 1 rs)
          (Some (routing_algorithm <$> ds)) buf
    = Some (routing_algorithm <$> ds').
Proof.
  induction buf as [| pck_id rest IH];
    intros ds ds' pcks pcks' m m' calls calls' Hlt Hcur Hev Hloop.
  - cbn [Depot.transfer_loop] in Hloop. by injection Hloop as <- _ _ _.
  - cbn [Depot.transfer_loop] in Hloop.
    destruct (pcks !! pck_id) as [pck |] eqn:Hpck; [| done]. simpl in Hloop.
    pose proof (Hev pck_id) as Hev0. rewrite Hpck in Hev0. simpl in Hev0.
    destruct (pcks0 !! pck_id) as [pck0 |] eqn:Hpck0; [| done].
    simpl in Hev0. injection Hev0 as Hev0.
    assert (Hev1 : ∀ i, event_ref <$>
                          <[pck_id := Packet.set_time_delivery pck step]> pcks !! i
                        = event_ref <$> pcks0 !! i).
    { intros i. destruct (decide (i = pck_id)) as [-> | Hne].
      - rewrite lookup_insert_eq, Hpck0. simpl. by rewrite Hev0.
      - rewrite lookup_insert_ne by done. apply Hev. }
    cbn [foldl]. simpl. rewrite Hpck0. simpl.
    destruct (str_in (routing_algorithm_name sim) GEO_RND_GEOS) eqn:Hbase;
      simpl in Hloop |- *.
    + by apply (IH _ _ _ _ _ _ _ _ Hlt Hcur Hev1 Hloop).
    + destruct (Drone.broadcast_feedback sim current_drone (identifier (event_ref pck))
                  (step - current_time (event_ref pck)) 1 ds calls)
        as [[ds1 calls1] |] eqn:Hb; [| done].
      simpl in Hloop.
      destruct (broadcast_feedback_instances current_drone src _ _ _ _ _ _ _ Hcur Hb)
        as (Hinst & Hlen1 & Hcur1).
      rewrite <- Hev0, Hinst. simpl.
      apply (IH _ _ _ _ _ _ _ _ ltac:(by rewrite Hlen1) Hcur1 Hev1 Hloop).
Qed.

End Delivery.

(** C4.  For a drone [self] of the simulation, whose buffer holds packets
    of the simulation, and routing-algorithm instances on which [feedback]
    returns ([ok] is a property of the instances that ensures it and that
    [feedback] keeps), [update_packets] returns, and then: the buffer of the
    drone holds exactly the packets that were in it and are not expired, in
    their order; its tightest deadline is NaN (here [None]) when none is
    left and else the least deadline among them; the feedback calls made
    are, unless the name of the algorithm occurs in ["GEORNDGEOS"], one for
    each expired packet and each drone of the simulation, with the drone
    [self], the id of the event of the packet, the event duration as delay
    and the outcome [-1]; these calls reach the instances: the
    routing-algorithm instances of the drones are afterwards those of
    [Expected.instances_after_pruning], each replaced, for each expired
    packet in turn, by what its [feedback] returned; and [move_routing] is
    false when the buffer is left empty, and unchanged otherwise. *)
Theorem update_packets_prunes_and_broadcasts {R : Type} `{RoutingAlgorithm R}
    (ok : R → Prop) (w : World R) (self : DroneRef) (cur_step : Z) (me : Drone R) :
  (∀ (r : R) (d : Drone R) (id_event delay outcome : Z),
     ok r → ∃ r', feedback (simulator w) r d id_event delay outcome = Some r' ∧ ok r') →
  drones w !! self = Some me →
  Forall (fun d => ok (routing_algorithm d)) (drones w) →
  (∀ pck_id, pck_id ∈ buffer me → is_Some (packets w !! pck_id)) →
  ∃ (w' : World R) (calls : list FeedbackCall) (me' : Drone R),
    Drone.update_packets w self cur_step = Some (w', calls)
    ∧ drones w' !! self = Some me'
    ∧ buffer me' = Expected.non_expired (packets w) cur_step (buffer me)
    ∧ (buffer me' = [] → tightest_event_deadline me' = None)
    ∧ (buffer me' ≠ [] →
       ∃ m : Z,
         tightest_event_deadline me' = Some m
         ∧ (∃ pck_id pck, pck_id ∈ buffer me' ∧ packets w !! pck_id = Some pck
                          ∧ deadline (event_ref pck) = m)
         ∧ ∀ pck_id pck, pck_id ∈ buffer me' → packets w !! pck_id = Some pck →
                         m ≤ deadline (event_ref pck))
    ∧ calls = (if str_in (routing_algorithm_name (simulator w)) GEO_RND_GEOS
               then []
               else Expected.negative_feedback (simulator w) (packets w)
                      (length (drones w)) self cur_step (buffer me))
    ∧ move_routing me' = (if (length (buffer me') =? 0)%nat then false
                          else move_routing me)
    ∧ Expected.instances_after_pruning (simulator w) (packets w) self cur_step me
        (buffer me) (routing_algorithm <$> drones w)
      = Some (routing_algorithm <$> drones w').
Proof.
  intros Hfb Hme Hok Hbuf.
  assert (Hself : (self < length (drones w))%nat) by (by apply lookup_lt_Some in Hme).
  set (me0 := Drone.set_tightest_event_deadline me None).
  destruct (update_packets_loop_spec ok (simulator w) Hfb (packets w) self cur_step
              (buffer me) (<[self := me0]> (drones w)) [] [] me0)
    as (ds' & me1 & Hloop & Hlen & Hme1 & Hbuf1 & Hmove1 & Htight1).
  { by apply list_lookup_insert_eq. }
  { apply Forall_insert; [done |].
    change (ok (routing_algorithm me)).
    by apply (proj1 (Forall_lookup _ (drones w)) Hok self). }
  { done. }
  destruct (update_packets_loop_instances (simulator w) (packets w) self cur_step me
              (buffer me) _ _ _ _ _ _ me0 ltac:(by apply list_lookup_insert_eq)
              ltac:(by destruct me) Hloop)
    as (me1' & Hme1' & Hinstances).
  assert (me1' = me1) as -> by congruence.
  rewrite length_insert in Hloop.
  simpl in Hloop, Htight1.
  set (kept := Expected.non_expired (packets w) cur_step (buffer me)) in *.
  set (me2 := Drone.set_buffer me1 kept).
  set (me' := if (length (buffer me2) =? 0)%nat
              then Drone.set_move_routing me2 false else me2).
  assert (Hbuf' : buffer me' = kept).
  { unfold me'. by destruct (length (buffer me2) =? 0)%nat. }
  assert (Htight' : tightest_event_deadline me' = tightest_event_deadline me1).
  { unfold me'. by destruct (length (buffer me2) =? 0)%nat. }
  exists {| simulator := simulator w;
            metrics := metrics w;
            drones := <[self := me']> ds';
            depot := depot w;
            packets := packets w |},
         (if str_in (routing_algorithm_name (simulator w)) GEO_RND_GEOS then []
          else Expected.negative_feedback (simulator w) (packets w) (length (drones w))
                 self cur_step (buffer me)),
         me'.
  pose proof (nanmin_deadline_fold
                (Expected.non_expired_deadlines (packets w) cur_step (buffer me)) None)
    as Hfold.
  rewrite <- Htight1, <- Htight' in Hfold.
  split_and!.
  - unfold Drone.update_packets. rewrite Hme. simpl. fold me0.
    rewrite Hloop. simpl. rewrite Hme1. simpl. done.
  - simpl. apply list_lookup_insert_eq. rewrite Hlen, length_insert. done.
  - exact Hbuf'.
  - intros Hempty. destruct (tightest_event_deadline me') as [m |]; [| done].
    destruct Hfold as ([Hin | Hin] & _); [| done].
    unfold Expected.non_expired_deadlines in Hin. fold kept in Hin.
    rewrite <- Hbuf', Hempty in Hin. by apply elem_of_nil in Hin.
  - intros Hne. unfold Expected.non_expired_deadlines in Hfold. fold kept in Hfold.
    rewrite <- Hbuf' in Hfold.
    destruct (tightest_event_deadline me') as [m |].
    + destruct Hfold as ([Hin | Hin] & Hle & _); [| done].
      exists m. split_and!; [done | |].
      * apply list_elem_of_omap in Hin as (pck_id & Hid & Hdl).
        destruct (packets w !! pck_id) as [pck |] eqn:Hpck; [| done].
        simpl in Hdl. injection Hdl as Hdl. by exists pck_id, pck.
      * intros pck_id pck Hid Hpck. apply Hle.
        apply list_elem_of_omap. exists pck_id. by rewrite Hpck.
    + destruct Hfold as [_ Hnil].
      destruct (buffer me') as [| pck_id l]; [done |].
      assert (Hin : pck_id ∈ kept) by (rewrite <- Hbuf'; apply elem_of_cons; by left).
      unfold kept, Expected.non_expired in Hin.
      apply list_elem_of_In, filter_In in Hin as [_ Hin].
      destruct (packets w !! pck_id) as [pck |] eqn:Hpck; [| done].
      simpl in Hnil. rewrite Hpck in Hnil. done.
  - done.
  - rewrite Hbuf'. unfold me'. change (buffer me2) with kept.
    destruct (length kept =? 0)%nat; simpl; [done |].
    rewrite Hmove1. done.
  - unfold Expected.instances_after_pruning. simpl.
    assert (Hbefore : routing_algorithm <$> <[self := me0]> (drones w)
                      = routing_algorithm <$> drones w).
    { rewrite list_fmap_insert. apply list_insert_id.
      by rewrite list_lookup_fmap, Hme. }
    assert (Hafter : routing_algorithm <$> <[self := me']> ds'
                     = routing_algorithm <$> ds').
    { rewrite list_fmap_insert. apply list_insert_id.
      rewrite list_lookup_fmap, Hme1. unfold me'.
      by destruct (length (buffer me2) =? 0)%nat. }
    rewrite Hbefore in Hinstances. simpl in Hinstances.
    rewrite Hinstances, Hafter. done.
Qed.

(** The theorem on the scenario of the specification: the drone 1 holds
    two packets of deadlines 5 and 8, and prunes its buffer at step 6.  The
    drone 0 had taken the action 1 for the event 101 of the expired packet:
    the feedback consumes it and sets the value of the position 1 of its
    table to [0.7 * (5 / 200) + 0.2 * 1 + 0.1 * (100 / 100)]. *)
Lemma update_packets_prunes_and_broadcasts_scenario :
  ∃ w : World QTARRouting.instance,
    Scenario.world5 6 = Some w
    ∧ ∃ (w' : World QTARRouting.instance) (calls : list FeedbackCall)
        (me' : Drone QTARRouting.instance),
        Drone.update_packets w 1%nat 6 = Some (w', calls)
        ∧ drones w' !! 1%nat = Some me'
        ∧ buffer me' = [202]
        ∧ tightest_event_deadline me' = Some 8
        ∧ calls = Expected.to_every_drone 3 1%nat 101 5 (-1)
        ∧ move_routing me' = true
        ∧ (fun r => map_to_list (QTARRouting.taken_actions r))
            <$> (routing_algorithm <$> drones w)
          = [[(101, (0, 1))]; []; []]
        ∧ (fun r => map_to_list (QTARRouting.taken_actions r))
            <$> (routing_algorithm <$> drones w')
          = [[]; []; []]
        ∧ QTARRouting.q_table <$> (routing_algorithm <$> drones w')
          = [[0%float; 0.3175%float; 0%float];
             [0%float; 0%float; 0%float];
             [0%float; 0%float; 0%float]].
Proof.
  eexists. split; [vm_compute; reflexivity |].
  match goal with
  | |- ∃ w' calls me', Drone.update_packets ?w _ _ = _ ∧ _ =>
      edestruct (update_packets_prunes_and_broadcasts
                   (QTARRouting.well_formed (simulator w)) w 1%nat 6)
        as (w' & calls & me' & Hupd & Hme' & Hbuf & Hempty & Hmin & Hcalls & Hmove
            & Hinstances)
  end.
  - intros r d id_event delay outcome Hr.
    apply QTAR_feedback_well_formed. exact Hr.
  - vm_compute. reflexivity.
  - repeat apply Forall_cons_2; [| | | apply Forall_nil_2];
      (split_and!; [simpl; lia | vm_compute; reflexivity
                   | apply map_Forall_to_list; vm_compute; repeat econstructor]).
  - intros pck_id Hin. simpl in Hin.
    apply elem_of_cons in Hin as [-> | Hin]; [vm_compute; eauto |].
    apply elem_of_cons in Hin as [-> | Hin]; [vm_compute; eauto |].
    by apply elem_of_nil in Hin.
  - exists w', calls, me'.
    assert (Hkept : buffer me' = [202]) by (rewrite Hbuf; vm_compute; reflexivity).
    apply (f_equal (fun o => match o with Some rs => rs | None => [] end))
      in Hinstances.
    cbv beta iota in Hinstances.
    split_and!; [exact Hupd | exact Hme' | exact Hkept | | | | | |].
    + destruct Hmin as (m & Hm & (pck_id & pck & Hid & Hpck & Hdl) & _);
        [by rewrite Hkept |].
      rewrite Hkept in Hid. apply list_elem_of_singleton in Hid as ->.
      vm_compute in Hpck. rewrite Hm, <- Hdl. injection Hpck as <-. reflexivity.
    + rewrite Hcalls. vm_compute. reflexivity.
    + rewrite Hmove, Hkept. reflexivity.
    + vm_compute. reflexivity.
    + rewrite <- Hinstances. vm_compute. reflexivity.
    + rewrite <- Hinstances. vm_compute. reflexivity.
Defined.

(** ** The hand-off to the depot *)

Section Transfer.
Context {R : Type} `{RoutingAlgorithm R}.
Variable ok : R → Prop.
Variable sim : Simulator.
Hypothesis feedback_ok :
  ∀ (r : R) (d : Drone R) (id_event delay outcome : Z),
    ok r → ∃ r', feedback sim r d id_event delay outcome = Some r' ∧ ok r'.

Local Arguments Expected.positive_feedback : simpl never.
Local Arguments Expected.to_every_drone : simpl never.

(** The feedback to give depends on the events of the packets only. *)
Lemma positive_feedback_same_events (pcks pcks' : gmap Z Packet) (n : nat)
    (current_drone : DroneRef) (step : Z) (buf : list Z) :
  (∀ pck_id, event_ref <$> pcks' !! pck_id = event_ref <$> pcks !! pck_id) →
  Expected.positive_feedback pcks' n current_drone step buf
  = Expected.positive_feedback pcks n current_drone step buf.
Proof.
  intros Hev. unfold Expected.positive_feedback.
  induction buf as [| pck_id rest IH]; [done |].
  simpl. rewrite IH. f_equal.
  specialize (Hev pck_id).
  destruct (pcks' !! pck_id) as [p' |], (pcks !! pck_id) as [p |];
    simpl in Hev; try done.
  injection Hev as ->. done.
Qed.

(** The loop of [transfer_notified_packets] returns.  It calls the feedback
    for every packet, stamps every packet with the step, and changes
    nothing in a drone but its routing-algorithm instance. *)
Lemma transfer_loop_spec (current_drone : DroneRef) (step : Z) (buf : list Z) :
  ∀ (ds : list (Drone R)) (pcks : gmap Z Packet) (m : Metrics)
    (calls : list FeedbackCall),
    (current_drone < length ds)%nat →
    Forall (fun d => ok (routing_algorithm d)) ds →
    (∀ pck_id, pck_id ∈ buf → is_Some (pcks !! pck_id)) →
    ∃ (ds' : list (Drone R)) (pcks' : gmap Z Packet) (m' : Metrics),
      Depot.transfer_loop sim current_drone step buf ds pcks m calls
      = Some (ds', pcks', m',
              calls ++ (if str_in (routing_algorithm_name sim) GEO_RND_GEOS then []
                        else Expected.positive_feedback pcks (length ds)
                                                        current_drone step buf))
      ∧ length ds' = length ds
      ∧ (∀ (j : nat) (d : Drone R), ds !! j = Some d →
           ∃ d', ds' !! j = Some d'
                 ∧ d' = Drone.set_routing_algorithm d (routing_algorithm d'))
      ∧ (∀ pck_id,
           pcks' !! pck_id =
             if bool_decide (pck_id ∈ buf)
             then (fun pck => Packet.set_time_delivery pck step) <$> pcks !! pck_id
             else pcks !! pck_id)
      ∧ drones_packets_to_depot_list m'
        = drones_packets_to_depot_list m ++ ((fun pck_id => (pck_id, step)) <$> buf).
Proof.
  induction buf as [| pck_id rest IH]; intros ds pcks m calls Hcur Hok Hbuf.
  - exists ds, pcks, m. cbn [Depot.transfer_loop].
    unfold Expected.positive_feedback. simpl.
    split_and!.
    + by destruct (str_in (routing_algorithm_name sim) GEO_RND_GEOS);
        rewrite !app_nil_r.
    + done.
    + intros j d Hd. exists d. split; [done | by destruct d].
    + done.
    + by rewrite app_nil_r.
  - destruct (Hbuf pck_id) as [pck Hpck]; [apply elem_of_cons; by left |].
    set (pcks1 := <[pck_id := Packet.set_time_delivery pck step]> pcks).
    set (m1 := Depot.add_packet_to_depot m pck_id step).
    assert (Hrest : ∀ i, i ∈ rest → is_Some (pcks1 !! i)).
    { intros i Hi. unfold pcks1. destruct (decide (i = pck_id)) as [-> | Hne].
      - rewrite lookup_insert_eq. eauto.
      - rewrite lookup_insert_ne by done. apply Hbuf. apply elem_of_cons. by right. }
    assert (Hev : ∀ i, event_ref <$> pcks1 !! i = event_ref <$> pcks !! i).
    { intros i. unfold pcks1. destruct (decide (i = pck_id)) as [-> | Hne].
      - rewrite lookup_insert_eq, Hpck. done.
      - by rewrite lookup_insert_ne. }
    assert (Hheap : ∀ (pcks' : gmap Z Packet),
               (∀ i, pcks' !! i =
                       if bool_decide (i ∈ rest)
                       then (fun p => Packet.set_time_delivery p step) <$> pcks1 !! i
                       else pcks1 !! i) →
               ∀ i, pcks' !! i =
                      if bool_decide (i ∈ pck_id :: rest)
                      then (fun p => Packet.set_time_delivery p step) <$> pcks !! i
                      else pcks !! i).
    { intros pcks' Hp i. rewrite Hp. unfold pcks1.
      destruct (decide (i = pck_id)) as [-> | Hne].
      - rewrite lookup_insert_eq, Hpck.
        rewrite (bool_decide_eq_true_2 (pck_id ∈ pck_id :: rest))
          by (apply elem_of_cons; by left).
        by destruct (bool_decide (pck_id ∈ rest)).
      - rewrite lookup_insert_ne by done.
        destruct (decide (i ∈ rest)) as [Hin | Hnin].
        + rewrite !bool_decide_eq_true_2; [done | apply elem_of_cons; by right | done].
        + rewrite !bool_decide_eq_false_2; [done | | done].
          intros Hin. apply elem_of_cons in Hin as [-> | Hin]; done. }
    cbn [Depot.transfer_loop]. rewrite Hpck. simpl.
    destruct (str_in (routing_algorithm_name sim) GEO_RND_GEOS) eqn:Hbase; simpl.
    + destruct (IH ds pcks1 m1 calls Hcur Hok Hrest)
        as (ds' & pcks' & m' & Hloop & Hlen & Hframe & Hp & Hm).
      exists ds', pcks', m'. fold pcks1 m1. rewrite Hloop.
      split_and!; [done | done | done | by apply Hheap |].
      rewrite Hm. unfold m1. simpl. by rewrite <- app_assoc.
    + destruct (broadcast_feedback_spec ok sim feedback_ok current_drone
                  (identifier (event_ref pck)) (step - current_time (event_ref pck)) 1
                  ds calls Hcur Hok)
        as (ds1 & Hb & Hlen1 & Hok1 & Hframe1).
      rewrite Hb. simpl. fold pcks1 m1.
      destruct (IH ds1 pcks1 m1
                   (calls ++ Expected.to_every_drone (length ds) current_drone
                               (identifier (event_ref pck))
                               (step - current_time (event_ref pck)) 1))
        as (ds' & pcks' & m' & Hloop & Hlen & Hframe & Hp & Hm);
        [by rewrite Hlen1 | done | done |].
      exists ds', pcks', m'. rewrite Hloop.
      split_and!.
      * do 2 f_equal. rewrite <- app_assoc. f_equal.
        rewrite Hlen1, (positive_feedback_same_events pcks pcks1) by done.
        unfold Expected.positive_feedback. simpl. by rewrite Hpck.
      * congruence.
      * intros j d Hd. destruct (Hframe1 j d Hd) as (d1 & Hd1 & Heq1).
        destruct (Hframe j d1 Hd1) as (d' & Hd' & Heq').
        exists d'. split; [done |]. rewrite Heq' at 1. rewrite Heq1. done.
      * by apply Hheap.
      * rewrite Hm. unfold m1. simpl. by rewrite <- app_assoc.
Qed.

End Transfer.

(** C6.  For a drone [current_drone] of the simulation, whose buffer holds
    packets of the simulation, and routing-algorithm instances on which
    [feedback] returns, [transfer_notified_packets] returns, and then: the
    buffer of the depot is what it was followed by the whole buffer of the
    drone, the same packets and nothing removed; each of these packets has
    its delivery time set to the step, and no other packet is changed; the
    feedback calls made are, unless the name of the algorithm occurs in
    ["GEORNDGEOS"], one for each packet and each drone of the simulation,
    with the drone [current_drone], the id of the event of the packet, the
    step minus the generation time of the event as delay and the outcome
    [1]; these calls reach the instances: the routing-algorithm instances
    of the drones are afterwards those of [Expected.instances_after_delivery],
    each replaced, for each packet in turn, by what its [feedback] returned;
    and the drone is left as it was but for its routing-algorithm instance:
    its buffer is unchanged. *)
Theorem transfer_notified_packets_appends_and_broadcasts {R : Type} `{RoutingAlgorithm R}
    (ok : R → Prop) (w : World R) (current_drone : DroneRef) (cur_step : Z)
    (src : Drone R) :
  (∀ (r : R) (d : Drone R) (id_event delay outcome : Z),
     ok r → ∃ r', feedback (simulator w) r d id_event delay outcome = Some r' ∧ ok r') →
  drones w !! current_drone = Some src →
  Forall (fun d => ok (routing_algorithm d)) (drones w) →
  (∀ pck_id, pck_id ∈ buffer src → is_Some (packets w !! pck_id)) →
  ∃ (w' : World R) (calls : list FeedbackCall) (src' : Drone R),
    Depot.transfer_notified_packets w current_drone cur_step = Some (w', calls)
    ∧ depot_buffer (depot w') = depot_buffer (depot w) ++ buffer src
    ∧ (∀ pck_id pck, pck_id ∈ buffer src → packets w !! pck_id = Some pck →
         packets w' !! pck_id = Some (Packet.set_time_delivery pck cur_step))
    ∧ (∀ pck_id, pck_id ∉ buffer src → packets w' !! pck_id = packets w !! pck_id)
    ∧ calls = (if str_in (routing_algorithm_name (simulator w)) GEO_RND_GEOS
               then []
               else Expected.positive_feedback (packets w) (length (drones w))
                      current_drone cur_step (buffer src))
    ∧ drones w' !! current_drone = Some src'
    ∧ src' = Drone.set_routing_algorithm src (routing_algorithm src')
    ∧ buffer src' = buffer src
    ∧ Expected.instances_after_delivery (simulator w) (packets w) current_drone
        cur_step src (buffer src) (routing_algorithm <$> drones w)
      = Some (routing_algorithm <$> drones w').
Proof.
  intros Hfb Hsrc Hok Hbuf.
  assert (Hcur : (current_drone < length (drones w))%nat)
    by (by apply lookup_lt_Some in Hsrc).
  destruct (transfer_loop_spec ok (simulator w) Hfb current_drone cur_step (buffer src)
              (drones w) (packets w) (metrics w) [] Hcur Hok Hbuf)
    as (ds' & pcks' & m' & Hloop & Hlen & Hframe & Hp & Hm).
  destruct (Hframe current_drone src Hsrc) as (src' & Hsrc' & Heq).
  pose proof (transfer_loop_instances (simulator w) current_drone cur_step src
                (packets w) (buffer src) _ _ _ _ _ _ _ _ Hcur
                ltac:(intros d Hd; assert (d = src) as -> by congruence; by destruct src)
                ltac:(done) Hloop) as Hinstances.
  eexists _, _, src'. split_and!.
  - unfold Depot.transfer_notified_packets. rewrite Hsrc. simpl.
    rewrite Hloop. simpl. reflexivity.
  - done.
  - intros pck_id pck Hin Hpck. simpl. rewrite Hp.
    rewrite bool_decide_eq_true_2 by done. by rewrite Hpck.
  - intros pck_id Hnin. simpl. rewrite Hp.
    by rewrite bool_decide_eq_false_2.
  - done.
  - done.
  - done.
  - by rewrite Heq.
  - exact Hinstances.
Qed.

(** The theorem on the scenario: the drone 1 hands the packets 201 and 202
    over to the depot at step 4.  The drone 0 had taken the action 1 for the
    event 101 of the packet 201, generated at step 0: the feedback consumes
    it and sets the value of the position 1 of its table to
    [0.7 * (4 / 200) + 0.2 * 1 + 0.1 * (100 / 100)]. *)
Lemma transfer_notified_packets_appends_and_broadcasts_scenario :
  ∃ w : World QTARRouting.instance,
    Scenario.world5 4 = Some w
    ∧ ∃ (w' : World QTARRouting.instance) (calls : list FeedbackCall)
        (src' : Drone QTARRouting.instance),
        Depot.transfer_notified_packets w 1%nat 4 = Some (w', calls)
        ∧ depot_buffer (depot w') = [201; 202]
        ∧ (time_delivery <$> packets w' !! 201) = Some 4
        ∧ calls = Expected.to_every_drone 3 1%nat 101 4 1
                  ++ Expected.to_every_drone 3 1%nat 102 1 1
        ∧ drones w' !! 1%nat = Some src'
        ∧ buffer src' = [201; 202]
        ∧ (fun r => map_to_list (QTARRouting.taken_actions r))
            <$> (routing_algorithm <$> drones w)
          = [[(101, (0, 1))]; []; []]
        ∧ (fun r => map_to_list (QTARRouting.taken_actions r))
            <$> (routing_algorithm <$> drones w')
          = [[]; []; []]
        ∧ QTARRouting.q_table <$> (routing_algorithm <$> drones w')
          = [[0%float; 0.31400000000000006%float; 0%float];
             [0%float; 0%float; 0%float];
             [0%float; 0%float; 0%float]].
Proof.
  eexists. split; [vm_compute; reflexivity |].
  match goal with
  | |- ∃ w' calls src', Depot.transfer_notified_packets ?w _ _ = _ ∧ _ =>
      edestruct (transfer_notified_packets_appends_and_broadcasts
                   (QTARRouting.well_formed (simulator w)) w 1%nat 4)
        as (w' & calls & src' & Htr & Hdepot & Hstamp & _ & Hcalls & Hsrc' & _ & Hbuf
            & Hinstances)
  end.
  - intros r d id_event delay outcome Hr.
    apply QTAR_feedback_well_formed. exact Hr.
  - vm_compute. reflexivity.
  - repeat apply Forall_cons_2; [| | | apply Forall_nil_2];
      (split_and!; [simpl; lia | vm_compute; reflexivity
                   | apply map_Forall_to_list; vm_compute; repeat econstructor]).
  - intros pck_id Hin. simpl in Hin.
    apply elem_of_cons in Hin as [-> | Hin]; [vm_compute; eauto |].
    apply elem_of_cons in Hin as [-> | Hin]; [vm_compute; eauto |].
    by apply elem_of_nil in Hin.
  - exists w', calls, src'.
    apply (f_equal (fun o => match o with Some rs => rs | None => [] end))
      in Hinstances.
    cbv beta iota in Hinstances.
    split_and!; [exact Htr | | | | exact Hsrc' | exact Hbuf | | |].
    + rewrite Hdepot. vm_compute. reflexivity.
    + erewrite Hstamp; [reflexivity | simpl; apply elem_of_cons; by left
                       | vm_compute; reflexivity].
    + rewrite Hcalls. vm_compute. reflexivity.
    + vm_compute. reflexivity.
    + rewrite <- Hinstances. vm_compute. reflexivity.
    + rewrite <- Hinstances. vm_compute. reflexivity.
Defined.

(** * Further properties *)

(** ** Accepting and removing packets *)

Section BufferOps.
Context {R : Type}.
Implicit Types (self : Drone R) (pcks : gmap Z Packet).

Lemma event_ids_app pcks (l k : list Z) :
  BufferView.event_ids pcks (l ++ k)
  = BufferView.event_ids pcks l ++ BufferView.event_ids pcks k.
Proof. unfold BufferView.event_ids. apply omap_app. Qed.

Lemma event_ids_singleton pcks (pck_id : Z) (pck : Packet) :
  pcks !! pck_id = Some pck →
  BufferView.event_ids pcks [pck_id] = [identifier (event_ref pck)].
Proof. intros Hp. unfold BufferView.event_ids. simpl. by rewrite Hp. Qed.

(** A packet is known exactly when the id of its event is among those of
    the buffer. *)
Lemma is_known_in_spec pcks (buf : list Z) (packet : Packet) :
  (∀ pck_id, pck_id ∈ buf → is_Some (pcks !! pck_id)) →
  Drone.is_known_in pcks buf packet
  = Some (bool_decide (identifier (event_ref packet) ∈ BufferView.event_ids pcks buf)).
Proof.
  induction buf as [| pk_id rest IH]; intros Hbuf.
  - done.
  - destruct (Hbuf pk_id) as [pk Hpk]; [apply elem_of_cons; by left |].
    simpl. rewrite Hpk. simpl. unfold Entity.__eq__.
    destruct (Z.eqb_spec (identifier (event_ref packet)) (identifier (event_ref pk)))
      as [Heq | Hne].
    + f_equal. symmetry. apply bool_decide_eq_true_2. rewrite Heq.
      apply elem_of_cons. by left.
    + rewrite IH by (intros i Hi; apply Hbuf, elem_of_cons; by right).
      f_equal. apply bool_decide_ext. rewrite elem_of_cons. tauto.
Qed.

(** The loop of [accept_packets], with what it keeps. *)
Lemma accept_packets_spec pcks (packets : list Z) :
  ∀ self,
    (∀ pck_id, pck_id ∈ buffer self ++ packets → is_Some (pcks !! pck_id)) →
    ∃ (self' : Drone R) (accepted : list Z),
      Drone.accept_packets pcks self packets = Some self'
      ∧ self' = Drone.set_buffer self (buffer self ++ accepted)
      ∧ accepted `sublist_of` packets
      ∧ (NoDup (BufferView.event_ids pcks (buffer self)) →
         NoDup (BufferView.event_ids pcks (buffer self')))
      ∧ (∀ pck_id pck, pck_id ∈ packets → pcks !! pck_id = Some pck →
           identifier (event_ref pck) ∈ BufferView.event_ids pcks (buffer self')).
Proof.
  induction packets as [| packet_id rest IH]; intros self Hheap.
  - exists self, []. simpl. rewrite app_nil_r.
    split_and!; [done | by destruct self | done | done |].
    intros pck_id pck Hin. by apply elem_of_nil in Hin.
  - destruct (Hheap packet_id) as [packet Hpacket];
      [apply elem_of_app; right; apply elem_of_cons; by left |].
    assert (Hbuf : ∀ i, i ∈ buffer self → is_Some (pcks !! i)).
    { intros i Hi. apply Hheap, elem_of_app. by left. }
    cbn [Drone.accept_packets]. rewrite Hpacket. simpl.
    unfold Drone.is_known_packet. rewrite (is_known_in_spec pcks _ packet Hbuf). simpl.
    destruct (decide (identifier (event_ref packet)
                      ∈ BufferView.event_ids pcks (buffer self))) as [Hknown | Hnew].
    + rewrite (bool_decide_eq_true_2 _ Hknown). simpl.
      destruct (IH self) as (self' & accepted & Hacc & Heq & Hsub & Hnodup & Hall).
      { intros i Hi. apply Hheap. apply elem_of_app in Hi as [Hi | Hi];
          apply elem_of_app; [by left | right; apply elem_of_cons; by right]. }
      exists self', accepted.
      split_and!; [done | done | by apply sublist_cons | done |].
      intros pck_id pck Hin Hpck. apply elem_of_cons in Hin as [-> | Hin].
      * assert (pck = packet) as -> by congruence.
        rewrite Heq. simpl. rewrite event_ids_app. apply elem_of_app. by left.
      * by apply (Hall pck_id).
    + rewrite (bool_decide_eq_false_2 _ Hnew). simpl.
      set (self1 := Drone.set_buffer self (buffer self ++ [packet_id])).
      destruct (IH self1) as (self' & accepted & Hacc & Heq & Hsub & Hnodup & Hall).
      { intros i Hi. apply Hheap. unfold self1 in Hi. simpl in Hi.
        rewrite <- app_assoc in Hi. done. }
      exists self', (packet_id :: accepted).
      assert (Hids1 : BufferView.event_ids pcks (buffer self1)
                      = BufferView.event_ids pcks (buffer self)
                        ++ [identifier (event_ref packet)]).
      { unfold self1. simpl.
        by rewrite event_ids_app, (event_ids_singleton pcks packet_id packet). }
      split_and!.
      * done.
      * rewrite Heq. unfold self1. simpl. by rewrite <- app_assoc.
      * by apply sublist_skip.
      * intros Hnd. apply Hnodup. rewrite Hids1.
        apply NoDup_app. split_and!; [done | | apply NoDup_singleton].
        intros x Hx Hx'. apply list_elem_of_singleton in Hx' as ->. done.
      * intros pck_id pck Hin Hpck. apply elem_of_cons in Hin as [-> | Hin].
        -- assert (pck = packet) as -> by congruence.
           rewrite Heq. simpl. rewrite event_ids_app. apply elem_of_app. left.
           change (buffer self ++ [packet_id]) with (buffer self1).
           rewrite Hids1. apply elem_of_app. right. by apply list_elem_of_singleton.
        -- by apply (Hall pck_id).
Qed.

(** When the events of all the packets offered are in the buffer, nothing is
    accepted. *)
Lemma accept_packets_all_known pcks (packets : list Z) self :
  (∀ pck_id, pck_id ∈ buffer self ++ packets → is_Some (pcks !! pck_id)) →
  (∀ pck_id pck, pck_id ∈ packets → pcks !! pck_id = Some pck →
     identifier (event_ref pck) ∈ BufferView.event_ids pcks (buffer self)) →
  Drone.accept_packets pcks self packets = Some self.
Proof.
  induction packets as [| packet_id rest IH]; intros Hheap Hknown; [done |].
  destruct (Hheap packet_id) as [packet Hpacket];
    [apply elem_of_app; right; apply elem_of_cons; by left |].
  cbn [Drone.accept_packets]. rewrite Hpacket. simpl.
  unfold Drone.is_known_packet. rewrite is_known_in_spec.
  - simpl. rewrite bool_decide_eq_true_2.
    + simpl. apply IH.
      * intros i Hi. apply Hheap. apply elem_of_app in Hi as [Hi | Hi];
          apply elem_of_app; [by left | right; apply elem_of_cons; by right].
      * intros i p Hi. apply Hknown. apply elem_of_cons. by right.
    + apply (Hknown packet_id); [apply elem_of_cons; by left | done].
  - intros i Hi. apply Hheap, elem_of_app. by left.
Qed.

(** X1.  [accept_packets], on packets of the simulation, returns; it appends
    to the buffer some of the packets offered, in their order, and changes
    nothing else of the drone; if no two packets of the buffer referred to
    the same event, the same holds afterwards; and the event of every packet
    offered is then known to the drone. *)
Theorem accept_packets_keeps_events_distinct pcks (packets : list Z) self :
  (∀ pck_id, pck_id ∈ buffer self ++ packets → is_Some (pcks !! pck_id)) →
  ∃ (self' : Drone R) (accepted : list Z),
    Drone.accept_packets pcks self packets = Some self'
    ∧ self' = Drone.set_buffer self (buffer self ++ accepted)
    ∧ accepted `sublist_of` packets
    ∧ (NoDup (BufferView.event_ids pcks (buffer self)) →
       NoDup (BufferView.event_ids pcks (buffer self')))
    ∧ (∀ pck_id pck, pck_id ∈ packets → pcks !! pck_id = Some pck →
         Drone.is_known_packet pcks self' pck = Some true).
Proof.
  intros Hheap.
  destruct (accept_packets_spec pcks packets self Hheap)
    as (self' & accepted & Hacc & Heq & Hsub & Hnodup & Hall).
  exists self', accepted. split_and!; [done | done | done | done |].
  intros pck_id pck Hin Hpck. unfold Drone.is_known_packet.
  rewrite is_known_in_spec.
  - f_equal. apply bool_decide_eq_true_2. by apply (Hall pck_id).
  - intros i Hi. apply Hheap. rewrite Heq in Hi. simpl in Hi.
    apply elem_of_app in Hi as [Hi | Hi]; apply elem_of_app; [by left | right].
    by apply (elem_of_sublist accepted).
Qed.

(** X2.  Offering the same packets a second time changes nothing. *)
Theorem accept_packets_twice pcks (packets : list Z) self (self' : Drone R) :
  (∀ pck_id, pck_id ∈ buffer self ++ packets → is_Some (pcks !! pck_id)) →
  Drone.accept_packets pcks self packets = Some self' →
  Drone.accept_packets pcks self' packets = Some self'.
Proof.
  intros Hheap Hfirst.
  destruct (accept_packets_spec pcks packets self Hheap)
    as (self1 & accepted & Hacc & Heq & Hsub & Hnodup & Hall).
  assert (self1 = self') as -> by congruence.
  apply accept_packets_all_known; [| done].
  intros i Hi. apply Hheap. rewrite Heq in Hi. simpl in Hi.
  rewrite !elem_of_app in Hi. rewrite elem_of_app.
  destruct Hi as [[Hi | Hi] | Hi]; [by left | right | by right].
  by apply (elem_of_sublist accepted).
Qed.

(** X3.  There is no check of the capacity in [accept_packets]: a drone
    whose buffer is full accepts a packet of an unknown event all the same,
    its buffer is then one packet over the capacity, and [is_full] no longer
    holds of it. *)
Theorem accept_packets_over_capacity pcks (packet_id : Z) (packet : Packet) self :
  (∀ pck_id, pck_id ∈ buffer self → is_Some (pcks !! pck_id)) →
  pcks !! packet_id = Some packet →
  identifier (event_ref packet) ∉ BufferView.event_ids pcks (buffer self) →
  Drone.is_full self = true →
  ∃ self' : Drone R,
    Drone.accept_packets pcks self [packet_id] = Some self'
    ∧ buffer self' = buffer self ++ [packet_id]
    ∧ Drone.buffer_length self' = buffer_max_size self' + 1
    ∧ Drone.is_full self' = false.
Proof.
  intros Hbuf Hpacket Hnew Hfull.
  eexists. split_and!.
  - cbn [Drone.accept_packets]. rewrite Hpacket. simpl.
    unfold Drone.is_known_packet. rewrite (is_known_in_spec pcks _ packet Hbuf).
    simpl. rewrite (bool_decide_eq_false_2 _ Hnew). simpl. reflexivity.
  - reflexivity.
  - unfold Drone.is_full, Drone.buffer_length in *. simpl.
    apply Z.eqb_eq in Hfull. rewrite length_app. simpl. lia.
  - unfold Drone.is_full, Drone.buffer_length in *. simpl.
    apply Z.eqb_eq in Hfull. apply Z.eqb_neq. rewrite length_app. simpl. lia.
Qed.

Lemma list_filter_all (f : Z → bool) (l : list Z) :
  (∀ z, z ∈ l → f z = true) → List.filter f l = l.
Proof.
  induction l as [| y l IH]; intros Hall; [done |].
  simpl. rewrite (Hall y) by (apply elem_of_cons; by left).
  f_equal. apply IH. intros z Hz. apply Hall, elem_of_cons. by right.
Qed.





End BufferOps.

(** The four theorems on the drone 1 of the scenario, with the packets 201
    to 204 of the events 101, 102, 101 and 103. *)

Ltac in_heap5 :=
  let pck_id := fresh "pck_id" in
  let Hin := fresh "Hin" in
  intros pck_id Hin; simpl in Hin;
  repeat (apply elem_of_cons in Hin as [-> | Hin]; [vm_compute; eauto |]);
  by apply elem_of_nil in Hin.

Lemma accept_packets_keeps_events_distinct_scenario :
  ∃ self : Drone QTARRouting.instance,
    Scenario.carrier [201] = Some self
    ∧ ∃ (self' : Drone QTARRouting.instance) (accepted : list Z),
        Drone.accept_packets Scenario.heap5 self [202; 203; 204] = Some self'
        ∧ self' = Drone.set_buffer self (buffer self ++ accepted)
        ∧ accepted `sublist_of` [202; 203; 204]
        ∧ (NoDup (BufferView.event_ids Scenario.heap5 (buffer self)) →
           NoDup (BufferView.event_ids Scenario.heap5 (buffer self')))
        ∧ (∀ pck_id pck, pck_id ∈ [202; 203; 204] →
             Scenario.heap5 !! pck_id = Some pck →
             Drone.is_known_packet Scenario.heap5 self' pck = Some true).
Proof.
  eexists. split; [vm_compute; reflexivity |].
  apply accept_packets_keeps_events_distinct. in_heap5.
Defined.

Lemma accept_packets_twice_scenario :
  ∃ self self' : Drone QTARRouting.instance,
    Scenario.carrier [201] = Some self
    ∧ Drone.accept_packets Scenario.heap5 self [202; 203; 204] = Some self'
    ∧ Drone.accept_packets Scenario.heap5 self' [202; 203; 204] = Some self'.
Proof.
  evar (self : Drone QTARRouting.instance).
  evar (self' : Drone QTARRouting.instance).
  exists self, self'.
  assert (Hself : Scenario.carrier [201] = Some self)
    by (unfold self; vm_compute; reflexivity).
  assert (Hfirst : Drone.accept_packets Scenario.heap5 self [202; 203; 204] = Some self')
    by (unfold self, self'; vm_compute; reflexivity).
  split_and!; [exact Hself | exact Hfirst |].
  apply (accept_packets_twice Scenario.heap5 [202; 203; 204] self self');
    [unfold self; in_heap5 | exact Hfirst].
Defined.

Lemma accept_packets_over_capacity_scenario :
  ∃ self : Drone QTARRouting.instance,
    Scenario.carrier [201; 202] = Some self
    ∧ Drone.is_full self = true
    ∧ ∃ self' : Drone QTARRouting.instance,
        Drone.accept_packets Scenario.heap5 self [204] = Some self'
        ∧ buffer self' = buffer self ++ [204]
        ∧ Drone.buffer_length self' = buffer_max_size self' + 1
        ∧ Drone.is_full self' = false.
Proof.
  eexists. split; [vm_compute; reflexivity |].
  split; [vm_compute; reflexivity |].
  eapply accept_packets_over_capacity.
  - in_heap5.
  - vm_compute. reflexivity.
  - vm_compute. intros Hin.
    repeat (apply elem_of_cons in Hin as [Hin | Hin]; [discriminate |]).
    by apply elem_of_nil in Hin.
  - vm_compute. reflexivity.
Defined.


(** ** Sensing an event *)

Section FeelEvent.
Context {R : Type}.

(** X5.  A drone on its mission (neither moving to the depot nor coming
    back) that feels an event appends one packet to its buffer, whatever
    the length of the buffer; the packet has the coordinates of the drone,
    the drone as its only hop, a hop count of zero, and an event generated
    at the step with the default deadline; it is counted among the packets
    generated and among the data packets of the simulation. *)
Theorem feel_event_on_mission (w : World R) (mm : MissionMetrics) (self : DroneRef)
    (ev_id pck_id cur_step : Z) (me : Drone R) :
  drones w !! self = Some me →
  move_routing me = false → come_back_to_mission me = false →
  ∃ (w' : World R) (mm' : MissionMetrics) (pk : Packet),
    Drone.feel_event w mm self ev_id pck_id cur_step = Some (w', mm')
    ∧ drones w' = <[self := Drone.set_buffer me (buffer me ++ [pck_id])]> (drones w)
    ∧ packets w' = <[pck_id := pk]> (packets w)
    ∧ identifier pk = pck_id ∧ coords pk = coords me
    ∧ TTL pk = 0 ∧ last_2_hops pk = [self] ∧ time_delivery pk = -1
    ∧ identifier (event_ref pk) = ev_id
    ∧ current_time (event_ref pk) = cur_step
    ∧ deadline (event_ref pk) = cur_step + event_duration (simulator w)
    ∧ pck_id ∈ drones_packets (metrics w')
    ∧ all_data_packets_in_simulation mm' = all_data_packets_in_simulation mm + 1
    ∧ events_not_listened mm' = events_not_listened mm.
Proof.
  intros Hme Hmr Hcb. unfold Drone.feel_event. rewrite Hme. simpl.
  unfold Event.__init__. simpl.
  destruct (negb _ && negb (cur_step =? -1)); simpl; rewrite Hmr, Hcb; simpl;
    (do 3 eexists; split_and!; try reflexivity; simpl;
     apply elem_of_union; left; by apply elem_of_singleton).
Qed.

(** X6.  A drone that moves to the depot or comes back from it and feels an
    event keeps its buffer as it is: the event is recorded among those not
    listened to, while the packet built for it is still counted among the
    packets generated. *)
Theorem feel_event_while_moving (w : World R) (mm : MissionMetrics) (self : DroneRef)
    (ev_id pck_id cur_step : Z) (me : Drone R) :
  drones w !! self = Some me →
  move_routing me = true ∨ come_back_to_mission me = true →
  ∃ (w' : World R) (mm' : MissionMetrics),
    Drone.feel_event w mm self ev_id pck_id cur_step = Some (w', mm')
    ∧ drones w' = drones w
    ∧ ev_id ∈ events_not_listened mm'
    ∧ all_data_packets_in_simulation mm' = all_data_packets_in_simulation mm
    ∧ pck_id ∈ drones_packets (metrics w')
    ∧ is_Some (packets w' !! pck_id).
Proof.
  intros Hme Hmoving. unfold Drone.feel_event. rewrite Hme. simpl.
  unfold Event.__init__. simpl.
  assert (Hcond : negb (move_routing me) && negb (come_back_to_mission me) = false).
  { destruct Hmoving as [-> | ->]; [done | by destruct (move_routing me)]. }
  destruct (negb _ && negb (cur_step =? -1)); simpl; rewrite Hcond;
    (do 2 eexists; split_and!; try reflexivity; simpl;
     [apply elem_of_union; left; by apply elem_of_singleton
     | apply elem_of_union; left; by apply elem_of_singleton
     | rewrite lookup_insert_eq; eauto]).
Qed.

End FeelEvent.

Lemma feel_event_on_mission_scenario :
  ∃ (w : World QTARRouting.instance) (me : Drone QTARRouting.instance),
    Scenario.world5 7 = Some w ∧ drones w !! 2%nat = Some me
    ∧ ∃ (w' : World QTARRouting.instance) (mm' : MissionMetrics) (pk : Packet),
        Drone.feel_event w Scenario.no_mission_metrics 2%nat 105 205 7 = Some (w', mm')
        ∧ (buffer <$> drones w' !! 2%nat) = Some [205]
        ∧ packets w' !! 205 = Some pk
        ∧ deadline (event_ref pk) = 12
        ∧ all_data_packets_in_simulation mm' = 1.
Proof.
  evar (w : World QTARRouting.instance).
  evar (me : Drone QTARRouting.instance).
  exists w, me.
  assert (Hw : Scenario.world5 7 = Some w) by (unfold w; vm_compute; reflexivity).
  assert (Hme : drones w !! 2%nat = Some me) by (unfold w, me; vm_compute; reflexivity).
  split_and!; [exact Hw | exact Hme |].
  destruct (feel_event_on_mission w Scenario.no_mission_metrics 2%nat 105 205 7 me Hme)
    as (w' & mm' & pk & Hfeel & Hdrones & Hpcks & _ & _ & _ & _ & _ & _ & _ & Hdl & _
        & Hall & _);
    [reflexivity | reflexivity |].
  exists w', mm', pk. split_and!.
  - exact Hfeel.
  - rewrite Hdrones. vm_compute. reflexivity.
  - rewrite Hpcks. apply lookup_insert_eq.
  - rewrite Hdl. reflexivity.
  - rewrite Hall. reflexivity.
Defined.

Lemma feel_event_while_moving_scenario :
  ∃ (w : World QTARRouting.instance) (me : Drone QTARRouting.instance),
    Scenario.world5 7 = Some w ∧ drones w !! 1%nat = Some me
    ∧ move_routing me = true
    ∧ ∃ (w' : World QTARRouting.instance) (mm' : MissionMetrics),
        Drone.feel_event w Scenario.no_mission_metrics 1%nat 105 205 7 = Some (w', mm')
        ∧ drones w' = drones w
        ∧ 105 ∈ events_not_listened mm'.
Proof.
  evar (w : World QTARRouting.instance).
  evar (me : Drone QTARRouting.instance).
  exists w, me.
  assert (Hw : Scenario.world5 7 = Some w) by (unfold w; vm_compute; reflexivity).
  assert (Hme : drones w !! 1%nat = Some me) by (unfold w, me; vm_compute; reflexivity).
  split_and!; [exact Hw | exact Hme | reflexivity |].
  destruct (feel_event_while_moving w Scenario.no_mission_metrics 1%nat 105 205 7 me Hme)
    as (w' & mm' & Hfeel & Hdrones & Hev & _); [left; reflexivity |].
  exists w', mm'. split_and!; [exact Hfeel | exact Hdrones | exact Hev].
Defined.

(** ** Sequence numbers of hello packets *)

Section HelloSequence.
Context {R : Type}.

(** X7.  The hello packets a drone builds one after the other carry
    consecutive sequence numbers: after the packets of the identities and
    steps listed in [built], the sequence number of the drone has grown by
    their number, and it is the number the next packet carries; the buffer
    and the identity of the drone are as they were. *)
Theorem HelloPacket_sequence_numbers_consecutive
    (src_ref : DroneRef) (src : Drone R) (simulator : Simulator) (metrics : Metrics)
    (cur_pos : float * float) (speed' : float) (next_target : float * float)
    (link_holding_timer' : float) (one_hop : list DroneRef)
    (two_hop : list (Z * list DroneRef))
    (built : list (Z * Z * Z)) (self_id default_event_id time_step_creation : Z) :
  let build (d : Drone R) (ids : Z * Z * Z) :=
    HelloPacket.__init__ ids.1.1 ids.1.2 src_ref d ids.2
      simulator metrics cur_pos speed' next_target link_holding_timer' one_hop two_hop in
  let src_n := foldl (fun d ids => (build d ids).1.2) src built in
  sequence_number src_n = sequence_number src + Z.of_nat (length built)
  ∧ hello_sequence_number (build src_n (self_id, default_event_id, time_step_creation)).1.1
    = sequence_number src + Z.of_nat (length built)
  ∧ buffer src_n = buffer src
  ∧ drone_entity src_n = drone_entity src.
Proof.
  intros build src_n.
  assert (Hstep : ∀ d ids, sequence_number (build d ids).1.2 = sequence_number d + 1
                           ∧ hello_sequence_number (build d ids).1.1 = sequence_number d
                           ∧ buffer (build d ids).1.2 = buffer d
                           ∧ drone_entity (build d ids).1.2 = drone_entity d).
  { intros d ids. unfold build, HelloPacket.__init__, Packet.__init__, Event.__init__.
    simpl. done. }
  assert (Hiter : sequence_number src_n = sequence_number src + Z.of_nat (length built)
                  ∧ buffer src_n = buffer src
                  ∧ drone_entity src_n = drone_entity src).
  { unfold src_n. induction built as [| ids built IH] using rev_ind;
      [simpl; split_and!; [lia | done | done] |].
    rewrite foldl_app, length_app. cbn [foldl length].
    destruct (Hstep (foldl (fun d ids => (build d ids).1.2) src built) ids)
      as (Hs & _ & Hb & He).
    destruct IH as (IHs & IHb & IHe).
    split_and!; [rewrite Hs, IHs; lia | by rewrite Hb | by rewrite He]. }
  destruct Hiter as (Hs & Hb & He).
  destruct (Hstep src_n (self_id, default_event_id, time_step_creation)) as (_ & Hp & _).
  split_and!; [done | by rewrite Hp | done | done].
Qed.

End HelloSequence.

(** ** QTAR: the instances stay well formed *)

Section QTARInvariant.
Import QTARRouting.
Context `{Utilities instance}.

Lemma argsort_insert_Permutation (x : float * Z) (l : list (float * Z)) :
  NumpySort.insert x l ≡ₚ x :: l.
Proof.
  induction l as [| y l IH]; [done |]. simpl.
  destruct (NumpySort.lt y.1 x.1); [| done].
  rewrite IH. apply Permutation_swap.
Qed.

(** [argsort] gives the positions of the array, each once. *)
Lemma argsort_Permutation (a : list float) :
  NumpySort.argsort a ≡ₚ Z.of_nat <$> seq 0 (length a).
Proof.
  unfold NumpySort.argsort.
  assert (Hfold : ∀ l : list (float * Z), foldr NumpySort.insert [] l ≡ₚ l).
  { induction l as [| x l IH]; [done |]. simpl.
    rewrite argsort_insert_Permutation. by rewrite IH. }
  rewrite Hfold. rewrite snd_zip; [done |].
  rewrite length_fmap, length_seq. done.
Qed.

Lemma elem_of_argsort (a : list float) (k : Z) :
  k ∈ NumpySort.argsort a ↔ 0 ≤ k < Z.of_nat (length a).
Proof.
  rewrite argsort_Permutation, list_elem_of_fmap. split.
  - intros (i & -> & Hi). apply elem_of_seq in Hi. lia.
  - intros Hk. exists (Z.to_nat k). split; [lia |]. apply elem_of_seq. lia.
Qed.

Lemma first_selected_cases (sorted_q_table neighborsId : list Z) :
  first_selected sorted_q_table neighborsId = -1
  ∨ (first_selected sorted_q_table neighborsId ∈ sorted_q_table
     ∧ first_selected sorted_q_table neighborsId ∈ neighborsId).
Proof.
  induction sorted_q_table as [| droneId rest IH]; [by left |].
  cbn [first_selected]. case_bool_decide as Hin.
  - right. split; [apply elem_of_cons; by left | done].
  - destruct IH as [IH | [IH1 IH2]]; [by left | right].
    split; [apply elem_of_cons; by right | done].
Qed.

Lemma first_selected_singleton (sorted_q_table : list Z) (k : Z) :
  k ∈ sorted_q_table → first_selected sorted_q_table [k] = k.
Proof.
  induction sorted_q_table as [| droneId rest IH]; intros Hk.
  - by apply elem_of_nil in Hk.
  - cbn [first_selected]. case_bool_decide as Hin.
    + by apply list_elem_of_singleton in Hin.
    + apply IH. apply elem_of_cons in Hk as [-> | Hk]; [| done].
      exfalso. apply Hin. by apply list_elem_of_singleton.
Qed.

(** The action stored by [relay_selection] is [-1] or a position of the
    table of values. *)
Lemma relay_selection_action (self self' : instance) (simulator : Simulator)
    (ds : list (Drone instance)) (packet : DataPacket) (drone_near_depot_id : Z)
    (relay : DroneRef) :
  relay_selection self simulator ds packet drone_near_depot_id = Some (relay, self') →
  ∃ state action : Z,
    self' = {| drone := drone self;
               taken_actions := <[identifier (event_ref packet) := (state, action)]>
                                  (taken_actions self);
               q_table := q_table self;
               A := A self; B := B self; C := C self |}
    ∧ py_index (length ds) action = Some relay
    ∧ (action = -1 ∨ 0 ≤ action < Z.of_nat (length (q_table self))).
Proof.
  unfold relay_selection. intros Hsel.
  destruct (ds !! drone self) as [me |]; [| done]. simpl in Hsel.
  destruct (selected_drones simulator ds packet me drone_near_depot_id)
    as [selected |]; [| done].
  simpl in Hsel.
  set (action := first_selected (NumpySort.argsort (q_table self))
                   ((fun d : Drone instance => identifier d) <$> selected)) in *.
  destruct (py_index (length ds) action) as [r |] eqn:Hr; [| done].
  simpl in Hsel. injection Hsel as <- <-.
  exists (identifier me), action. split_and!; [done | done |].
  destruct (first_selected_cases (NumpySort.argsort (q_table self))
              ((fun d : Drone instance => identifier d) <$> selected))
    as [Hnone | [Hin _]]; [by left | right].
  by apply elem_of_argsort.
Qed.

(** X8.  An instance of QTAR on which [feedback] cannot raise stays so:
    the constructor builds one (when the maximal TTL and the maximal energy
    are not zero), [relay_selection] keeps it one when the table of values
    is not empty, and leaves the table as it is; [feedback] always returns
    on such an instance, keeps it one, and keeps the length of the table. *)
Theorem QTAR_instance_stays_well_formed (simulator : Simulator) (self : instance) :
  (packets_max_ttl simulator ≠ 0 →
   PrimFloat.eqb (drone_max_energy simulator) 0%float = false →
   ∀ d : DroneRef,
     well_formed simulator (__init__ d simulator)
     ∧ length (q_table (__init__ d simulator)) = n_drones simulator)
  ∧ (∀ (ds : list (Drone instance)) (packet : DataPacket) (drone_near_depot_id : Z)
       (relay : DroneRef) (self' : instance),
       well_formed simulator self → q_table self ≠ [] →
       relay_selection self simulator ds packet drone_near_depot_id = Some (relay, self') →
       well_formed simulator self' ∧ q_table self' = q_table self)
  ∧ (∀ (current_drone : Drone instance) (id_event delay outcome : Z),
       well_formed simulator self →
       ∃ self' : instance,
         feedback simulator self current_drone id_event delay outcome = Some self'
         ∧ well_formed simulator self'
         ∧ length (q_table self') = length (q_table self)).
Proof.
  split_and!.
  - intros Httl Hen d. split.
    + split_and!; [done | done | apply map_Forall_empty].
    + simpl. apply length_replicate.
  - intros ds packet hint relay self' (Httl & Hen & Hpending) Hq Hsel.
    destruct (relay_selection_action _ _ _ _ _ _ _ Hsel)
      as (state & action & -> & _ & Haction).
    split; [| done]. split_and!; [done | done |]. simpl.
    apply map_Forall_insert_2; [| done]. simpl.
    unfold py_index.
    destruct Haction as [-> | Hrange].
    + assert (0 < length (q_table self))%nat by (destruct (q_table self); [done | simpl; lia]).
      replace (0 <=? -1) with false by reflexivity. simpl.
      destruct (Z.leb_spec (- Z.of_nat (length (q_table self))) (-1)); [| lia].
      simpl. eauto.
    + destruct (Z.leb_spec 0 action); [| lia].
      destruct (Z.ltb_spec action (Z.of_nat (length (q_table self)))); [| lia].
      simpl. eauto.
  - intros current_drone id_event delay outcome (Httl & Hen & Hpending).
    unfold feedback.
    destruct (taken_actions self !! id_event) as [[state action] |] eqn:Hlook.
    + destruct (Hpending id_event (state, action) Hlook) as [k Hk]. simpl in Hk.
      destruct (Z.eqb_spec (packets_max_ttl simulator) 0); [done |].
      rewrite Hen. unfold py_setitem. rewrite Hk. simpl.
      eexists. split; [reflexivity |]. simpl.
      split; [| apply length_insert].
      split_and!; [done | done |]. simpl.
      rewrite length_insert. by apply map_Forall_delete.
    + exists self. split_and!; [done | by split_and! | done].
Qed.

(** X9.  When a drone near the depot is given, by a position [k] of the
    list of drones that is also a position of the table of values, and the
    drone there has the identifier [k], [relay_selection] returns that
    drone and stores [k] as the action taken, with the identifier of the
    own drone as state. *)
Theorem relay_selection_takes_drone_near_depot (self : instance) (simulator : Simulator)
    (ds : list (Drone instance)) (me near : Drone instance) (packet : DataPacket)
    (k : Z) :
  ds !! drone self = Some me →
  0 ≤ k < Z.of_nat (length (q_table self)) →
  ds !! Z.to_nat k = Some near →
  identifier near = k →
  relay_selection self simulator ds packet k =
    Some (Z.to_nat k,
          {| drone := drone self;
             taken_actions :=
               <[identifier (event_ref packet) := (identifier me, k)]> (taken_actions self);
             q_table := q_table self;
             A := A self; B := B self; C := C self |}).
Proof.
  intros Hme Hk Hnear Hid.
  assert (Hlen : (Z.to_nat k < length ds)%nat) by (by apply lookup_lt_Some in Hnear).
  assert (Hidx : py_index (length ds) k = Some (Z.to_nat k)).
  { unfold py_index.
    destruct (Z.leb_spec 0 k); [| lia].
    destruct (Z.ltb_spec k (Z.of_nat (length ds))); [| lia]. done. }
  unfold relay_selection, selected_drones, py_getitem.
  rewrite Hme. simpl.
  destruct (Z.eqb_spec k (-1)); [lia |]. simpl.
  rewrite Hidx. simpl. rewrite Hnear. simpl. rewrite Hid.
  rewrite first_selected_singleton by (by apply elem_of_argsort).
  rewrite Hidx. done.
Qed.

Lemma select_two_hop_none_faster (simulator : Simulator) (ds : list (Drone instance))
    (packet : DataPacket) (me one_hop_neighbor : Drone instance) (two_hop : list DroneRef) :
  ∀ selected : list (Drone instance),
    (∀ ref, ref ∈ two_hop →
       ∃ neighbor, ds !! ref = Some neighbor
         ∧ PyFloat.gt (two_hop_speed me one_hop_neighbor neighbor simulator)
             (compute_required_speed neighbor
                (packets_max_ttl simulator
                 - (cur_step simulator - time_step_creation packet)) simulator)
           = false) →
    select_two_hop simulator ds packet me one_hop_neighbor two_hop selected = Some selected.
Proof.
  induction two_hop as [| ref rest IH]; intros selected Hslow; [done |].
  destruct (Hslow ref) as (neighbor & Hn & Hgt); [apply elem_of_cons; by left |].
  cbn [select_two_hop]. rewrite Hn. simpl. rewrite Hgt.
  apply IH. intros r Hr. apply Hslow, elem_of_cons. by right.
Qed.

(** X10.  When no drone near the depot is given and no two-hop neighbor
    the drone has heard of is faster than the speed required for the
    packet, [relay_selection] neither raises nor reports it: it stores
    [-1] as the action taken and returns the last drone of
    [simulator.drones], whether it is a neighbor or not. *)
Theorem relay_selection_no_neighbor_fast_enough (self : instance) (simulator : Simulator)
    (ds : list (Drone instance)) (me : Drone instance) (packet : DataPacket) :
  ds !! drone self = Some me →
  (∀ one_hop_id two_hop, (one_hop_id, two_hop) ∈ two_hop_neighbors me →
     ∃ one_hop_neighbor, py_getitem ds one_hop_id = Some one_hop_neighbor
       ∧ ∀ ref, ref ∈ two_hop →
           ∃ neighbor, ds !! ref = Some neighbor
             ∧ PyFloat.gt (two_hop_speed me one_hop_neighbor neighbor simulator)
                 (compute_required_speed neighbor
                    (packets_max_ttl simulator
                     - (cur_step simulator - time_step_creation packet)) simulator)
               = false) →
  relay_selection self simulator ds packet (-1) =
    Some ((length ds - 1)%nat,
          {| drone := drone self;
             taken_actions :=
               <[identifier (event_ref packet) := (identifier me, -1)]> (taken_actions self);
             q_table := q_table self;
             A := A self; B := B self; C := C self |}).
Proof.
  intros Hme Hslow.
  assert (Hsel : ∀ items selected,
             (∀ one_hop_id two_hop, (one_hop_id, two_hop) ∈ items →
                (one_hop_id, two_hop) ∈ two_hop_neighbors me) →
             select_neighbors simulator ds packet me items selected = Some selected).
  { induction items as [| [one_hop_id two_hop] rest IH]; intros selected Hsub; [done |].
    destruct (Hslow one_hop_id two_hop) as (o & Ho & Htwo);
      [apply Hsub, elem_of_cons; by left |].
    cbn [select_neighbors]. rewrite Ho. simpl.
    rewrite select_two_hop_none_faster by done. simpl.
    apply IH. intros i t Hin. apply Hsub, elem_of_cons. by right. }
  assert (Hnone : selected_drones simulator ds packet me (-1) = Some []).
  { unfold selected_drones. simpl. by apply Hsel. }
  assert (Hlen : (0 < length ds)%nat) by (apply lookup_lt_Some in Hme; lia).
  unfold relay_selection. rewrite Hme. simpl. rewrite Hnone. simpl.
  assert (Hfirst : ∀ sorted, first_selected sorted [] = -1).
  { induction sorted as [| droneId rest IH]; [done |].
    cbn [first_selected]. rewrite bool_decide_eq_false_2; [exact IH | apply not_elem_of_nil]. }
  rewrite Hfirst. unfold py_index.
  destruct (Z.ltb_spec (-1) (Z.of_nat (length ds))); [| lia].
  replace (0 <=? -1) with false by reflexivity. simpl.
  destruct (Z.leb_spec (- Z.of_nat (length ds)) (-1)); [| lia].
  simpl. do 3 f_equal. lia.
Qed.

End QTARInvariant.

(** The two theorems on the drone 0 of the scenario, which has heard of the
    drone 2 behind the drone 1; every speed is zero, so that no neighbor is
    faster than required. *)
Lemma relay_selection_no_neighbor_fast_enough_scenario :
  ∃ (ds : list (Drone QTARRouting.instance)) (me : Drone QTARRouting.instance),
    Scenario.roster_two_hop = Some ds ∧ ds !! 0%nat = Some me
    ∧ two_hop_neighbors me = [(1, [2%nat])]
    ∧ ∃ self' : QTARRouting.instance,
        QTARRouting.relay_selection (H := Scenario.no_speed) (routing_algorithm me)
          (Scenario.sim3 1) ds (Scenario.packet_of 2001 1001 0) (-1)
        = Some (2%nat, self')
        ∧ QTARRouting.taken_actions self' !! 1001 = Some (0, -1).
Proof.
  evar (ds : list (Drone QTARRouting.instance)).
  evar (me : Drone QTARRouting.instance).
  exists ds, me.
  assert (Hds : Scenario.roster_two_hop = Some ds) by (unfold ds; vm_compute; reflexivity).
  assert (Hme : ds !! 0%nat = Some me) by (unfold ds, me; vm_compute; reflexivity).
  split_and!; [exact Hds | exact Hme | reflexivity |].
  eexists. split.
  - apply (relay_selection_no_neighbor_fast_enough (H := Scenario.no_speed)
             (routing_algorithm me) (Scenario.sim3 1) ds me); [exact Hme |].
    intros one_hop_id two_hop Hin.
    apply list_elem_of_singleton in Hin. injection Hin as -> ->.
    eexists. split; [vm_compute; reflexivity |].
    intros ref Href. apply list_elem_of_singleton in Href as ->.
    eexists. split; [vm_compute; reflexivity | reflexivity].
  - vm_compute. reflexivity.
Defined.

Lemma relay_selection_takes_drone_near_depot_scenario :
  ∃ (ds : list (Drone QTARRouting.instance)) (me : Drone QTARRouting.instance),
    Scenario.roster_two_hop = Some ds ∧ ds !! 0%nat = Some me
    ∧ ∃ self' : QTARRouting.instance,
        QTARRouting.relay_selection (H := Scenario.no_speed) (routing_algorithm me)
          (Scenario.sim3 1) ds (Scenario.packet_of 2001 1001 0) 1
        = Some (1%nat, self')
        ∧ QTARRouting.taken_actions self' !! 1001 = Some (0, 1).
Proof.
  evar (ds : list (Drone QTARRouting.instance)).
  evar (me : Drone QTARRouting.instance).
  evar (near : Drone QTARRouting.instance).
  exists ds, me.
  assert (Hds : Scenario.roster_two_hop = Some ds) by (unfold ds; vm_compute; reflexivity).
  assert (Hme : ds !! 0%nat = Some me) by (unfold ds, me; vm_compute; reflexivity).
  assert (Hnear : ds !! 1%nat = Some near) by (unfold ds, near; vm_compute; reflexivity).
  split_and!; [exact Hds | exact Hme |].
  eexists. split.
  - apply (relay_selection_takes_drone_near_depot (H := Scenario.no_speed)
             (routing_algorithm me) (Scenario.sim3 1) ds me near);
      [exact Hme | simpl; lia | exact Hnear | reflexivity].
  - vm_compute. reflexivity.
Defined.

(** ** Pruning twice, handing over twice *)

Section Twice.
Context {R : Type} `{RoutingAlgorithm R}.
Variable ok : R → Prop.
Variable sim : Simulator.
Hypothesis feedback_ok :
  ∀ (r : R) (d : Drone R) (id_event delay outcome : Z),
    ok r → ∃ r', feedback sim r d id_event delay outcome = Some r' ∧ ok r'.

Local Arguments Expected.non_expired : simpl never.
Local Arguments Expected.non_expired_deadlines : simpl never.

Lemma list_filter_twice (f : Z → bool) (l : list Z) :
  List.filter f (List.filter f l) = List.filter f l.
Proof.
  apply list_filter_all. intros z Hz.
  by apply list_elem_of_In, filter_In in Hz as [_ Hz].
Qed.

Lemma set_tightest_event_deadline_same (d : Drone R) :
  Drone.set_tightest_event_deadline d (tightest_event_deadline d) = d.
Proof. by destruct d. Qed.

(** On a buffer without expired packet, the loop of [update_packets] keeps
    every packet, calls no feedback, and touches the tightest deadline of
    the drone only. *)
Lemma update_packets_loop_no_expired (pcks : gmap Z Packet) (self : DroneRef) (step : Z)
    (buf : list Z) :
  ∀ (ds : list (Drone R)) (tmp_buffer : list Z) (calls : list FeedbackCall)
    (me : Drone R),
    ds !! self = Some me →
    (∀ pck_id, pck_id ∈ buf →
       ∃ pck, pcks !! pck_id = Some pck ∧ Packet.is_expired pck step = false) →
    Drone.update_packets_loop sim pcks self step buf ds tmp_buffer calls
    = Some (<[self := Drone.set_tightest_event_deadline me
                        (foldl nanmin_deadline (tightest_event_deadline me)
                               (Expected.non_expired_deadlines pcks step buf))]> ds,
            tmp_buffer ++ buf, calls).
Proof.
  induction buf as [| pck_id rest IH]; intros ds tmp_buffer calls me Hme Hfresh.
  - cbn [Drone.update_packets_loop]. unfold Expected.non_expired_deadlines. simpl.
    rewrite set_tightest_event_deadline_same, list_insert_id by done.
    by rewrite app_nil_r.
  - destruct (Hfresh pck_id) as (pck & Hpck & Hexp); [apply elem_of_cons; by left |].
    destruct (non_expired_cons_kept pcks step pck_id pck rest Hpck Hexp)
      as (_ & _ & Hdl).
    cbn [Drone.update_packets_loop]. rewrite Hpck. simpl. rewrite Hexp. simpl.
    rewrite Hme. simpl.
    rewrite (IH _ _ _ (Drone.set_tightest_event_deadline me
                         (nanmin_deadline (tightest_event_deadline me)
                                          (deadline (event_ref pck))))).
    + rewrite list_insert_insert_eq, Hdl, <- app_assoc. done.
    + apply list_lookup_insert_eq. by apply lookup_lt_Some in Hme.
    + intros i Hi. apply Hfresh, elem_of_cons. by right.
Qed.

Lemma non_expired_fresh (pcks : gmap Z Packet) (step : Z) (buf : list Z) (pck_id : Z) :
  pck_id ∈ Expected.non_expired pcks step buf →
  ∃ pck, pcks !! pck_id = Some pck ∧ Packet.is_expired pck step = false.
Proof.
  unfold Expected.non_expired. intros Hin.
  apply list_elem_of_In, filter_In in Hin as [_ Hin].
  destruct (pcks !! pck_id) as [pck |]; [| done].
  exists pck. split; [done | by apply negb_true_iff].
Qed.

(** The loop of [transfer_notified_packets] keeps the instances such that
    [feedback] returns on them. *)
Lemma transfer_loop_keeps_ok (current_drone : DroneRef) (step : Z) (buf : list Z) :
  ∀ (ds ds' : list (Drone R)) (pcks pcks' : gmap Z Packet) (m m' : Metrics)
    (calls calls' : list FeedbackCall),
    (current_drone < length ds)%nat →
    Forall (fun d => ok (routing_algorithm d)) ds →
    Depot.transfer_loop sim current_drone step buf ds pcks m calls
    = Some (ds', pcks', m', calls') →
    Forall (fun d => ok (routing_algorithm d)) ds'.
Proof.
  induction buf as [| pck_id rest IH];
    intros ds ds' pcks pcks' m m' calls calls' Hcur Hok Hloop.
  - cbn [Depot.transfer_loop] in Hloop. by injection Hloop as <- _ _ _.
  - cbn [Depot.transfer_loop] in Hloop.
    destruct (pcks !! pck_id) as [pck |]; [| done]. simpl in Hloop.
    destruct (str_in (routing_algorithm_name sim) GEO_RND_GEOS); simpl in Hloop.
    + by apply (IH _ _ _ _ _ _ _ _ Hcur Hok Hloop).
    + destruct (broadcast_feedback_spec ok sim feedback_ok current_drone
                  (identifier (event_ref pck)) (step - current_time (event_ref pck)) 1
                  ds calls Hcur Hok)
        as (ds1 & Hb & Hlen1 & Hok1 & _).
      rewrite Hb in Hloop. simpl in Hloop.
      apply (IH _ _ _ _ _ _ _ _ ltac:(by rewrite Hlen1) Hok1 Hloop).
Qed.

End Twice.

(** X11.  Pruning the buffer of a drone a second time at the same step
    changes nothing: under the conditions of the first pruning, the second
    returns the simulation as the first left it, and calls no feedback. *)
Theorem update_packets_twice {R : Type} `{RoutingAlgorithm R}
    (ok : R → Prop) (w : World R) (self : DroneRef) (cur_step : Z) (me : Drone R) :
  (∀ (r : R) (d : Drone R) (id_event delay outcome : Z),
     ok r → ∃ r', feedback (simulator w) r d id_event delay outcome = Some r' ∧ ok r') →
  drones w !! self = Some me →
  Forall (fun d => ok (routing_algorithm d)) (drones w) →
  (∀ pck_id, pck_id ∈ buffer me → is_Some (packets w !! pck_id)) →
  ∃ (w' : World R) (calls : list FeedbackCall),
    Drone.update_packets w self cur_step = Some (w', calls)
    ∧ Drone.update_packets w' self cur_step = Some (w', []).
Proof.
  intros Hfb Hme Hok Hbuf.
  assert (Hself : (self < length (drones w))%nat) by (by apply lookup_lt_Some in Hme).
  set (me0 := Drone.set_tightest_event_deadline me None).
  destruct (update_packets_loop_spec ok (simulator w) Hfb (packets w) self cur_step
              (buffer me) (<[self := me0]> (drones w)) [] [] me0)
    as (ds' & me1 & Hloop & Hlen & Hme1 & Hbuf1 & Hmove1 & Htight1).
  { by apply list_lookup_insert_eq. }
  { apply Forall_insert; [done |].
    change (ok (routing_algorithm me)).
    by apply (proj1 (Forall_lookup _ (drones w)) Hok self). }
  { done. }
  rewrite length_insert in Hloop, Hlen. simpl in Hloop, Htight1.
  set (kept := Expected.non_expired (packets w) cur_step (buffer me)) in *.
  set (me' := if (length kept =? 0)%nat
              then Drone.set_move_routing (Drone.set_buffer me1 kept) false
              else Drone.set_buffer me1 kept).
  assert (Hbuf' : buffer me' = kept).
  { unfold me'. by destruct (length kept =? 0)%nat. }
  assert (Hself' : (self < length ds')%nat) by lia.
  eexists _, _. split.
  - unfold Drone.update_packets. rewrite Hme. simpl. fold me0.
    rewrite Hloop. simpl. rewrite Hme1. simpl. fold me'. reflexivity.
  - unfold Drone.update_packets. simpl.
    rewrite list_lookup_insert_eq by done. simpl.
    rewrite list_insert_insert_eq, Hbuf'.
    rewrite (update_packets_loop_no_expired (simulator w) (packets w) self cur_step kept
               _ [] [] (Drone.set_tightest_event_deadline me' None)).
    + simpl. rewrite list_insert_insert_eq, list_lookup_insert_eq by done. simpl.
      rewrite list_insert_insert_eq.
      do 3 f_equal.
      assert (Hdl : Expected.non_expired_deadlines (packets w) cur_step kept
                    = Expected.non_expired_deadlines (packets w) cur_step (buffer me)).
      { unfold Expected.non_expired_deadlines, kept, Expected.non_expired.
        by rewrite list_filter_twice. }
      rewrite Hdl, <- Htight1.
      unfold me'. destruct (length kept =? 0)%nat; by destruct me1.
    + apply list_lookup_insert_eq. done.
    + intros pck_id Hin. by apply (non_expired_fresh _ _ (buffer me)).
Qed.

(** X12.  Nothing in the hand-off empties the buffer of the drone: handing
    it over a second time, at a later step, returns again; the depot then
    holds every packet of the drone twice, the metrics list each delivery
    twice, and the delivery time of each packet is that of the second
    hand-off. *)
Theorem transfer_notified_packets_twice {R : Type} `{RoutingAlgorithm R}
    (ok : R → Prop) (w : World R) (current_drone : DroneRef) (step1 step2 : Z)
    (src : Drone R) :
  (∀ (r : R) (d : Drone R) (id_event delay outcome : Z),
     ok r → ∃ r', feedback (simulator w) r d id_event delay outcome = Some r' ∧ ok r') →
  drones w !! current_drone = Some src →
  Forall (fun d => ok (routing_algorithm d)) (drones w) →
  (∀ pck_id, pck_id ∈ buffer src → is_Some (packets w !! pck_id)) →
  ∃ (w1 w2 : World R) (calls1 calls2 : list FeedbackCall),
    Depot.transfer_notified_packets w current_drone step1 = Some (w1, calls1)
    ∧ Depot.transfer_notified_packets w1 current_drone step2 = Some (w2, calls2)
    ∧ Depot.all_packets (depot w2)
      = Depot.all_packets (depot w) ++ buffer src ++ buffer src
    ∧ drones_packets_to_depot_list (metrics w2)
      = drones_packets_to_depot_list (metrics w)
        ++ ((fun pck_id => (pck_id, step1)) <$> buffer src)
        ++ ((fun pck_id => (pck_id, step2)) <$> buffer src)
    ∧ (∀ pck_id pck, pck_id ∈ buffer src → packets w !! pck_id = Some pck →
         packets w2 !! pck_id = Some (Packet.set_time_delivery pck step2)).
Proof.
  intros Hfb Hsrc Hok Hbuf.
  assert (Hcur : (current_drone < length (drones w))%nat)
    by (by apply lookup_lt_Some in Hsrc).
  destruct (transfer_loop_spec ok (simulator w) Hfb current_drone step1 (buffer src)
              (drones w) (packets w) (metrics w) [] Hcur Hok Hbuf)
    as (ds1 & pcks1 & m1 & Hloop1 & Hlen1 & Hframe1 & Hp1 & Hm1).
  pose proof (transfer_loop_keeps_ok ok (simulator w) Hfb current_drone step1 (buffer src)
                _ _ _ _ _ _ _ _ Hcur Hok Hloop1) as Hok1.
  destruct (Hframe1 current_drone src Hsrc) as (src1 & Hsrc1 & Heq1).
  assert (Hbuf1 : buffer src1 = buffer src) by (by rewrite Heq1).
  assert (Hheap1 : ∀ pck_id, pck_id ∈ buffer src → is_Some (pcks1 !! pck_id)).
  { intros pck_id Hin. rewrite Hp1, bool_decide_eq_true_2 by done.
    destruct (Hbuf pck_id Hin) as [pck ->]. simpl. eauto. }
  destruct (transfer_loop_spec ok (simulator w) Hfb current_drone step2 (buffer src)
              ds1 pcks1 m1 [] ltac:(by rewrite Hlen1) Hok1 Hheap1)
    as (ds2 & pcks2 & m2 & Hloop2 & Hlen2 & Hframe2 & Hp2 & Hm2).
  eexists _, _, _, _. split_and!.
  - unfold Depot.transfer_notified_packets. rewrite Hsrc. simpl.
    rewrite Hloop1. simpl. reflexivity.
  - unfold Depot.transfer_notified_packets. simpl. rewrite Hsrc1. simpl.
    rewrite Hbuf1, Hloop2. simpl. reflexivity.
  - unfold Depot.all_packets. simpl. by rewrite <- app_assoc.
  - simpl. by rewrite Hm2, Hm1, <- app_assoc.
  - intros pck_id pck Hin Hpck. simpl.
    rewrite Hp2, Hp1, !bool_decide_eq_true_2 by done. by rewrite Hpck.
Qed.

Lemma update_packets_twice_scenario :
  ∃ w : World QTARRouting.instance,
    Scenario.world5 6 = Some w
    ∧ ∃ (w' : World QTARRouting.instance) (calls : list FeedbackCall),
        Drone.update_packets w 1%nat 6 = Some (w', calls)
        ∧ Drone.update_packets w' 1%nat 6 = Some (w', []).
Proof.
  eexists. split; [vm_compute; reflexivity |].
  match goal with
  | |- ∃ w' calls, Drone.update_packets ?w _ _ = _ ∧ _ =>
      eapply (update_packets_twice (QTARRouting.well_formed (simulator w)) w 1%nat 6)
  end.
  - intros r d id_event delay outcome Hr.
    apply QTAR_feedback_well_formed. exact Hr.
  - vm_compute. reflexivity.
  - repeat apply Forall_cons_2; [| | | apply Forall_nil_2];
      (split_and!; [simpl; lia | vm_compute; reflexivity
                   | apply map_Forall_to_list; vm_compute; repeat econstructor]).
  - intros pck_id Hin. simpl in Hin.
    apply elem_of_cons in Hin as [-> | Hin]; [vm_compute; eauto |].
    apply elem_of_cons in Hin as [-> | Hin]; [vm_compute; eauto |].
    by apply elem_of_nil in Hin.
Defined.

Lemma transfer_notified_packets_twice_scenario :
  ∃ w : World QTARRouting.instance,
    Scenario.world5 4 = Some w
    ∧ ∃ (w1 w2 : World QTARRouting.instance) (calls1 calls2 : list FeedbackCall),
        Depot.transfer_notified_packets w 1%nat 4 = Some (w1, calls1)
        ∧ Depot.transfer_notified_packets w1 1%nat 5 = Some (w2, calls2)
        ∧ Depot.all_packets (depot w2) = [201; 202; 201; 202]
        ∧ (time_delivery <$> packets w2 !! 201) = Some 5.
Proof.
  eexists. split; [vm_compute; reflexivity |].
  match goal with
  | |- ∃ w1 w2 calls1 calls2, Depot.transfer_notified_packets ?w _ _ = _ ∧ _ =>
      edestruct (transfer_notified_packets_twice
                   (QTARRouting.well_formed (simulator w)) w 1%nat 4 5)
        as (w1 & w2 & calls1 & calls2 & Ht1 & Ht2 & Hdepot & _ & Hstamp)
  end.
  - intros r d id_event delay outcome Hr.
    apply QTAR_feedback_well_formed. exact Hr.
  - vm_compute. reflexivity.
  - repeat apply Forall_cons_2; [| | | apply Forall_nil_2];
      (split_and!; [simpl; lia | vm_compute; reflexivity
                   | apply map_Forall_to_list; vm_compute; repeat econstructor]).
  - intros pck_id Hin. simpl in Hin.
    apply elem_of_cons in Hin as [-> | Hin]; [vm_compute; eauto |].
    apply elem_of_cons in Hin as [-> | Hin]; [vm_compute; eauto |].
    by apply elem_of_nil in Hin.
  - exists w1, w2, calls1, calls2.
    split_and!; [exact Ht1 | exact Ht2 | |].
    + rewrite Hdepot. vm_compute. reflexivity.
    + erewrite Hstamp; [reflexivity | simpl; apply elem_of_cons; by left
                       | vm_compute; reflexivity].
Defined.

(** ** Movement *)

Section Movement.
Context {R : Type} `{Geometry}.
Implicit Types self : Drone R.
Import PathView.

Lemma py_getitem_in_range {A : Type} (l : list A) (i : Z) :
  0 ≤ i < Z.of_nat (length l) → py_getitem l i = l !! Z.to_nat i.
Proof.
  intros Hi. unfold py_getitem, py_index.
  destruct (Z.leb_spec 0 i); [| lia].
  destruct (Z.ltb_spec i (Z.of_nat (length l))); [| lia]. done.
Qed.

Lemma wrapped_waypoint_next self :
  (0 < length (path self))%nat →
  -1 ≤ current_waypoint self < Z.of_nat (length (path self)) →
  ∃ p1, py_getitem (path self) (wrapped_waypoint self + 1) = Some p1
        ∧ 0 ≤ wrapped_waypoint self + 1 < Z.of_nat (length (path self)).
Proof.
  intros Hlen Hcw. unfold wrapped_waypoint.
  assert (Hr : 0 ≤ (if Z.of_nat (length (path self)) - 1 <=? current_waypoint self
                    then -1 else current_waypoint self) + 1
               < Z.of_nat (length (path self))).
  { destruct (Z.leb_spec (Z.of_nat (length (path self)) - 1) (current_waypoint self)); lia. }
  rewrite py_getitem_in_range by done.
  destruct (lookup_lt_is_Some_2 (path self)
              (Z.to_nat ((if Z.of_nat (length (path self)) - 1 <=? current_waypoint self
                          then -1 else current_waypoint self) + 1))) as [p1 Hp1]; [lia |].
  eauto.
Qed.

(** X13.  A drone on its mission whose waypoint index is within its path
    never indexes the path out of range when it moves: it heads for the
    point [next_target] returns; it fails only on a ratio that is not
    positive; otherwise it either lands on that point, which is then the
    waypoint of its new index, or stops on the segment towards it.  The
    index stays within the path, which does not change. *)
Theorem move_to_mission_follows_path (depot_coords : float * float) self (time : float) :
  move_routing self = false → come_back_to_mission self = false →
  (0 < length (path self))%nat →
  -1 ≤ current_waypoint self < Z.of_nat (length (path self)) →
  ∃ p1 : float * float,
    Drone.next_target depot_coords self = Some (Some p1)
    ∧ let all_distance := euclidean_distance (coords self) p1 in
      let distance := (time * speed self)%float in
      let t := (distance / all_distance)%float in
      match Drone.move_to_mission self time with
      | None =>
          PrimFloat.eqb all_distance 0 = false ∧ PrimFloat.eqb distance 0 = false
          ∧ PrimFloat.leb 1 t = false ∧ PrimFloat.leb t 0 = true
      | Some self' =>
          path self' = path self
          ∧ -1 ≤ current_waypoint self' < Z.of_nat (length (path self))
          ∧ move_routing self' = false ∧ come_back_to_mission self' = false
          ∧ ((coords self' = p1
              ∧ current_waypoint self' = wrapped_waypoint self + 1
              ∧ py_getitem (path self) (current_waypoint self') = Some p1)
             ∨ (coords self' = Drone.interpolate t (coords self) p1
                ∧ current_waypoint self' = wrapped_waypoint self
                ∧ PrimFloat.leb 1 t = false ∧ PrimFloat.leb t 0 = false))
      end.
Proof.
  intros Hmr Hcb Hlen Hcw.
  destruct (wrapped_waypoint_next self Hlen Hcw) as (p1 & Hp1 & Hrange).
  exists p1. split.
  - unfold Drone.next_target. rewrite Hmr, Hcb.
    unfold wrapped_waypoint in Hp1.
    destruct (Z.of_nat (length (path self)) - 1 <=? current_waypoint self);
      [change (-1 + 1) with 0 in Hp1 |]; by rewrite Hp1.
  - intros all_distance distance t.
    unfold Drone.move_to_mission, Drone.update_position.
    unfold wrapped_waypoint in *.
    destruct (Z.leb_spec (Z.of_nat (length (path self)) - 1) (current_waypoint self));
      simpl in Hp1 |- *; rewrite Hcb, Hp1; simpl;
      fold all_distance; fold distance; fold t;
      destruct (PrimFloat.eqb all_distance 0); destruct (PrimFloat.eqb distance 0);
      destruct (PrimFloat.leb 1 t); destruct (PrimFloat.leb t 0);
      simpl; rewrite ?Hp1; simpl; split_and!;
      first [done | lia | (left; done) | (right; done)].
Qed.

Lemma update_position_frame self (p1 : float * float) (self' : Drone R) :
  Drone.update_position self p1 = Some self' →
  path self' = path self ∧ buffer self' = buffer self
  ∧ move_routing self' = move_routing self
  ∧ last_mission_coords self' = last_mission_coords self.
Proof.
  unfold Drone.update_position. intros Hup.
  destruct (come_back_to_mission self); [by injection Hup as <- |].
  simpl in Hup.
  destruct (py_getitem (path self) (current_waypoint self + 1)); [| done].
  by injection Hup as <-.
Qed.

Lemma move_to_mission_frame self (time : float) (self' : Drone R) :
  Drone.move_to_mission self time = Some self' →
  path self' = path self ∧ buffer self' = buffer self
  ∧ move_routing self' = move_routing self
  ∧ last_mission_coords self' = last_mission_coords self.
Proof.
  unfold Drone.move_to_mission. intros Hmove.
  set (self1 := if Z.of_nat (length (path self)) - 1 <=? current_waypoint self
                then Drone.set_current_waypoint self (-1) else self) in *.
  assert (Hsame : path self1 = path self ∧ buffer self1 = buffer self
                  ∧ move_routing self1 = move_routing self
                  ∧ last_mission_coords self1 = last_mission_coords self).
  { unfold self1. by destruct (_ <=? _). }
  destruct Hsame as (<- & <- & <- & <-). clearbody self1.
  destruct (if come_back_to_mission self1 then last_mission_coords self1
            else py_getitem (path self1) (current_waypoint self1 + 1)) as [p1 |];
    [| done].
  simpl in Hmove.
  destruct (_ || _); [by apply update_position_frame in Hmove |].
  destruct (PrimFloat.leb 1 _); [by apply update_position_frame in Hmove |].
  destruct (PrimFloat.leb _ 0); [done |].
  by injection Hmove as <-.
Qed.

Lemma move_to_depot_frame (depot_coords : float * float) self (time : float)
    (self' : Drone R) :
  Drone.move_to_depot depot_coords self time = Some self' →
  path self' = path self ∧ buffer self' = buffer self
  ∧ (move_routing self' = true → move_routing self = true)
  ∧ last_mission_coords self' = last_mission_coords self.
Proof.
  unfold Drone.move_to_depot. intros Hmove.
  destruct (PrimFloat.eqb _ 0); [by injection Hmove as <- |].
  destruct (PrimFloat.leb 1 _); [by injection Hmove as <- |].
  destruct (PrimFloat.leb _ 0); [done |].
  by injection Hmove as <-.
Qed.

(** X14.  What [move] records, whenever it returns: the last move routing
    is the move routing the drone ends with; a step towards the depot
    counts as active routing, a step of the mission as time on mission,
    and a step back to the mission as both, except the first, which counts
    as time on mission only; the point where the mission was left is taken
    on the first step towards the depot and kept afterwards; the path and
    the buffer do not change. *)
Theorem move_records (depot_coords : float * float) (mm mm' : MissionMetrics)
    self (self' : Drone R) (time : float) :
  Drone.move depot_coords mm self time = Some (self', mm') →
  last_move_routing self' = move_routing self'
  ∧ path self' = path self ∧ buffer self' = buffer self
  ∧ time_on_active_routing mm'
    = time_on_active_routing mm
      + (if move_routing self || come_back_to_mission self then 1 else 0)
  ∧ time_on_mission mm' = time_on_mission mm + (if move_routing self then 0 else 1)
  ∧ last_mission_coords self'
    = (if move_routing self && negb (last_move_routing self)
       then Some (coords self) else last_mission_coords self)
  ∧ (move_routing self' = true → move_routing self = true).
Proof.
  unfold Drone.move. intros Hmove.
  destruct (move_routing self) eqn:Hmr; simpl in Hmove.
  - destruct (Drone.move_to_depot depot_coords _ time) as [self1 |] eqn:Hdepot;
      [| done].
    simpl in Hmove. injection Hmove as <- <-.
    apply move_to_depot_frame in Hdepot as (Hpath & Hbuf & _ & Hlast).
    simpl. rewrite Hpath, Hbuf, Hlast.
    destruct (last_move_routing self); simpl; split_and!; try done; lia.
  - destruct (Drone.move_to_mission _ time) as [self1 |] eqn:Hmission; [| done].
    simpl in Hmove. injection Hmove as <- <-.
    apply move_to_mission_frame in Hmission as (Hpath & Hbuf & Hmr1 & Hlast).
    simpl. rewrite Hpath, Hbuf, Hlast, Hmr1.
    destruct (last_move_routing self), (come_back_to_mission self); simpl;
      rewrite ?Hmr; split_and!; try done; lia.
Qed.

(** X15.  A drone whose move routing has ended comes back to the point
    where it left its mission: from its first step of the mission on, it
    heads for that point; [move] fails only on a ratio that is not
    positive; otherwise the drone either reaches the point and is on its
    mission again, or stops on the segment towards it and keeps coming
    back.  Its waypoint index is not advanced. *)
Theorem move_comes_back_to_last_mission_coords (depot_coords : float * float)
    (mm : MissionMetrics) self (time : float) (p : float * float) :
  move_routing self = false →
  last_move_routing self = true ∨ come_back_to_mission self = true →
  last_mission_coords self = Some p →
  let all_distance := euclidean_distance (coords self) p in
  let distance := (time * speed self)%float in
  let t := (distance / all_distance)%float in
  match Drone.move depot_coords mm self time with
  | None =>
      PrimFloat.eqb all_distance 0 = false ∧ PrimFloat.eqb distance 0 = false
      ∧ PrimFloat.leb 1 t = false ∧ PrimFloat.leb t 0 = true
  | Some (self', mm') =>
      move_routing self' = false ∧ last_move_routing self' = false
      ∧ last_mission_coords self' = Some p
      ∧ current_waypoint self' = wrapped_waypoint self
      ∧ ((coords self' = p ∧ come_back_to_mission self' = false)
         ∨ (coords self' = Drone.interpolate t (coords self) p
            ∧ come_back_to_mission self' = true
            ∧ PrimFloat.leb 1 t = false ∧ PrimFloat.leb t 0 = false))
  end.
Proof.
  intros Hmr Hback Hp all_distance distance t.
  assert (Hcb : come_back_to_mission
                  (if last_move_routing self
                   then Drone.set_come_back_to_mission self true else self) = true).
  { destruct Hback as [-> | Hcb]; [done | by destruct (last_move_routing self)]. }
  unfold Drone.move. rewrite Hmr. simpl.
  set (self1 := if last_move_routing self
                then Drone.set_come_back_to_mission self true else self) in *.
  assert (Hsame : coords self1 = coords self ∧ speed self1 = speed self
                  ∧ path self1 = path self ∧ current_waypoint self1 = current_waypoint self
                  ∧ last_mission_coords self1 = Some p ∧ move_routing self1 = false).
  { unfold self1. by destruct (last_move_routing self). }
  destruct Hsame as (Hc1 & Hs1 & Hp1 & Hw1 & Hl1 & Hm1).
  clearbody self1.
  unfold Drone.move_to_mission, Drone.update_position, wrapped_waypoint.
  rewrite Hp1, Hw1.
  destruct (Z.of_nat (length (path self)) - 1 <=? current_waypoint self);
    simpl; rewrite Hcb, Hl1, Hc1, Hs1; simpl;
    fold all_distance; fold distance; fold t;
    destruct (PrimFloat.eqb all_distance 0); destruct (PrimFloat.eqb distance 0);
    destruct (PrimFloat.leb 1 t); destruct (PrimFloat.leb t 0);
    simpl; rewrite ?Hcb; simpl; split_and!;
    first [done | (left; done) | (right; done)].
Qed.

(** A move of a drone on its mission, with no move routing before: the
    drone stays on its mission, and heads for the next waypoint of its
    path. *)
Lemma move_on_mission (depot_coords : float * float) (mm mm' : MissionMetrics)
    self (self' : Drone R) (time : float) :
  move_routing self = false → last_move_routing self = false →
  come_back_to_mission self = false →
  Drone.move depot_coords mm self time = Some (self', mm') →
  move_routing self' = false ∧ last_move_routing self' = false
  ∧ come_back_to_mission self' = false
  ∧ last_mission_coords self' = last_mission_coords self
  ∧ path self' = path self
  ∧ time_on_active_routing mm' = time_on_active_routing mm
  ∧ time_on_mission mm' = time_on_mission mm + 1
  ∧ ∃ p1 : float * float,
      py_getitem (path self) (wrapped_waypoint self + 1) = Some p1
      ∧ Drone.next_target depot_coords self = Some (Some p1)
      ∧ (coords self' = p1
         ∨ coords self'
           = Drone.interpolate (time * speed self / euclidean_distance (coords self) p1)
               (coords self) p1).
Proof.
  intros Hmr Hlast Hcb Hmove.
  unfold Drone.move in Hmove. rewrite Hmr, Hlast, Hcb in Hmove. simpl in Hmove.
  destruct (Drone.move_to_mission self time) as [self1 |] eqn:Hmission; [| done].
  simpl in Hmove. injection Hmove as <- <-. simpl.
  unfold Drone.next_target. rewrite Hmr, Hcb.
  unfold Drone.move_to_mission, Drone.update_position in Hmission.
  unfold wrapped_waypoint.
  destruct (Z.of_nat (length (path self)) - 1 <=? current_waypoint self);
    simpl in Hmission; rewrite Hcb in Hmission;
    (destruct (py_getitem (path self) _) as [p1 |] eqn:Hp1; [| done]);
    simpl in Hmission;
    set (all_distance := euclidean_distance (coords self) p1) in *;
    set (distance := (time * speed self)%float) in *;
    destruct (PrimFloat.eqb all_distance 0); destruct (PrimFloat.eqb distance 0);
    destruct (PrimFloat.leb 1 (distance / all_distance));
    destruct (PrimFloat.leb (distance / all_distance) 0);
    simpl in Hmission; rewrite ?Hp1 in Hmission; simpl in Hmission;
    try discriminate; injection Hmission as <-; simpl;
    (split_and!; [done .. |]); exists p1;
    (split_and!; [done | done | first [by left | by right]]).
Qed.

(** X16.  A drone that is at the depot when it moves with move routing,
    and is not coming back to its mission, stays where it is and ends its
    move routing itself; the last move routing recorded is then false.  So,
    over any number of following moves, the drone is on its mission: move
    routing, last move routing and coming back stay false, the point where
    the mission was left is neither changed nor headed for, no move counts
    as active routing and each counts as time on mission; and each further
    move heads for the next waypoint of the path, the point [next_target]
    returns. *)
Theorem move_at_depot_does_not_come_back (depot_coords : float * float)
    (mm : MissionMetrics) self (time : float) :
  move_routing self = true → come_back_to_mission self = false →
  PrimFloat.eqb (euclidean_distance (coords self) depot_coords) 0 = true →
  ∃ (self' : Drone R) (mm' : MissionMetrics),
    Drone.move depot_coords mm self time = Some (self', mm')
    ∧ coords self' = coords self
    ∧ move_routing self' = false ∧ last_move_routing self' = false
    ∧ come_back_to_mission self' = false
    ∧ ∀ (times : list float) (self_n : Drone R) (mm_n : MissionMetrics),
        Flight.moves depot_coords mm' self' times = Some (self_n, mm_n) →
        move_routing self_n = false ∧ last_move_routing self_n = false
        ∧ come_back_to_mission self_n = false
        ∧ last_mission_coords self_n = last_mission_coords self'
        ∧ path self_n = path self
        ∧ time_on_active_routing mm_n = time_on_active_routing mm'
        ∧ time_on_mission mm_n = time_on_mission mm' + Z.of_nat (length times)
        ∧ ∀ (time' : float) (self'' : Drone R) (mm'' : MissionMetrics),
            Drone.move depot_coords mm_n self_n time' = Some (self'', mm'') →
            ∃ p1 : float * float,
              py_getitem (path self) (wrapped_waypoint self_n + 1) = Some p1
              ∧ Drone.next_target depot_coords self_n = Some (Some p1)
              ∧ (coords self'' = p1
                 ∨ coords self''
                   = Drone.interpolate
                       (time' * speed self_n / euclidean_distance (coords self_n) p1)
                       (coords self_n) p1).
Proof.
  intros Hmr Hcb Hat.
  assert (Hfirst : ∃ self',
             Drone.move depot_coords mm self time
             = Some (self', {| all_data_packets_in_simulation :=
                                 all_data_packets_in_simulation mm;
                               events_not_listened := events_not_listened mm;
                               time_on_active_routing := time_on_active_routing mm + 1;
                               time_on_mission := time_on_mission mm |})
             ∧ coords self' = coords self ∧ path self' = path self
             ∧ move_routing self' = false ∧ last_move_routing self' = false
             ∧ come_back_to_mission self' = false).
  { unfold Drone.move, Drone.move_to_depot. rewrite Hmr.
    destruct (last_move_routing self); simpl; rewrite Hat; simpl;
      (eexists; split; [reflexivity | done]). }
  destruct Hfirst as (self' & Hmove & Hc & Hpath & Hmr' & Hlast' & Hcb').
  eexists _, _. split; [exact Hmove |].
  split_and!; [done | done | done | done |].
  set (mm' := {| all_data_packets_in_simulation := all_data_packets_in_simulation mm;
                 events_not_listened := events_not_listened mm;
                 time_on_active_routing := time_on_active_routing mm + 1;
                 time_on_mission := time_on_mission mm |}).
  clearbody mm'. rewrite <- Hpath. clear Hmove Hc Hpath.
  intros times. revert self' mm' Hmr' Hlast' Hcb'.
  induction times as [| t rest IH]; intros d mm_d Hmr' Hlast' Hcb' self_n mm_n Hmoves.
  - cbn [Flight.moves] in Hmoves. injection Hmoves as <- <-.
    split_and!; [done | done | done | done | done | done | simpl; lia |].
    intros time' self'' mm'' Hmove.
    destruct (move_on_mission _ _ _ _ _ _ Hmr' Hlast' Hcb' Hmove)
      as (_ & _ & _ & _ & _ & _ & _ & Hhead).
    exact Hhead.
  - cbn [Flight.moves] in Hmoves.
    destruct (Drone.move depot_coords mm_d d t) as [[d1 mm1] |] eqn:Hmove; [| done].
    simpl in Hmoves.
    destruct (move_on_mission _ _ _ _ _ _ Hmr' Hlast' Hcb' Hmove)
      as (Hmr1 & Hlast1 & Hcb1 & Hleft1 & Hpath1 & Hactive1 & Hmission1 & _).
    destruct (IH d1 mm1 Hmr1 Hlast1 Hcb1 self_n mm_n Hmoves)
      as (Hmr_n & Hlast_n & Hcb_n & Hleft_n & Hpath_n & Hactive_n & Hmission_n & Hhead).
    split_and!; [done | done | done | congruence | congruence | congruence | |].
    + rewrite Hmission_n, Hmission1. cbn [length]. lia.
    + intros time' self'' mm'' Hnext.
      destruct (Hhead time' self'' mm'' Hnext) as (p1 & Hp1 & Htarget & Hat1).
      exists p1. rewrite <- Hpath1. done.
Qed.

End Movement.

(** The theorems on the movement, on the drone of the scenario: on its
    mission, one step of one second from its first waypoint; coming back to
    the point (30, 40) in five seconds; and at the depot with move
    routing. *)
Lemma move_to_mission_follows_path_scenario :
  ∃ d : Drone QTARRouting.instance,
    Scenario.patrol = Some d
    ∧ is_Some (Drone.move_to_mission (H := Scenario.plane) d 1%float)
    ∧ ∃ p1 : float * float,
        Drone.next_target (0%float, 0%float) d = Some (Some p1)
        ∧ py_getitem (path d) 1 = Some p1.
Proof.
  evar (d : Drone QTARRouting.instance).
  exists d.
  assert (Hd : Scenario.patrol = Some d) by (unfold d; vm_compute; reflexivity).
  split_and!; [exact Hd | vm_compute; eauto |].
  destruct (move_to_mission_follows_path (H := Scenario.plane)
              (0%float, 0%float) d 1%float)
    as (p1 & Htarget & _); [reflexivity | reflexivity | simpl; lia | simpl; lia |].
  exists p1. split; [exact Htarget |].
  vm_compute in Htarget. injection Htarget as <-. vm_compute. reflexivity.
Defined.

Lemma move_records_scenario :
  ∃ (d self' : Drone QTARRouting.instance) (mm' : MissionMetrics),
    Scenario.patrol = Some d
    ∧ Drone.move (H := Scenario.plane) (0%float, 0%float) Scenario.no_mission_metrics
        (Drone.set_move_routing d true) 1%float = Some (self', mm')
    ∧ last_move_routing self' = move_routing self'
    ∧ time_on_active_routing mm' = 1 ∧ time_on_mission mm' = 0
    ∧ last_mission_coords self' = Some (0%float, 0%float).
Proof.
  evar (d : Drone QTARRouting.instance).
  evar (self' : Drone QTARRouting.instance).
  evar (mm' : MissionMetrics).
  exists d, self', mm'.
  assert (Hd : Scenario.patrol = Some d) by (unfold d; vm_compute; reflexivity).
  assert (Hmove : Drone.move (H := Scenario.plane) (0%float, 0%float)
                    Scenario.no_mission_metrics (Drone.set_move_routing d true) 1%float
                  = Some (self', mm'))
    by (unfold self', mm'; vm_compute; reflexivity).
  destruct (move_records (H := Scenario.plane) _ _ _ _ _ _ Hmove)
    as (Hlast & _ & _ & Hactive & Hmission & Hleft & _).
  split_and!; [exact Hd | exact Hmove | exact Hlast | | |].
  - rewrite Hactive. reflexivity.
  - rewrite Hmission. reflexivity.
  - rewrite Hleft. reflexivity.
Defined.

Lemma move_comes_back_to_last_mission_coords_scenario :
  ∃ (d self' : Drone QTARRouting.instance) (mm' : MissionMetrics),
    Scenario.patrol = Some d
    ∧ Drone.move (H := Scenario.plane) (0%float, 0%float) Scenario.no_mission_metrics
        (Drone.set_last_mission_coords (Drone.set_last_move_routing d true)
           (Some (30%float, 40%float))) 5%float
      = Some (self', mm')
    ∧ move_routing self' = false ∧ last_move_routing self' = false
    ∧ last_mission_coords self' = Some (30%float, 40%float)
    ∧ current_waypoint self' = 0.
Proof.
  evar (d : Drone QTARRouting.instance).
  evar (self' : Drone QTARRouting.instance).
  evar (mm' : MissionMetrics).
  exists d, self', mm'.
  assert (Hd : Scenario.patrol = Some d) by (unfold d; vm_compute; reflexivity).
  assert (Hmove : Drone.move (H := Scenario.plane) (0%float, 0%float)
                    Scenario.no_mission_metrics
                    (Drone.set_last_mission_coords (Drone.set_last_move_routing d true)
                       (Some (30%float, 40%float))) 5%float
                  = Some (self', mm'))
    by (unfold self', mm'; vm_compute; reflexivity).
  pose proof (move_comes_back_to_last_mission_coords (H := Scenario.plane)
                (0%float, 0%float) Scenario.no_mission_metrics
                (Drone.set_last_mission_coords (Drone.set_last_move_routing d true)
                   (Some (30%float, 40%float))) 5%float (30%float, 40%float)
                eq_refl (or_introl eq_refl) eq_refl) as Hback.
  cbv zeta in Hback. rewrite Hmove in Hback.
  destruct Hback as (Hmr & Hlast & Hleft & Hway & _).
  split_and!; [exact Hd | exact Hmove | exact Hmr | exact Hlast | exact Hleft |].
  rewrite Hway. reflexivity.
Defined.

Lemma move_at_depot_does_not_come_back_scenario :
  ∃ (d self' self_n : Drone QTARRouting.instance) (mm' mm_n : MissionMetrics),
    Scenario.patrol = Some d
    ∧ Drone.move (H := Scenario.plane) (0%float, 0%float) Scenario.no_mission_metrics
        (Drone.set_move_routing d true) 1%float = Some (self', mm')
    ∧ move_routing self' = false ∧ last_move_routing self' = false
    ∧ come_back_to_mission self' = false
    ∧ Flight.moves (H := Scenario.plane) (0%float, 0%float) mm' self'
        [1%float; 1%float] = Some (self_n, mm_n)
    ∧ come_back_to_mission self_n = false
    ∧ last_mission_coords self_n = Some (0%float, 0%float)
    ∧ time_on_active_routing mm_n = 1 ∧ time_on_mission mm_n = 2.
Proof.
  evar (d : Drone QTARRouting.instance).
  assert (Hd : Scenario.patrol = Some d) by (unfold d; vm_compute; reflexivity).
  destruct (move_at_depot_does_not_come_back (H := Scenario.plane)
              (0%float, 0%float) Scenario.no_mission_metrics
              (Drone.set_move_routing d true) 1%float)
    as (self' & mm' & Hmove & _ & Hmr & Hlast & Hcb & Hnext);
    [reflexivity | reflexivity | vm_compute; reflexivity |].
  assert (Hsame : Drone.move (H := Scenario.plane) (0%float, 0%float)
                    Scenario.no_mission_metrics (Drone.set_move_routing d true) 1%float
                  = Some (Drone.set_last_mission_coords d (Some (0%float, 0%float)),
                          {| all_data_packets_in_simulation := 0;
                             events_not_listened := ∅;
                             time_on_active_routing := 1;
                             time_on_mission := 0 |}))
    by (vm_compute; reflexivity).
  rewrite Hsame in Hmove.
  apply (f_equal (fun o => match o with
                           | Some p => p
                           | None => (d, Scenario.no_mission_metrics)
                           end)) in Hmove.
  cbv beta iota in Hmove.
  assert (Hself' : self' = Drone.set_last_mission_coords d (Some (0%float, 0%float)))
    by exact (eq_sym (f_equal fst Hmove)).
  assert (Hmm' : mm' = {| all_data_packets_in_simulation := 0;
                          events_not_listened := ∅;
                          time_on_active_routing := 1;
                          time_on_mission := 0 |})
    by exact (eq_sym (f_equal snd Hmove)).
  evar (self_n : Drone QTARRouting.instance).
  evar (mm_n : MissionMetrics).
  assert (Hmoves : Flight.moves (H := Scenario.plane) (0%float, 0%float) mm' self'
                     [1%float; 1%float] = Some (self_n, mm_n)).
  { rewrite Hself', Hmm'. unfold self_n, mm_n. vm_compute. reflexivity. }
  destruct (Hnext _ _ _ Hmoves) as (_ & _ & Hcb_n & Hleft_n & _ & Hactive_n & Hmission_n & _).
  exists d, self', self_n, mm', mm_n.
  split_and!; [exact Hd | by rewrite Hsame, Hself', Hmm' | exact Hmr | exact Hlast
              | exact Hcb | exact Hmoves | exact Hcb_n | | |].
  - rewrite Hleft_n, Hself'. reflexivity.
  - rewrite Hactive_n, Hmm'. reflexivity.
  - rewrite Hmission_n, Hmm'. reflexivity.
Defined.

(** ** QTAR: the order of the selection *)

Section NumpySortOrder.
Import QTARRouting.
Context `{Utilities instance}.

Lemma SFeqb_diag (x : spec_float) :
  SFeqb x x = match x with S754_nan => false | _ => true end.
Proof.
  destruct x as [s | s | | s m e]; unfold SFeqb; simpl; try done.
  - by destruct s.
  - rewrite Z.compare_refl, Pos.compare_cont_refl. by destruct s.
Qed.

(** [NumpySort.lt] on the values the floats stand for. *)
Lemma NumpySort_lt_spec (a b : float) :
  NumpySort.lt a b
  = SFltb (Prim2SF a) (Prim2SF b)
    || (match Prim2SF a with S754_nan => false | _ => true end
        && match Prim2SF b with S754_nan => true | _ => false end).
Proof.
  unfold NumpySort.lt, is_nan.
  rewrite FloatAxioms.ltb_spec, !FloatAxioms.eqb_spec, !SFeqb_diag.
  by destruct (Prim2SF a), (Prim2SF b).
Qed.

Local Ltac order_cases :=
  repeat match goal with
         | |- context [(?x ?= ?y)%Z] =>
             destruct (Z.compare_spec x y); subst; simpl; try lia
         | H : context [(?x ?= ?y)%Z] |- _ =>
             destruct (Z.compare_spec x y); subst; simpl in *; try lia
         | |- context [Pos.compare_cont Eq ?x ?y] =>
             change (Pos.compare_cont Eq x y) with (Pos.compare x y);
             destruct (Pos.compare_spec x y); subst; simpl; try lia
         | H : context [Pos.compare_cont Eq ?x ?y] |- _ =>
             change (Pos.compare_cont Eq x y) with (Pos.compare x y) in H;
             destruct (Pos.compare_spec x y); subst; simpl in *; try lia
         end.

Lemma NumpySort_lt_asym (a b : float) :
  NumpySort.lt a b = true → NumpySort.lt b a = false.
Proof.
  rewrite !NumpySort_lt_spec. unfold SFltb.
  destruct (Prim2SF a) as [sa | sa | | sa ma ea], (Prim2SF b) as [sb | sb | | sb mb eb];
    simpl; try done;
    try (destruct sa; simpl; try done); try (destruct sb; simpl; try done);
    intros Hlt; order_cases; try done.
Qed.

Lemma NumpySort_le_trans (a b c : float) :
  NumpySort.lt b a = false → NumpySort.lt c b = false → NumpySort.lt c a = false.
Proof.
  rewrite !NumpySort_lt_spec. unfold SFltb.
  destruct (Prim2SF a) as [sa | sa | | sa ma ea], (Prim2SF b) as [sb | sb | | sb mb eb],
    (Prim2SF c) as [sc | sc | | sc mc ec];
    simpl; try done;
    try (destruct sa; simpl; try done); try (destruct sb; simpl; try done);
    try (destruct sc; simpl; try done);
    intros Hab Hbc; order_cases; try done.
Qed.


Lemma NumpySort_lt_irrefl (a : float) : NumpySort.lt a a = false.
Proof.
  destruct (NumpySort.lt a a) eqn:Hlt; [| done].
  by rewrite (NumpySort_lt_asym a a Hlt) in Hlt.
Qed.

(** The insertion leaves a list in ascending order of value in ascending
    order. *)
Lemma insert_StronglySorted (x : float * Z) (l : list (float * Z)) :
  Sorted.StronglySorted (fun p q => NumpySort.lt q.1 p.1 = false) l →
  Sorted.StronglySorted (fun p q => NumpySort.lt q.1 p.1 = false) (NumpySort.insert x l).
Proof.
  induction 1 as [| y l Hsorted IH Hhead]; simpl.
  - repeat constructor.
  - destruct (NumpySort.lt y.1 x.1) eqn:Hlt.
    + constructor; [exact IH |].
      rewrite argsort_insert_Permutation.
      constructor; [by apply NumpySort_lt_asym | exact Hhead].
    + constructor; [by constructor |].
      constructor; [exact Hlt |].
      eapply Forall_impl; [exact Hhead |].
      intros z Hz. simpl in Hz. by apply (NumpySort_le_trans _ y.1).
Qed.

Lemma sorted_pairs (a : list float) :
  let pairs := foldr NumpySort.insert [] (zip a (Z.of_nat <$> seq 0 (length a))) in
  Sorted.StronglySorted (fun p q => NumpySort.lt q.1 p.1 = false) pairs
  ∧ NumpySort.argsort a = pairs.*2
  ∧ ∀ (v : float) (k : Z), (v, k) ∈ pairs ↔ (0 ≤ k ∧ a !! Z.to_nat k = Some v).
Proof.
  intros pairs. split_and!.
  - unfold pairs. induction (zip a (Z.of_nat <$> seq 0 (length a))) as [| x l IH];
      [constructor | by apply insert_StronglySorted].
  - done.
  - intros v k.
    assert (Hperm : pairs ≡ₚ zip a (Z.of_nat <$> seq 0 (length a))).
    { unfold pairs. induction (zip a (Z.of_nat <$> seq 0 (length a))) as [| x l IH];
        [done |]. simpl. by rewrite argsort_insert_Permutation, IH. }
    rewrite Hperm, list_elem_of_lookup. split.
    + intros (i & Hi). apply lookup_zip_with_Some in Hi as (v' & k' & Heq & Hv & Hk).
      injection Heq as -> ->.
      rewrite list_lookup_fmap in Hk.
      destruct (seq 0 (length a) !! i) as [j |] eqn:Hj; [| done].
      apply lookup_seq in Hj as [-> _]. simpl in Hk. injection Hk as <-.
      split; [lia |]. by rewrite Nat2Z.id.
    + intros [Hk Hv]. exists (Z.to_nat k).
      apply lookup_zip_with_Some. exists v, k. split_and!; [done | done |].
      rewrite list_lookup_fmap, lookup_seq_lt by (by apply lookup_lt_Some in Hv).
      simpl. f_equal. lia.
Qed.

(** The first selected position of a list in ascending order of value has
    a value no selected position is below. *)
Lemma first_selected_lowest (pairs : list (float * Z)) (neighborsId : list Z) :
  Sorted.StronglySorted (fun p q => NumpySort.lt q.1 p.1 = false) pairs →
  ∀ (v : float) (k : Z),
    (v, k) ∈ pairs → k ∈ neighborsId →
    ∃ va : float,
      (va, first_selected pairs.*2 neighborsId) ∈ pairs
      ∧ first_selected pairs.*2 neighborsId ∈ neighborsId
      ∧ NumpySort.lt v va = false.
Proof.
  induction 1 as [| [v0 k0] rest Hsorted IH Hhead]; intros v k Hin Hsel.
  - by apply elem_of_nil in Hin.
  - cbn [fmap list_fmap snd first_selected]. case_bool_decide as Hk0.
    + exists v0. split_and!; [apply elem_of_cons; by left | done |].
      apply elem_of_cons in Hin as [Heq | Hin].
      * injection Heq as -> ->. apply NumpySort_lt_irrefl.
      * by apply (proj1 (Forall_forall _ _) Hhead (v, k)).
    + apply elem_of_cons in Hin as [Heq | Hin]; [by injection Heq as -> -> |].
      destruct (IH v k Hin Hsel) as (va & Hva & Hfirst & Hlow).
      exists va. split_and!; [apply elem_of_cons; by right | done | done].
Qed.

(** X17.  Among the selected drones whose identifier is a position of the
    table of values, [relay_selection] takes one of the lowest value, not of
    the highest: the positions are scanned in ascending order of value, NaN
    last, and the scan stops at the first selected one.  No selected drone
    has a value below that of the drone taken. *)
Theorem relay_selection_takes_lowest_value (self : instance) (simulator : Simulator)
    (ds : list (Drone instance)) (me : Drone instance) (packet : DataPacket)
    (drone_near_depot_id : Z) (selected : list (Drone instance))
    (d : Drone instance) (qd : float) :
  ds !! drone self = Some me →
  selected_drones simulator ds packet me drone_near_depot_id = Some selected →
  (length (q_table self) ≤ length ds)%nat →
  d ∈ selected → 0 ≤ identifier d →
  q_table self !! Z.to_nat (identifier d) = Some qd →
  ∃ (action : Z) (qa : float) (self' : instance),
    relay_selection self simulator ds packet drone_near_depot_id
    = Some (Z.to_nat action, self')
    ∧ taken_actions self' !! identifier (event_ref packet) = Some (identifier me, action)
    ∧ 0 ≤ action
    ∧ action ∈ (fun d : Drone instance => identifier d) <$> selected
    ∧ q_table self !! Z.to_nat action = Some qa
    ∧ NumpySort.lt qd qa = false.
Proof.
  intros Hme Hsel Hlen Hd Hid Hqd.
  destruct (sorted_pairs (q_table self)) as (Hsorted & Hargsort & Hpairs).
  set (pairs := foldr NumpySort.insert []
                  (zip (q_table self) (Z.of_nat <$> seq 0 (length (q_table self))))) in *.
  destruct (first_selected_lowest pairs
              ((fun d : Drone instance => identifier d) <$> selected) Hsorted
              qd (identifier d))
    as (qa & Hqa & Hfirst & Hlow).
  { by apply Hpairs. }
  { apply list_elem_of_fmap. by exists d. }
  apply Hpairs in Hqa as [Hpos Hqa].
  rewrite <- Hargsort in Hpos, Hqa, Hfirst.
  set (action := first_selected (NumpySort.argsort (q_table self))
                   ((fun d : Drone instance => identifier d) <$> selected)) in *.
  exists action, qa. eexists. split_and!; [| | done | done | done | done].
  - unfold relay_selection. rewrite Hme. simpl. rewrite Hsel. simpl. fold action.
    unfold py_index.
    assert (Z.to_nat action < length (q_table self))%nat by (by apply lookup_lt_Some in Hqa).
    destruct (Z.leb_spec 0 action); [| lia].
    destruct (Z.ltb_spec action (Z.of_nat (length ds))); [| lia].
    simpl. reflexivity.
  - simpl. apply lookup_insert_eq.
Qed.

End NumpySortOrder.

(** The theorem on the drone 0 of the scenario with two candidates: the
    drone 1, of value 0.9, and the drone 2, of value 0.3, are both
    selected; the drone 2 is taken. *)
Lemma relay_selection_takes_lowest_value_scenario :
  ∃ (ds : list (Drone QTARRouting.instance)) (me d1 : Drone QTARRouting.instance),
    Scenario.roster_two_candidates = Some ds
    ∧ ds !! 0%nat = Some me ∧ ds !! 1%nat = Some d1
    ∧ QTARRouting.q_table (routing_algorithm me) = [0%float; 0.9%float; 0.3%float]
    ∧ (∃ self' : QTARRouting.instance,
         QTARRouting.relay_selection (H := Scenario.full_speed) (routing_algorithm me)
           (Scenario.sim3 1) ds (Scenario.packet_of 2001 1001 0) (-1)
         = Some (2%nat, self'))
    ∧ ∃ (action : Z) (qa : float),
        QTARRouting.q_table (routing_algorithm me) !! Z.to_nat action = Some qa
        ∧ NumpySort.lt 0.9%float qa = false.
Proof.
  evar (ds : list (Drone QTARRouting.instance)).
  evar (me : Drone QTARRouting.instance).
  evar (d1 : Drone QTARRouting.instance).
  evar (selected : list (Drone QTARRouting.instance)).
  exists ds, me, d1.
  assert (Hds : Scenario.roster_two_candidates = Some ds)
    by (unfold ds; vm_compute; reflexivity).
  assert (Hme : ds !! 0%nat = Some me) by (unfold ds, me; vm_compute; reflexivity).
  assert (Hd1 : ds !! 1%nat = Some d1) by (unfold ds, d1; vm_compute; reflexivity).
  assert (Hsel : QTARRouting.selected_drones (H := Scenario.full_speed) (Scenario.sim3 1)
                   ds (Scenario.packet_of 2001 1001 0) me (-1) = Some selected)
    by (unfold selected; vm_compute; reflexivity).
  split_and!; [exact Hds | exact Hme | exact Hd1 | reflexivity
              | eexists; vm_compute; reflexivity |].
  destruct (relay_selection_takes_lowest_value (H := Scenario.full_speed)
              (routing_algorithm me) (Scenario.sim3 1) ds me
              (Scenario.packet_of 2001 1001 0) (-1) selected d1 0.9%float Hme Hsel)
    as (action & qa & self' & _ & _ & _ & _ & Hqa & Hlow).
  - simpl. lia.
  - apply elem_of_cons. right. apply elem_of_cons. left. reflexivity.
  - simpl. lia.
  - reflexivity.
  - exists action, qa. split; [exact Hqa | exact Hlow].
Defined.

(** ** The slots the hello interval is computed from *)

Section HelloSlots.
Context {R : Type}.
Implicit Types self : Drone R.

Lemma mapM_ext_in {A B : Type} (f g : A → option B) (l : list A) :
  (∀ x, x ∈ l → f x = g x) → mapM f l = mapM g l.
Proof.
  induction l as [| x l IH]; intros Hfg; [done |]. simpl.
  rewrite (Hfg x) by (apply elem_of_cons; by left).
  rewrite IH; [done |]. intros y Hy. apply Hfg, elem_of_cons. by right.
Qed.

Lemma py_setitem_in_range {A : Type} (l : list A) (i : Z) (v : A) :
  0 ≤ i < Z.of_nat (length l) → py_setitem l i v = Some (<[Z.to_nat i := v]> l).
Proof.
  intros Hi. unfold py_setitem, py_index.
  destruct (Z.leb_spec 0 i); [| lia].
  destruct (Z.ltb_spec i (Z.of_nat (length l))); [| lia]. done.
Qed.

(** [calc_distances] on neighbors whose identifiers are all at least [n]
    leaves the slots below [n] as they are. *)
Lemma calc_distances_far_slots (simulator : Simulator) (n : nat)
    (neighbor_drones : list (Drone R)) :
  ∀ self,
    (∀ neighbor : Drone R, neighbor ∈ neighbor_drones →
       Z.of_nat n ≤ identifier neighbor < Z.of_nat (length (dist_t2 self))
       ∧ identifier neighbor < Z.of_nat (length (t2 self))) →
    ∃ self' : Drone R,
      Drone.calc_distances simulator self neighbor_drones = Some self'
      ∧ (∀ i, (i < n)%nat → dist_t2 self' !! i = dist_t2 self !! i
                             ∧ t2 self' !! i = t2 self !! i)
      ∧ dist_t1 self' = dist_t1 self ∧ t1 self' = t1 self
      ∧ speed self' = speed self
      ∧ communication_range self' = communication_range self
      ∧ tau self' = tau self.
Proof.
  induction neighbor_drones as [| neighbor rest IH]; intros self Hfar.
  - exists self. by split_and!.
  - destruct (Hfar neighbor) as [Hd Ht]; [apply elem_of_cons; by left |].
    cbn [Drone.calc_distances].
    rewrite !py_setitem_in_range by lia. simpl.
    destruct (IH (Drone.set_samples_t2 self
                    (<[Z.to_nat (identifier neighbor) := Drone.distance_to self neighbor]>
                       (dist_t2 self))
                    (<[Z.to_nat (identifier neighbor) :=
                         PyFloat.of_int (cur_step simulator)]> (t2 self))))
      as (self' & Hcalc & Hslots & Hd1 & Ht1 & Hs & Hc & Htau).
    { intros nb Hnb. simpl. rewrite !length_insert.
      apply Hfar, elem_of_cons. by right. }
    exists self'. split_and!; try done.
    intros i Hi. destruct (Hslots i Hi) as [-> ->]. simpl.
    rewrite !list_lookup_insert_ne by lia. done.
Qed.

(** X18.  The loop of [update_hello_interval] reads the samples in the
    slots of the positions in the list of neighbors, while [calc_distances]
    writes them in the slots of the identifiers.  So, when every neighbor
    has an identifier that is at least the number of neighbors, the
    distances just measured are not read: the link holding timer is the
    maximum of the estimates from the samples the drone had before the
    call, whatever the positions of the neighbors. *)
Theorem update_hello_interval_ignores_far_neighbors (simulator : Simulator) self
    (neighbors : list (Drone R)) :
  (0 < length neighbors)%nat →
  (∀ neighbor : Drone R, neighbor ∈ neighbors →
     Z.of_nat (length neighbors) ≤ identifier neighbor
     < Z.of_nat (length (dist_t2 self))) →
  length (dist_t1 self) = length (dist_t2 self) →
  length (t1 self) = length (dist_t2 self) →
  length (t2 self) = length (dist_t2 self) →
  ∃ (link_duration : list float) (self' : Drone R),
    Drone.link_durations self (length neighbors) = Some link_duration
    ∧ Drone.update_hello_interval simulator self neighbors = Some self'
    ∧ PyFloat.nanmax link_duration = Some (link_holding_timer self')
    ∧ hello_interval self' = PyFloat.ceil (tau self * link_holding_timer self').
Proof.
  intros Hn Hfar Hd1 Ht1 Ht2.
  destruct neighbors as [| first others] eqn:Hneighbors; [simpl in Hn; lia |].
  rewrite <- Hneighbors in *.
  assert (Hfits : (length neighbors ≤ length (dist_t2 self))%nat).
  { destruct (Hfar first); [rewrite Hneighbors; apply elem_of_cons; by left | lia]. }
  destruct (calc_distances_far_slots simulator (length neighbors) neighbors self)
    as (self1 & Hcalc & Hslots & Hsd1 & Hst1 & Hs & Hc & Htau).
  { intros nb Hnb. destruct (Hfar nb Hnb). lia. }
  assert (Hsame : Drone.link_durations self1 (length neighbors)
                  = Drone.link_durations self (length neighbors)).
  { unfold Drone.link_durations. apply mapM_ext_in. intros i Hi.
    apply elem_of_seq in Hi. destruct (Hslots i) as [Hi1 Hi2]; [lia |].
    unfold Drone.link_duration_at, Drone.closing_speed_estimate,
      Drone.distance_over_speed_estimate.
    by rewrite Hi1, Hi2, Hsd1, Hst1, Hs, Hc. }
  destruct (link_durations_is_Some self (length neighbors)) as [ld Hld]; [lia .. |].
  pose proof (link_durations_length _ _ _ Hld) as Hlen.
  destruct ld as [| x ld']; [simpl in Hlen; lia |].
  exists (x :: ld'). eexists. split; [exact Hld |]. split.
  { unfold Drone.update_hello_interval.
    destruct (Nat.eqb_spec (length neighbors) 0); [lia |].
    rewrite Hcalc. simpl. rewrite Hsame, Hld. simpl. reflexivity. }
  split; [reflexivity |]. simpl. by rewrite Htau.
Qed.

End HelloSlots.

(** The theorem on the drone 0 of the scenario, which hears the drone 1
    alone. *)
Lemma update_hello_interval_ignores_far_neighbors_scenario :
  ∃ (me neighbor : Drone QTARRouting.instance),
    Scenario.drone_at 0 0%float 0%float = Some me
    ∧ Scenario.drone_at 1 30%float 40%float = Some neighbor
    ∧ ∃ (link_duration : list float) (self' : Drone QTARRouting.instance),
        Drone.link_durations me 1 = Some link_duration
        ∧ Drone.update_hello_interval (Scenario.sim 1) me [neighbor] = Some self'
        ∧ PyFloat.nanmax link_duration = Some (link_holding_timer self')
        ∧ hello_interval self' = PyFloat.ceil (tau me * link_holding_timer self').
Proof.
  evar (me : Drone QTARRouting.instance).
  evar (neighbor : Drone QTARRouting.instance).
  exists me, neighbor.
  assert (Hme : Scenario.drone_at 0 0%float 0%float = Some me)
    by (unfold me; vm_compute; reflexivity).
  assert (Hneighbor : Scenario.drone_at 1 30%float 40%float = Some neighbor)
    by (unfold neighbor; vm_compute; reflexivity).
  split_and!; [exact Hme | exact Hneighbor |].
  apply (update_hello_interval_ignores_far_neighbors (Scenario.sim 1) me [neighbor]);
    [simpl; lia | | reflexivity | reflexivity | reflexivity].
  intros nb Hnb. apply list_elem_of_singleton in Hnb as ->. simpl. lia.
Defined.

(** ** The position announced and the position reached *)

Section NextMove.
Context {R : Type} `{Geometry}.
Implicit Types self : Drone R.
Import PathView.

(** X19.  For a drone on its mission whose waypoint index is within its
    path, [next_move_to_mission_point] fails exactly when the move of one
    time step fails, and between two waypoints it returns the position the
    move reaches.  When the move reaches a waypoint it does not: it
    returns the waypoint of the index the move starts from, the one before
    the waypoint reached, which is the last of the path when the index has
    wrapped around. *)
Theorem next_move_to_mission_point_lags_at_waypoint (simulator : Simulator) self :
  come_back_to_mission self = false →
  (0 < length (path self))%nat →
  -1 ≤ current_waypoint self < Z.of_nat (length (path self)) →
  match Drone.move_to_mission self (time_step_duration simulator),
        Drone.next_move_to_mission_point simulator self with
  | Some self', Some announced =>
      (current_waypoint self' = wrapped_waypoint self ∧ coords self' = announced)
      ∨ (current_waypoint self' = wrapped_waypoint self + 1
         ∧ py_getitem (path self) (wrapped_waypoint self + 1) = Some (coords self')
         ∧ py_getitem (path self) (wrapped_waypoint self) = Some announced)
  | None, None => True
  | _, _ => False
  end.
Proof.
  intros Hcb Hlen Hcw.
  destruct (wrapped_waypoint_next self Hlen Hcw) as (p1 & Hp1 & Hrange).
  assert (Hprev : ∃ p0, py_getitem (path self) (wrapped_waypoint self) = Some p0).
  { destruct (Z.eq_dec (wrapped_waypoint self) (-1)) as [-> | Hne].
    - unfold py_getitem, py_index.
      replace (0 <=? -1) with false by reflexivity. simpl.
      destruct (Z.leb_spec (- Z.of_nat (length (path self))) (-1)); [| lia]. simpl.
      apply lookup_lt_is_Some_2. lia.
    - assert (0 ≤ wrapped_waypoint self < Z.of_nat (length (path self))).
      { unfold wrapped_waypoint in *. destruct (_ <=? _); lia. }
      rewrite py_getitem_in_range by lia. apply lookup_lt_is_Some_2. lia. }
  destruct Hprev as [p0 Hp0].
  unfold Drone.move_to_mission, Drone.next_move_to_mission_point, Drone.update_position.
  unfold wrapped_waypoint in *.
  destruct (Z.of_nat (length (path self)) - 1 <=? current_waypoint self);
    simpl in Hp1, Hp0 |- *; rewrite Hcb, Hp1; simpl;
    set (all_distance := euclidean_distance (coords self) p1);
    set (distance := (time_step_duration simulator * speed self)%float);
    set (t := (distance / all_distance)%float);
    destruct (PrimFloat.eqb all_distance 0); destruct (PrimFloat.eqb distance 0);
    destruct (PrimFloat.leb 1 t); destruct (PrimFloat.leb t 0);
    simpl; rewrite ?Hp1, ?Hp0; simpl;
    first [done | (left; done) | (right; done)].
Qed.

(** X20.  A move keeps the identifier of the drone: the drone is equal to
    the drone it was, and has the same hash, wherever it has moved. *)
Theorem move_keeps_identity (depot_coords : float * float) (mm mm' : MissionMetrics)
    self (self' : Drone R) (time : float) :
  Drone.move depot_coords mm self time = Some (self', mm') →
  identifier self' = identifier self
  ∧ Entity.__eq__ self self' = true
  ∧ Drone.__hash__ self' = Drone.__hash__ self.
Proof.
  intros Hmove.
  assert (Hid : identifier self' = identifier self).
  { unfold Drone.move in Hmove.
    assert (Hup : ∀ (d d' : Drone R) p1,
               Drone.update_position d p1 = Some d' → identifier d' = identifier d).
    { unfold Drone.update_position. intros d d' p1 Hd.
      destruct (come_back_to_mission d); [by injection Hd as <- |].
      simpl in Hd. destruct (py_getitem _ _); [| done]. by injection Hd as <-. }
    destruct (move_routing self); simpl in Hmove.
    - destruct (Drone.move_to_depot depot_coords _ time) as [self1 |] eqn:Hdepot;
        [| done].
      simpl in Hmove. injection Hmove as <- <-. simpl.
      unfold Drone.move_to_depot in Hdepot.
      destruct (PrimFloat.eqb _ 0) in Hdepot;
        [injection Hdepot as <-; by destruct (last_move_routing self) |].
      destruct (PrimFloat.leb 1 _) in Hdepot;
        [injection Hdepot as <-; by destruct (last_move_routing self) |].
      destruct (PrimFloat.leb _ 0) in Hdepot; [done |].
      injection Hdepot as <-. by destruct (last_move_routing self).
    - destruct (Drone.move_to_mission _ time) as [self1 |] eqn:Hmission; [| done].
      simpl in Hmove. injection Hmove as <- <-. simpl.
      unfold Drone.move_to_mission in Hmission.
      set (self0 := if last_move_routing self
                    then Drone.set_come_back_to_mission self true else self) in *.
      set (self2 := if Z.of_nat (length (path self0)) - 1 <=? current_waypoint self0
                    then Drone.set_current_waypoint self0 (-1) else self0) in *.
      assert (Hsame : identifier self2 = identifier self).
      { unfold self2, self0.
        by destruct (_ <=? _), (last_move_routing self). }
      rewrite <- Hsame. clearbody self2.
      destruct (if come_back_to_mission self2 then last_mission_coords self2
                else py_getitem (path self2) (current_waypoint self2 + 1)) as [p1 |];
        [| done].
      simpl in Hmission.
      destruct (_ || _) in Hmission; [by apply Hup in Hmission |].
      destruct (PrimFloat.leb 1 _) in Hmission; [by apply Hup in Hmission |].
      destruct (PrimFloat.leb _ 0) in Hmission; [done |].
      by injection Hmission as <-. }
  split_and!; [done | | ].
  - unfold Entity.__eq__. rewrite Hid. apply Z.eqb_refl.
  - unfold Drone.__hash__. by rewrite Hid.
Qed.

End NextMove.

(** The two theorems on the drone of the scenario whose second waypoint is
    one step away: the move reaches the waypoint (6, 8), the position
    announced is the waypoint (0, 0). *)
Lemma next_move_to_mission_point_lags_at_waypoint_scenario :
  ∃ (d self' : Drone QTARRouting.instance),
    Scenario.patrol_short = Some d
    ∧ Drone.move_to_mission (H := Scenario.plane) d 1%float = Some self'
    ∧ coords self' = (6%float, 8%float)
    ∧ Drone.next_move_to_mission_point (H := Scenario.plane) (Scenario.sim 0) d
      = Some (0%float, 0%float)
    ∧ current_waypoint self' = 1.
Proof.
  evar (d : Drone QTARRouting.instance).
  evar (self' : Drone QTARRouting.instance).
  exists d, self'.
  assert (Hd : Scenario.patrol_short = Some d) by (unfold d; vm_compute; reflexivity).
  assert (Hmove : Drone.move_to_mission (H := Scenario.plane) d
                    (time_step_duration (Scenario.sim 0)) = Some self')
    by (unfold self'; vm_compute; reflexivity).
  assert (Hnext : Drone.next_move_to_mission_point (H := Scenario.plane)
                    (Scenario.sim 0) d = Some (0%float, 0%float))
    by (vm_compute; reflexivity).
  pose proof (next_move_to_mission_point_lags_at_waypoint (H := Scenario.plane)
                (Scenario.sim 0) d eq_refl ltac:(simpl; lia) ltac:(simpl; lia)) as Hlag.
  rewrite Hmove, Hnext in Hlag.
  split_and!; [exact Hd | exact Hmove | reflexivity | exact Hnext |].
  destruct Hlag as [[Hway _] | [Hway _]]; [| exact Hway].
  vm_compute in Hway. discriminate Hway.
Defined.

Lemma move_keeps_identity_scenario :
  ∃ (d self' : Drone QTARRouting.instance) (mm' : MissionMetrics),
    Scenario.patrol = Some d
    ∧ Drone.move (H := Scenario.plane) (0%float, 0%float) Scenario.no_mission_metrics
        d 1%float = Some (self', mm')
    ∧ identifier self' = identifier d
    ∧ Entity.__eq__ d self' = true
    ∧ Drone.__hash__ self' = Drone.__hash__ d.
Proof.
  evar (d : Drone QTARRouting.instance).
  evar (self' : Drone QTARRouting.instance).
  evar (mm' : MissionMetrics).
  exists d, self', mm'.
  assert (Hd : Scenario.patrol = Some d) by (unfold d; vm_compute; reflexivity).
  assert (Hmove : Drone.move (H := Scenario.plane) (0%float, 0%float)
                    Scenario.no_mission_metrics d 1%float = Some (self', mm'))
    by (unfold self', mm'; vm_compute; reflexivity).
  split_and!; [exact Hd | exact Hmove | ..];
    apply (move_keeps_identity (H := Scenario.plane) _ _ _ _ _ _ Hmove).
Defined.
